(** * Conversational task manager: tool layer, agent loop and chat coordinators

    A shallow embedding of the Python backend:

    - [phase-3/backend/app/mcp/utils.py] and [app/mcp/tools/*.py]
      (the five task tools),
    - [phase-3/backend/app/services/ai_agent.py] (tool schemas, the agentic
      loop and tool dispatch),
    - [phase-3/backend/app/routes/chat.py] (the transactional chat endpoint),
    - [phase-03/backend/app/services/message_service.py],
      [phase-03/backend/app/services/conversation_service.py],
      [phase-03/backend/app/routes/chat.py],
      [phase-03/backend/app/ai/agent.py],
      [phase-03/backend/app/ai/gemini_client.py],
      [phase-03/backend/app/mcp/server.py] and
      [phase-03/backend/app/mcp/tools.py] (the earlier chat endpoint, its
      token-bounded history loader, its agent, its tool schemas and its
      tools).

    Python values that reach the tools from the model are dynamically typed;
    they are embedded as [pyval].  Code that may raise returns an [outcome];
    code that reads or writes the database threads a [World].  Logging and
    printing to stderr have no effect on any result and are left out. *)

From Stdlib Require Import ZArith String Ascii List Bool Lia DecimalString Sorted.
From stdpp Require Import base gmap strings list.
Import ListNotations.

Local Open Scope string_scope.
Local Open Scope list_scope.

(* ===================================================================== *)
(** * Python values, strings and exceptions                               *)
(* ===================================================================== *)

(** What [json.loads] can produce (numbers with a fractional part are not
    represented).  A [string] is read as a Python [str] whose code points
    are all below 256. *)
#[warnings="-register-all"]
Inductive pyval : Type :=
  | PNone
  | PBool (b : bool)
  | PInt (z : Z)
  | PStr (s : string)
  | PList (items : list pyval)
  | PDict (items : gmap string pyval).

(** [str.isspace] on one code point below 256: TAB..CR, FS..US, SPACE,
    NEL and NBSP. *)
Definition isspace (c : ascii) : bool :=
  let n := nat_of_ascii c in
  ((9 <=? n) && (n <=? 13) || (28 <=? n) && (n <=? 32)
   || (n =? 133) || (n =? 160))%nat.

Fixpoint lstrip (s : string) : string :=
  match s with
  | EmptyString => EmptyString
  | String c s' => if isspace c then lstrip s' else s
  end.

Fixpoint rstrip (s : string) : string :=
  match s with
  | EmptyString => EmptyString
  | String c s' =>
      match rstrip s' with
      | EmptyString => if isspace c then EmptyString else String c EmptyString
      | r => String c r
      end
  end.

(** [s.strip()] *)
Definition strip (s : string) : string := rstrip (lstrip s).

(** [len(s)] *)
Definition len (s : string) : Z := Z.of_nat (String.length s).

(** [str(n)] for a non-negative integer, used in f-strings. *)
Definition str_of_nat (n : nat) : string := NilEmpty.string_of_uint (Nat.to_uint n).

(** Python truth value, as tested by [if x] and [not x]. *)
Definition truthy (v : pyval) : bool :=
  match v with
  | PNone => false
  | PBool b => b
  | PInt z => negb (z =? 0)%Z
  | PStr s => negb (String.eqb s "")
  | PList items => match items with [] => false | _ => true end
  | PDict items => negb (bool_decide (items = ∅))
  end.

(** The exception classes that occur, with the text a handler would see. *)
Inductive exn : Type :=
  | TypeError (msg : string)
  | AttributeError (msg : string)
  | JSONDecodeError
  | OperationalError (msg : string)      (* raised by the storage layer *)
  | APIError (msg : string)              (* raised by the model client *)
  | GeminiAPIError (msg : string)
  | MCPToolError (msg : string)
  | ValueError (msg : string)
  | ValidationError (msg : string)
  | HTTPException (status_code : nat).

(** Result of running Python code.  [Unmodelled] marks the one situation the
    embedding does not decide: a value of a type other than the column's
    reaches the SQL driver (whether the driver coerces or refuses it is not
    determined by this repository). *)
Inductive outcome (A : Type) : Type :=
  | Ok (a : A)
  | Exc (e : exn)
  | Unmodelled.
Arguments Ok {A} a.
Arguments Exc {A} e.
Arguments Unmodelled {A}.

(* ===================================================================== *)
(** * The task table and the environment                                  *)
(* ===================================================================== *)

(** [app/models/task.py]: one row of table [tasks]. *)
Module Task.
Record t : Type := mk {
  id : Z;
  user_id : string;
  title : string;
  description : option string;
  completed : bool;
  created_at : nat;
  updated_at : nat
}.
End Task.

(** What the tools and the agent can observe and change: the committed
    [tasks] table (rows in insertion order), the primary-key sequence, the
    wall clock read by [datetime.utcnow()] (it advances at every reading),
    the source of fresh identifiers behind [uuid4()], the number of requests sent so far to the model provider, and whether
    the storage layer currently fails ([Some text]: every session raises an
    exception carrying [text]). *)
Record World : Type := mkWorld {
  tasks : list Task.t;
  task_seq : Z;
  clock : nat;
  uuid_seq : nat;
  provider_calls : nat;
  db_error : option string
}.

(** State and exceptions: a computation over a state [S] ends with a value,
    an exception or outside the model, and always leaves a state behind (what
    was written before an exception stays written). *)
Definition ST (S A : Type) : Type := S -> outcome A * S.

Definition ret {S A} (a : A) : ST S A := fun w => (Ok a, w).
Definition raise {S A} (e : exn) : ST S A := fun w => (Exc e, w).
Definition unmodelled {S A} : ST S A := fun w => (Unmodelled, w).
Definition lift {S A} (o : outcome A) : ST S A := fun w => (o, w).

Definition bind {S A B} (m : ST S A) (k : A -> ST S B) : ST S B :=
  fun w =>
    match m w with
    | (Ok a, w') => k a w'
    | (Exc e, w') => (Exc e, w')
    | (Unmodelled, w') => (Unmodelled, w')
    end.

Notation "x <- m ;; k" := (bind m (fun x => k))
  (at level 100, m at next level, right associativity).

(** [try: body  except Exception as e: handler(e)] *)
Definition try_except {S A} (body : ST S A) (handler : exn -> ST S A) : ST S A :=
  fun w =>
    match body w with
    | (Exc e, w') => handler e w'
    | r => r
    end.

(** The tools and the agent run over the [World]. *)
Definition M (A : Type) : Type := ST World A.

(** [uuid4()] *)
Definition uuid4 : M nat :=
  fun w => (Ok (uuid_seq w),
            mkWorld (tasks w) (task_seq w) (clock w) (S (uuid_seq w))
                    (provider_calls w) (db_error w)).

(** [datetime.utcnow()] *)
Definition utcnow : M nat :=
  fun w => (Ok (clock w),
            mkWorld (tasks w) (task_seq w) (S (clock w)) (uuid_seq w) (provider_calls w) (db_error w)).

(** Entering [with Session(engine)] and talking to the database. *)
Definition session : M unit :=
  fun w => match db_error w with
           | Some text => (Exc (OperationalError text), w)
           | None => (Ok tt, w)
           end.

Definition get_tasks : M (list Task.t) := fun w => (Ok (tasks w), w).

Definition put_tasks (ts : list Task.t) : M unit :=
  fun w => (Ok tt, mkWorld ts (task_seq w) (clock w) (uuid_seq w) (provider_calls w) (db_error w)).

(** [nextval] of the primary-key sequence. *)
Definition next_task_id : M Z :=
  fun w => (Ok (task_seq w),
            mkWorld (tasks w) (task_seq w + 1) (clock w) (uuid_seq w) (provider_calls w) (db_error w)).

(** A text column of PostgreSQL cannot hold the NUL character, and the
    driver refuses a [str] parameter that contains one before anything is
    sent to the server. *)
Fixpoint has_nul (s : string) : bool :=
  match s with
  | EmptyString => false
  | String c s' => (nat_of_ascii c =? 0)%nat || has_nul s'
  end.

Definition nul_refused : exn :=
  ValueError "A string literal cannot contain NUL (0x00) characters.".

(** A [str] written to a text column. *)
Definition sql_string {S} (s : string) : ST S string :=
  if has_nul s then raise nul_refused else ret s.

(** A bound parameter handed to the driver for an INTEGER, for the owner
    column and for a nullable text column.  The owner id of a request is the
    key of the authenticated row of table [users]; it is compared and stored
    as it comes. *)
Definition sql_int (v : pyval) : M Z :=
  match v with PInt z => ret z | _ => unmodelled end.

Definition sql_text (v : pyval) : M string :=
  match v with PStr s => ret s | _ => unmodelled end.

Definition sql_opt_text (v : pyval) : M (option string) :=
  match v with
  | PNone => ret None
  | PStr s => s <- sql_string s ;; ret (Some s)
  | _ => unmodelled
  end.

(** The new value of a text column that an UPDATE may leave as it is. *)
Definition sql_opt_string {S} (s : option string) : ST S (option string) :=
  match s with
  | None => ret None
  | Some s => s <- sql_string s ;; ret (Some s)
  end.

(** [ORDER BY key DESC] and [ORDER BY key ASC]: insertion sorts that keep
    the table order among rows with equal keys. *)
Fixpoint insert_desc {A} (key : A -> nat) (x : A) (l : list A) : list A :=
  match l with
  | [] => [x]
  | y :: l' => if (key y <=? key x)%nat then x :: l else y :: insert_desc key x l'
  end.

Definition order_by_desc {A} (key : A -> nat) (l : list A) : list A :=
  fold_right (insert_desc key) [] l.

Fixpoint insert_asc {A} (key : A -> nat) (x : A) (l : list A) : list A :=
  match l with
  | [] => [x]
  | y :: l' => if (key x <? key y)%nat then x :: l else y :: insert_asc key x l'
  end.

Definition order_by_asc {A} (key : A -> nat) (l : list A) : list A :=
  fold_right (insert_asc key) [] l.

(* ===================================================================== *)
(** * The tool layer: [app/mcp/utils.py] and [app/mcp/tools/*.py]         *)
(* ===================================================================== *)

(** One entry of the array returned by [list_tasks]. *)
Module Row.
Record t : Type := mk {
  id : Z;
  title : string;
  description : option string;
  completed : bool;
  created_at : nat;
  updated_at : nat
}.
End Row.

(** The objects a tool returns: [{"task_id", "status", "title"}],
    [{"error"}], or the array of [list_tasks]. *)
Inductive response : Type :=
  | Success (task_id : Z) (status : string) (title : string)
  | Error (message : string)
  | TaskList (rows : list Row.t).

Module Mcp.

Definition success_response (task_id : Z) (status title : string) : response :=
  Success task_id status title.

Definition error_response (message : string) : response := Error message.

(** What [v.strip()] raises when [v] is not a [str]. *)
Definition no_strip : exn := AttributeError "object has no attribute 'strip'".

(** [v.strip()] on an arbitrary value: only [str] has the method. *)
Definition py_strip (v : pyval) : outcome string :=
  match v with
  | PStr s => Ok (strip s)
  | _ => Exc no_strip
  end.

Definition validate_user_id (user_id : pyval) : outcome (option response) :=
  if negb (truthy user_id) then Ok (Some (error_response "user_id is required"))
  else
    match user_id with
    | PStr s =>
        if negb (truthy (PStr (strip s)))
        then Ok (Some (error_response "user_id is required"))
        else Ok None
    | _ => Exc no_strip
    end.

Definition validate_title (title : pyval) (max_length : nat) : outcome (option response) :=
  match title with
  | PNone => Ok (Some (error_response "title is required"))
  | PStr s =>
      let title_stripped := strip s in
      if negb (truthy (PStr title_stripped))
      then Ok (Some (error_response "title cannot be empty"))
      else if (Z.of_nat max_length <? len s)%Z
      then Ok (Some (error_response
                       ("title exceeds maximum length of "
                          +:+ str_of_nat max_length +:+ " characters")))
      else Ok None
  | _ => Exc no_strip
  end.

Definition validate_task_id (task_id : pyval) : option response :=
  match task_id with
  | PNone => Some (error_response "task_id is required")
  | _ => None
  end.

Definition valid_statuses : list string := ["all"; "pending"; "completed"].

Definition validate_status (status : pyval) : option response :=
  match status with
  | PNone => None
  | PStr s =>
      if existsb (String.eqb s) valid_statuses then None
      else Some (error_response "status must be 'all', 'pending', or 'completed'")
  | _ => Some (error_response "status must be 'all', 'pending', or 'completed'")
  end.

(** [select(Task).where(Task.id == task_id).where(Task.user_id == user_id)]
    followed by [.first()]. *)
Definition select_task (task_id : Z) (user_id : string) (ts : list Task.t)
  : option Task.t :=
  List.find (fun r => (Task.id r =? task_id)%Z && String.eqb (Task.user_id r) user_id) ts.

(** [UPDATE tasks SET ... WHERE id = pk], as issued by [session.commit()]
    for a modified object. *)
Definition update_row (pk : Z) (f : Task.t -> Task.t) (ts : list Task.t) : list Task.t :=
  List.map (fun r => if (Task.id r =? pk)%Z then f r else r) ts.

(** [DELETE FROM tasks WHERE id = pk] *)
Definition delete_row (pk : Z) (ts : list Task.t) : list Task.t :=
  List.filter (fun r => negb (Task.id r =? pk)%Z) ts.

Definition set_completed (c : bool) (now : nat) (r : Task.t) : Task.t :=
  Task.mk (Task.id r) (Task.user_id r) (Task.title r) (Task.description r)
          c (Task.created_at r) now.

Definition set_fields (new_title : option string) (new_description : option string)
           (now : nat) (r : Task.t) : Task.t :=
  Task.mk (Task.id r) (Task.user_id r)
          (match new_title with Some s => s | None => Task.title r end)
          (match new_description with Some d => Some d | None => Task.description r end)
          (Task.completed r) (Task.created_at r) now.

Definition row_of_task (task : Task.t) : Row.t :=
  Row.mk (Task.id task) (Task.title task) (Task.description task)
         (Task.completed task) (Task.created_at task) (Task.updated_at task).

(** [app/mcp/tools/add_task.py] *)
Definition add_task (user_id title description : pyval) : M response :=
  error <- lift (validate_user_id user_id) ;;
  match error with
  | Some e => ret e
  | None =>
      error <- lift (validate_title title 500) ;;
      match error with
      | Some e => ret e
      | None =>
          title <- lift (py_strip title) ;;
          try_except
            (created <- utcnow ;;
             updated <- utcnow ;;
             _ <- session ;;
             uid <- sql_text user_id ;;
             title <- sql_string title ;;
             descr <- sql_opt_text description ;;
             pk <- next_task_id ;;
             ts <- get_tasks ;;
             _ <- put_tasks (ts ++ [Task.mk pk uid title descr false created updated]) ;;
             ret (success_response pk "created" title))
            (fun _ => ret (error_response "service unavailable"))
      end
  end.

(** [limit < n] and [limit > n] for an integer literal [n]: [bool] is a
    subclass of [int]; no other type can be ordered against an [int]. *)
Definition py_lt (v : pyval) (n : Z) : outcome bool :=
  match v with
  | PInt z => Ok (z <? n)%Z
  | PBool b => Ok ((if b then 1 else 0) <? n)%Z
  | _ => Exc (TypeError "'<' not supported between these instances")
  end.

Definition py_gt (v : pyval) (n : Z) : outcome bool :=
  match v with
  | PInt z => Ok (n <? z)%Z
  | PBool b => Ok (n <? (if b then 1 else 0))%Z
  | _ => Exc (TypeError "'>' not supported between these instances")
  end.

(** [status == "pending"] etc. *)
Definition py_eq_str (v : pyval) (s : string) : bool :=
  match v with PStr s' => String.eqb s' s | _ => false end.

(** [app/mcp/tools/list_tasks.py] *)
Definition list_tasks (user_id status limit : pyval) : M response :=
  error <- lift (validate_user_id user_id) ;;
  match error with
  | Some e => ret e
  | None =>
      match validate_status status with
      | Some e => ret e
      | None =>
          let limit := match limit with PNone => PInt 100 | _ => limit end in
          too_small <- lift (py_lt limit 1) ;;
          if too_small : bool then ret (error_response "limit must be at least 1")
          else
            too_large <- lift (py_gt limit 1000) ;;
            let limit := if too_large : bool then PInt 1000 else limit in
            try_except
              (_ <- session ;;
               uid <- sql_text user_id ;;
               ts <- get_tasks ;;
               let query := List.filter (fun r => String.eqb (Task.user_id r) uid) ts in
               let query :=
                 if py_eq_str status "pending"
                 then List.filter (fun r => negb (Task.completed r)) query
                 else if py_eq_str status "completed"
                 then List.filter (fun r => Task.completed r) query
                 else query in
               let query := order_by_desc Task.created_at query in
               n <- sql_int limit ;;
               let query := firstn (Z.to_nat n) query in
               ret (TaskList (List.map row_of_task query)))
              (fun _ => ret (error_response "service unavailable"))
      end
  end.

(** [app/mcp/tools/complete_task.py] *)
Definition complete_task (user_id task_id : pyval) : M response :=
  error <- lift (validate_user_id user_id) ;;
  match error with
  | Some e => ret e
  | None =>
      match validate_task_id task_id with
      | Some e => ret e
      | None =>
          try_except
            (_ <- session ;;
             tid <- sql_int task_id ;;
             uid <- sql_text user_id ;;
             ts <- get_tasks ;;
             match select_task tid uid ts with
             | None => ret (error_response "task not found")
             | Some task =>
                 now <- utcnow ;;
                 let task := set_completed (negb (Task.completed task)) now task in
                 _ <- put_tasks
                        (update_row (Task.id task)
                           (set_completed (Task.completed task) now) ts) ;;
                 let status := if Task.completed task then "completed" else "incomplete" in
                 ret (success_response (Task.id task) status (Task.title task))
             end)
            (fun _ => ret (error_response "service unavailable"))
      end
  end.

(** [app/mcp/tools/update_task.py] *)
Definition update_task (user_id task_id title description : pyval) : M response :=
  error <- lift (validate_user_id user_id) ;;
  match error with
  | Some e => ret e
  | None =>
      match validate_task_id task_id with
      | Some e => ret e
      | None =>
          match title, description with
          | PNone, PNone =>
              ret (error_response "at least one of title or description must be provided")
          | _, _ =>
              checked <-
                match title with
                | PNone => ret (inr None)
                | _ =>
                    error <- lift (validate_title title 500) ;;
                    match error with
                    | Some e => ret (inl e)
                    | None => stripped <- lift (py_strip title) ;; ret (inr (Some stripped))
                    end
                end ;;
              match checked with
              | inl e => ret e
              | inr title =>
                  try_except
                    (_ <- session ;;
                     tid <- sql_int task_id ;;
                     uid <- sql_text user_id ;;
                     ts <- get_tasks ;;
                     match select_task tid uid ts with
                     | None => ret (error_response "task not found")
                     | Some task =>
                         now <- utcnow ;;
                         title <- sql_opt_string title ;;
                         descr <- sql_opt_text description ;;
                         let task := set_fields title descr now task in
                         _ <- put_tasks
                                (update_row (Task.id task) (set_fields title descr now) ts) ;;
                         ret (success_response (Task.id task) "updated" (Task.title task))
                     end)
                    (fun _ => ret (error_response "service unavailable"))
              end
          end
      end
  end.

(** [app/mcp/tools/delete_task.py] *)
Definition delete_task (user_id task_id : pyval) : M response :=
  error <- lift (validate_user_id user_id) ;;
  match error with
  | Some e => ret e
  | None =>
      match validate_task_id task_id with
      | Some e => ret e
      | None =>
          try_except
            (_ <- session ;;
             tid <- sql_int task_id ;;
             uid <- sql_text user_id ;;
             ts <- get_tasks ;;
             match select_task tid uid ts with
             | None => ret (error_response "task not found")
             | Some task =>
                 let task_title := Task.title task in
                 let task_id_value := Task.id task in
                 _ <- put_tasks (delete_row (Task.id task) ts) ;;
                 ret (success_response task_id_value "deleted" task_title)
             end)
            (fun _ => ret (error_response "service unavailable"))
      end
  end.

End Mcp.

(* ===================================================================== *)
(** * The agent: [app/services/ai_agent.py]                               *)
(* ===================================================================== *)

(** One entry of [properties] in a tool's JSON schema. *)
Module Property.
Record t : Type := mk {
  name : string;
  type : string;
  enum : option (list string)
}.
End Property.

(** One function schema handed to the model provider.  [required = None]
    stands for a schema without the ["required"] key. *)
Module ToolSchema.
Record t : Type := mk {
  name : string;
  description : string;
  properties : list Property.t;
  required : option (list string)
}.
End ToolSchema.

(** A tool call requested by the model.  The JSON text of
    [tool_call.function.arguments] is represented by what [json.loads]
    makes of it. *)
Inductive json_text : Type :=
  | NotJson
  | Json (v : pyval).

Module ToolCall.
Record t : Type := mk {
  id : string;
  name : string;
  arguments : json_text
}.
End ToolCall.

(** [response.choices[0].message] *)
Module Reply.
Record t : Type := mk {
  content : option string;
  tool_calls : list ToolCall.t
}.
End Reply.

(** Entries of the running [messages] array.  The content of a tool
    message is [json.dumps(tool_result)], represented by the result. *)
Inductive message : Type :=
  | Plain (role content : string)
  | AssistantToolCalls (content : option string) (tool_calls : list ToolCall.t)
  | ToolResult (tool_call_id : string) (content : response).

(** The model provider behind [client.chat.completions.create]: given the
    number of requests already served and the message array it answers or
    raises. *)
Definition Provider : Type := nat -> list message -> exn + Reply.t.

Module AiAgent.

Definition tools : list ToolSchema.t :=
  [ ToolSchema.mk "add_task"
      "Create a new task for the user with a title and optional description"
      [ Property.mk "title" "string" None;
        Property.mk "description" "string" None ]
      (Some ["title"]);
    ToolSchema.mk "list_tasks"
      "Retrieve the user's tasks, optionally filtered by completion status"
      [ Property.mk "status" "string" (Some ["all"; "pending"; "completed"]);
        Property.mk "limit" "integer" None ]
      None;
    ToolSchema.mk "complete_task"
      "Toggle the completion status of a task (mark as done or undone)"
      [ Property.mk "task_id" "integer" None ]
      (Some ["task_id"]);
    ToolSchema.mk "update_task"
      "Update a task's title and/or description"
      [ Property.mk "task_id" "integer" None;
        Property.mk "title" "string" None;
        Property.mk "description" "string" None ]
      (Some ["task_id"; "title"]);
    ToolSchema.mk "delete_task"
      "Delete a task permanently"
      [ Property.mk "task_id" "integer" None ]
      (Some ["task_id"]) ].

(** The schema entry with a given function name. *)
Definition schema_of (name : string) (schemas : list ToolSchema.t) : option ToolSchema.t :=
  List.find (fun s => String.eqb (ToolSchema.name s) name) schemas.

(** The parameters a schema declares required. *)
Definition required_of (s : ToolSchema.t) : list string :=
  match ToolSchema.required s with Some l => l | None => [] end.

(** The parameters a schema marks optional: declared but not required. *)
Definition optional_of (s : ToolSchema.t) : list string :=
  List.filter (fun p => negb (existsb (String.eqb p) (required_of s)))
              (List.map Property.name (ToolSchema.properties s)).

(** [json.loads(tool_call.function.arguments)] *)
Definition json_loads (text : json_text) : outcome pyval :=
  match text with
  | NotJson => Exc JSONDecodeError
  | Json v => Ok v
  end.

(** Calling a function with the dictionary as keyword arguments: a key
    that names no parameter, or a parameter without default that has no
    key, is a [TypeError]. *)
Definition unexpected (params : list string) (args : gmap string pyval) : bool :=
  negb (bool_decide (dom args ⊆ list_to_set params)).

Definition or_default (v : option pyval) (default : pyval) : pyval :=
  match v with Some x => x | None => default end.

Definition unexpected_keyword : exn := TypeError "got an unexpected keyword argument".
Definition missing_argument : exn := TypeError "missing required positional argument".

Definition call_add_task (args : gmap string pyval) : M response :=
  if unexpected ["user_id"; "title"; "description"] args then raise unexpected_keyword
  else
    match args !! "user_id", args !! "title" with
    | Some user_id, Some title =>
        Mcp.add_task user_id title (or_default (args !! "description") PNone)
    | _, _ => raise missing_argument
    end.

Definition call_list_tasks (args : gmap string pyval) : M response :=
  if unexpected ["user_id"; "status"; "limit"] args then raise unexpected_keyword
  else
    match args !! "user_id" with
    | Some user_id =>
        Mcp.list_tasks user_id (or_default (args !! "status") (PStr "all"))
                       (or_default (args !! "limit") (PInt 100))
    | None => raise missing_argument
    end.

Definition call_complete_task (args : gmap string pyval) : M response :=
  if unexpected ["user_id"; "task_id"] args then raise unexpected_keyword
  else
    match args !! "user_id", args !! "task_id" with
    | Some user_id, Some task_id => Mcp.complete_task user_id task_id
    | _, _ => raise missing_argument
    end.

Definition call_update_task (args : gmap string pyval) : M response :=
  if unexpected ["user_id"; "task_id"; "title"; "description"] args
  then raise unexpected_keyword
  else
    match args !! "user_id", args !! "task_id" with
    | Some user_id, Some task_id =>
        Mcp.update_task user_id task_id (or_default (args !! "title") PNone)
                        (or_default (args !! "description") PNone)
    | _, _ => raise missing_argument
    end.

Definition call_delete_task (args : gmap string pyval) : M response :=
  if unexpected ["user_id"; "task_id"] args then raise unexpected_keyword
  else
    match args !! "user_id", args !! "task_id" with
    | Some user_id, Some task_id => Mcp.delete_task user_id task_id
    | _, _ => raise missing_argument
    end.

(** [args["user_id"] = user_id] on whatever [json.loads] returned. *)
Definition set_user_id (args : pyval) (user_id : string) : outcome (gmap string pyval) :=
  match args with
  | PDict items => Ok (<["user_id" := PStr user_id]> items)
  | PList _ => Exc (TypeError "list indices must be integers or slices, not str")
  | _ => Exc (TypeError "object does not support item assignment")
  end.

(** [AIAgentService._invoke_tool] *)
Definition invoke_tool (tool_name : string) (user_id : string) (args : pyval) : M response :=
  args <- lift (set_user_id args user_id) ;;
  if String.eqb tool_name "add_task" then call_add_task args
  else if String.eqb tool_name "list_tasks" then call_list_tasks args
  else if String.eqb tool_name "complete_task" then call_complete_task args
  else if String.eqb tool_name "update_task" then call_update_task args
  else if String.eqb tool_name "delete_task" then call_delete_task args
  else ret (Error ("Unknown tool: " +:+ tool_name)).

Definition max_iterations : nat := 5.

Definition completion_message : string := "I've completed the requested actions.".

(** How the [while] loop was left. *)
Inductive loop_exit : Type :=
  | Break (iteration : nat) (content : option string)
  | ConditionFalse (iteration : nat) (content : option string).

Section WithProvider.

Variable client : Provider.
Variable system_prompt : string.

(** [await self.client.chat.completions.create(...)] *)
Definition create (messages : list message) : M Reply.t :=
  fun w =>
    let w' := mkWorld (tasks w) (task_seq w) (clock w) (uuid_seq w)
                      (S (provider_calls w)) (db_error w) in
    match client (provider_calls w) messages with
    | inl e => (Exc e, w')
    | inr reply => (Ok reply, w')
    end.

(** [for tool_call in assistant_message.tool_calls: ...] *)
Fixpoint execute_tool_calls (user_id : string) (tool_calls : list ToolCall.t)
         (messages : list message) : M (list message) :=
  match tool_calls with
  | [] => ret messages
  | tool_call :: rest =>
      let function_name := ToolCall.name tool_call in
      function_args <- lift (json_loads (ToolCall.arguments tool_call)) ;;
      tool_result <- invoke_tool function_name user_id function_args ;;
      execute_tool_calls user_id rest
        (messages ++ [ToolResult (ToolCall.id tool_call) tool_result])
  end.

(** The [while iteration < max_iterations] loop; [None] when [fuel]
    rounds did not suffice to leave it. *)
Fixpoint agentic_loop (fuel : nat) (user_id : string) (iteration : nat)
         (messages : list message) (last_content : option string)
  : M (option loop_exit) :=
  match fuel with
  | O => ret None
  | S fuel' =>
      if (iteration <? max_iterations)%nat then
        let iteration := S iteration in
        assistant_message <- create messages ;;
        match Reply.tool_calls assistant_message with
        | [] => ret (Some (Break iteration (Reply.content assistant_message)))
        | tool_calls =>
            let messages :=
              messages ++ [AssistantToolCalls (Reply.content assistant_message)
                                              tool_calls] in
            messages <- execute_tool_calls user_id tool_calls messages ;;
            agentic_loop fuel' user_id iteration messages
                         (Reply.content assistant_message)
        end
      else ret (Some (ConditionFalse iteration last_content))
  end.

(** [content if content else "I've completed the requested actions."] *)
Definition content_or_default (content : option string) : string :=
  match content with
  | Some s => if String.eqb s "" then completion_message else s
  | None => completion_message
  end.

(** The code after the loop: [response_content] was assigned at [break];
    it is overwritten once the ceiling is reached. *)
Definition response_content (exit : loop_exit) : option string :=
  match exit with
  | Break iteration content =>
      if (max_iterations <=? iteration)%nat then Some (content_or_default content)
      else content
  | ConditionFalse iteration content => Some (content_or_default content)
  end.

Definition generate_response_fuel (fuel : nat)
           (conversation_history : list (string * string)) (user_id : string)
  : M (option (option string)) :=
  let messages :=
    Plain "system" system_prompt
      :: List.map (fun m => Plain (fst m) (snd m)) conversation_history in
  exit <- agentic_loop fuel user_id 0 messages None ;;
  ret (option_map response_content exit).

(** [AIAgentService.generate_response]: [None] is Python's [None].
    [S max_iterations] rounds of fuel always suffice (see
    [agentic_loop_fuel]). *)
Definition generate_response (conversation_history : list (string * string))
           (user_id : string) : M (option string) :=
  r <- generate_response_fuel (S max_iterations) conversation_history user_id ;;
  match r with
  | Some response => ret response
  | None => unmodelled
  end.

End WithProvider.

End AiAgent.

(* ===================================================================== *)
(** * Conversations, messages and the chat endpoints                      *)
(* ===================================================================== *)

(** [app/models/conversation.py] (the [title] column of phase-3 is never
    written and is left out) and [app/models/message.py]. *)
Module Conversation.
Record t : Type := mk {
  id : nat;
  user_id : string;
  created_at : nat;
  updated_at : nat
}.
End Conversation.

Module Message.
Record t : Type := mk {
  id : nat;
  conversation_id : nat;
  role : string;
  content : string;
  created_at : nat
}.
End Message.

(** The committed [conversations] and [messages] tables, rows in insertion
    order. *)
Record ChatDb : Type := mkChatDb {
  conversations : list Conversation.t;
  messages : list Message.t
}.

(** The chat endpoints run over the world of the tools together with the
    chat tables; the tools and the agent cannot reach the latter. *)
Record Server : Type := mkServer {
  world : World;
  chat : ChatDb
}.

Definition in_world {A} (m : M A) : ST Server A :=
  fun s => let '(r, w) := m (world s) in (r, mkServer w (chat s)).

Definition get_chat : ST Server ChatDb := fun s => (Ok (chat s), s).

Definition put_chat (db : ChatDb) : ST Server unit :=
  fun s => (Ok tt, mkServer (world s) db).

Module ChatRequest.
Record t : Type := mk {
  message : string;
  conversation_id : option nat
}.
End ChatRequest.

(** [str(e)] *)
Definition exn_text (e : exn) : string :=
  match e with
  | TypeError msg | AttributeError msg | OperationalError msg | APIError msg
  | GeminiAPIError msg | MCPToolError msg | ValueError msg | ValidationError msg => msg
  | JSONDecodeError => "Expecting value"
  | HTTPException status_code => str_of_nat status_code +:+ ": "
  end.

(** [s.lower()] on code points below 256. *)
Definition lower_char (c : ascii) : ascii :=
  let n := nat_of_ascii c in
  if ((65 <=? n) && (n <=? 90) || (192 <=? n) && (n <=? 222) && negb (n =? 215))%nat
  then ascii_of_nat (n + 32) else c.

Fixpoint lower (s : string) : string :=
  match s with
  | EmptyString => EmptyString
  | String c s' => String (lower_char c) (lower s')
  end.

(** [sub in s] *)
Definition contains (sub s : string) : bool :=
  match String.index 0 sub s with Some _ => true | None => false end.

(* --------------------------------------------------------------------- *)
(** ** phase-03: [message_service.py], [conversation_service.py],
       [routes/chat.py], [mcp/server.py]                                  *)
(* --------------------------------------------------------------------- *)

Module Phase03.

(** [get_tool_definitions()] of [app/mcp/server.py]. *)
Definition get_tool_definitions : list ToolSchema.t :=
  [ ToolSchema.mk "add_task"
      "Creates a new task for the user. Use this when the user wants to add, create, or remember something to do."
      [ Property.mk "title" "string" None;
        Property.mk "description" "string" None ]
      (Some ["title"]);
    ToolSchema.mk "list_tasks"
      "Lists all tasks for the user. Use this when the user wants to see their tasks, check what they need to do, or review their todo list."
      [ Property.mk "completed" "boolean" None ]
      (Some []);
    ToolSchema.mk "complete_task"
      "Toggles a task's completion status. Use this when the user wants to mark a task as done or undone."
      [ Property.mk "task_id" "integer" None ]
      (Some ["task_id"]);
    ToolSchema.mk "delete_task"
      "Deletes a task permanently. Use this when the user wants to remove or delete a task."
      [ Property.mk "task_id" "integer" None ]
      (Some ["task_id"]);
    ToolSchema.mk "update_task"
      "Updates a task's title and/or description. Use this when the user wants to change or edit a task."
      [ Property.mk "task_id" "integer" None;
        Property.mk "title" "string" None;
        Property.mk "description" "string" None ]
      (Some ["task_id"]) ].

(** What [invoke_agent] returns: the reply text and, per tool invoked,
    its name, arguments and result. *)
Module AgentResponse.
Record t : Type := mk {
  content : option string;
  tool_calls : list (string * pyval * pyval)
}.
End AgentResponse.

Module ChatResponse.
Record t : Type := mk {
  conversation_id : nat;
  response : string;
  tool_calls : list (string * pyval * pyval)
}.
End ChatResponse.

Section WithTokenizer.

(** [len(encoding.encode(content))] of the tiktoken encoding. *)
Variable tokens : string -> nat.

(** [invoke_agent(user_id, conversation_history, user_message, tools)]
    of [app/ai/agent.py]; it only reaches the world of the tools. *)
Variable invoke_agent :
  string -> list (string * string) -> string -> list ToolSchema.t -> M AgentResponse.t.

(** What the INSERT of a message raises when no conversation has the id
    in its column [conversation_id], declared with
    [foreign_key="conversations.id"] (the text is abridged). *)
Definition no_such_conversation : exn :=
  OperationalError "insert on table messages violates foreign key constraint".

(** [store_message] *)
Definition store_message (conversation_id : nat) (role content : string)
  : ST Server Message.t :=
  id <- in_world uuid4 ;;
  created <- in_world utcnow ;;
  _ <- in_world session ;;
  role <- sql_string role ;;
  content <- sql_string content ;;
  let message := Message.mk id conversation_id role content created in
  db <- get_chat ;;
  if existsb (fun c => (Conversation.id c =? conversation_id)%nat) (conversations db)
  then
    _ <- put_chat (mkChatDb (conversations db) (messages db ++ [message])) ;;
    ret message
  else raise no_such_conversation.

(** The [for msg in messages] loop of [load_conversation_history]. *)
Fixpoint history_loop (msgs : list Message.t) (max_tokens : Z)
         (result : list (string * string)) (total_tokens : Z)
  : list (string * string) :=
  match msgs with
  | [] => result
  | msg :: rest =>
      let msg_tokens := Z.of_nat (tokens (Message.content msg)) in
      if (max_tokens <? total_tokens + msg_tokens)%Z then result
      else history_loop rest max_tokens
             ((Message.role msg, Message.content msg) :: result)
             (total_tokens + msg_tokens)%Z
  end.

(** The query of [load_conversation_history]: the conversation's
    messages, newest first. *)
Definition newest_first (conversation_id : nat) (db : ChatDb) : list Message.t :=
  order_by_desc Message.created_at
    (List.filter (fun m => (Message.conversation_id m =? conversation_id)%nat)
                 (messages db)).

(** [load_conversation_history] *)
Definition load_conversation_history (conversation_id : nat) (max_tokens : Z)
  : ST Server (list (string * string)) :=
  _ <- in_world session ;;
  db <- get_chat ;;
  ret (history_loop (newest_first conversation_id db) max_tokens [] 0%Z).

(** [get_or_create_conversation] *)
Definition get_or_create_conversation (user_id : string) (conversation_id : option nat)
  : ST Server Conversation.t :=
  _ <- in_world session ;;
  db <- get_chat ;;
  let by_id :=
    match conversation_id with
    | Some cid =>
        List.find (fun c => (Conversation.id c =? cid)%nat) (conversations db)
    | None => None
    end in
  match by_id with
  | Some conversation =>
      if String.eqb (Conversation.user_id conversation) user_id then ret conversation
      else raise (ValueError "Conversation not found or access denied")
  | None =>
      match List.find (fun c => String.eqb (Conversation.user_id c) user_id)
                      (conversations db) with
      | Some conversation => ret conversation
      | None =>
          id <- in_world uuid4 ;;
          created <- in_world utcnow ;;
          updated <- in_world utcnow ;;
          let conversation := Conversation.mk id user_id created updated in
          _ <- put_chat (mkChatDb (conversations db ++ [conversation]) (messages db)) ;;
          ret conversation
      end
  end.

(** The handler around [invoke_agent] in [chat_endpoint]. *)
Definition on_agent_error {A} (e : exn) : ST Server A :=
  match e with
  | GeminiAPIError _ => raise (HTTPException 503)
  | _ =>
      let error_msg := exn_text e in
      if contains "tool" (lower error_msg) || contains "mcp" (lower error_msg)
      then raise (MCPToolError ("Task operation failed: " +:+ error_msg))
      else raise e
  end.

(** The [except] clauses that close [chat_endpoint]. *)
Definition to_http {A} (e : exn) : ST Server A :=
  match e with
  | HTTPException code => raise (HTTPException code)
  | ValidationError _ => raise (HTTPException 422)
  | MCPToolError _ => raise (HTTPException 500)
  | GeminiAPIError _ => raise (HTTPException 503)
  | _ => raise (HTTPException 500)
  end.

(** [chat_endpoint], up to and including the storing of the user's
    message. *)
Definition receive (user_id : string) (request : ChatRequest.t)
  : ST Server (Conversation.t * list (string * string)) :=
  if (10000 <? len (ChatRequest.message request))%Z
  then raise (ValidationError "Message must be less than 10,000 characters")
  else
    conversation <-
      try_except
        (get_or_create_conversation user_id (ChatRequest.conversation_id request))
        (fun e => match e with
                  | ValueError _ => raise (HTTPException 403)
                  | _ => raise e
                  end) ;;
    history <- load_conversation_history (Conversation.id conversation) 2000 ;;
    _ <- store_message (Conversation.id conversation) "user"
                       (ChatRequest.message request) ;;
    ret (conversation, history).

(** [chat_endpoint] *)
Definition chat_endpoint (user_id : string) (request : ChatRequest.t)
  : ST Server ChatResponse.t :=
  try_except
    (received <- receive user_id request ;;
     let '(conversation, history) := received in
     let tools := get_tool_definitions in
     agent_response <-
       try_except
         (in_world (invoke_agent user_id history (ChatRequest.message request) tools))
         on_agent_error ;;
     match AgentResponse.content agent_response with
     | None => raise (OperationalError "null value in column content")
     | Some content =>
         _ <- store_message (Conversation.id conversation) "assistant" content ;;
         ret (ChatResponse.mk (Conversation.id conversation) content
                              (AgentResponse.tool_calls agent_response))
     end)
    to_http.

End WithTokenizer.

End Phase03.

(* --------------------------------------------------------------------- *)
(** ** phase-03: [ai/agent.py], [ai/gemini_client.py] and [execute_tool]
       of [mcp/server.py]                                                 *)
(* --------------------------------------------------------------------- *)

Module Agent03.

(** The content of a tool message: the serialised result, or the error
    object written when the tool raised. *)
Inductive tool_content : Type :=
  | ToolOutput (result : pyval)
  | ToolFailure (error : string).

(** Entries of the message array of [invoke_agent]. *)
Inductive entry : Type :=
  | Text (role content : string)
  | AssistantCall (tool_call : ToolCall.t)
  | ToolMessage (tool_call_id : string) (content : tool_content).

Definition Client : Type := nat -> list entry -> exn + Reply.t.

Definition tool_map : list string :=
  ["add_task"; "list_tasks"; "complete_task"; "delete_task"; "update_task"].

Definition api_key_missing : exn :=
  ValueError "GEMINI_API_KEY environment variable is not set. Get your API key from: https://openrouter.ai/keys".

Section WithClient.

(** [os.getenv("GEMINI_API_KEY")], the singleton [_gemini_client] of
    [app/ai/gemini_client.py] as the request finds it, and
    [AsyncOpenAI(api_key=..., base_url=...)]. *)
Variable api_key : option string.
Variable gemini_client : option Client.
Variable new_client : string -> Client.

Variable system_prompt : string.

(** Calling the function registered under a name in [tool_map] with the
    dictionary as keyword arguments ([app/mcp/tools.py]). *)
Variable tool_func : string -> gmap string pyval -> M pyval.

(** [get_gemini_client()] *)
Definition get_gemini_client : outcome Client :=
  match api_key with
  | Some key => if negb (truthy (PStr key)) then Exc api_key_missing else Ok (new_client key)
  | None => Exc api_key_missing
  end.

(** [get_client()]; a request calls it once, and the assignment to the
    singleton is what [gemini_client] is for the next request. *)
Definition get_client : outcome Client :=
  match gemini_client with
  | None => get_gemini_client
  | Some client => Ok client
  end.

(** [client.chat.completions.create(...)] *)
Definition create (client : Client) (messages : list entry) : M Reply.t :=
  fun w =>
    let w' := mkWorld (tasks w) (task_seq w) (clock w) (uuid_seq w)
                      (S (provider_calls w)) (db_error w) in
    match client (provider_calls w) messages with
    | inl e => (Exc e, w')
    | inr reply => (Ok reply, w')
    end.

(** [execute_tool]; the dictionary it was given is returned as it is left,
    with ["user_id"] set. *)
Definition execute_tool (tool_name : string) (arguments : pyval) (user_id : string)
  : M (pyval * pyval) :=
  if negb (existsb (String.eqb tool_name) tool_map)
  then raise (ValueError ("Unknown tool: " +:+ tool_name))
  else
    arguments <- lift (AiAgent.set_user_id arguments user_id) ;;
    result <- tool_func tool_name arguments ;;
    ret (result, PDict arguments).

(** [for tool_call in message.tool_calls: ...] with its [try]/[except]
    around the execution of the tool. *)
Fixpoint run_tool_calls (user_id : string) (tool_calls : list ToolCall.t)
         (messages : list entry) (tool_calls_list : list (string * pyval * pyval))
  : M (list entry * list (string * pyval * pyval)) :=
  match tool_calls with
  | [] => ret (messages, tool_calls_list)
  | tool_call :: rest =>
      let tool_name := ToolCall.name tool_call in
      tool_args <- lift (AiAgent.json_loads (ToolCall.arguments tool_call)) ;;
      step <-
        try_except
          (executed <- execute_tool tool_name tool_args user_id ;;
           let '(tool_result, tool_args) := executed in
           ret (messages ++ [AssistantCall tool_call;
                             ToolMessage (ToolCall.id tool_call) (ToolOutput tool_result)],
                tool_calls_list ++ [(tool_name, tool_args, tool_result)]))
          (fun e =>
             let error_msg := "Tool execution failed: " +:+ exn_text e in
             ret (messages ++ [ToolMessage (ToolCall.id tool_call) (ToolFailure error_msg)],
                  tool_calls_list)) ;;
      run_tool_calls user_id rest (fst step) (snd step)
  end.

(** [invoke_agent] *)
Definition invoke_agent (user_id : string) (conversation_history : list (string * string))
           (user_message : string) (tools : list ToolSchema.t)
  : M Phase03.AgentResponse.t :=
  client <- lift get_client ;;
  let messages :=
    Text "system" system_prompt
      :: List.map (fun m => Text (fst m) (snd m)) conversation_history
      ++ [Text "user" user_message] in
  try_except
    (message <- create client messages ;;
     match Reply.tool_calls message with
     | [] => ret (Phase03.AgentResponse.mk (Reply.content message) [])
     | tool_calls =>
         ran <- run_tool_calls user_id tool_calls messages [] ;;
         final_response <- create client (fst ran) ;;
         ret (Phase03.AgentResponse.mk (Reply.content final_response) (snd ran))
     end)
    (fun e => raise (GeminiAPIError ("AI service error: " +:+ exn_text e))).

End WithClient.

End Agent03.

(* --------------------------------------------------------------------- *)
(** ** phase-03: [mcp/tools.py]                                           *)
(* --------------------------------------------------------------------- *)

Module Tools03.

(** [str(n)] for an integer, used in f-strings. *)
Definition str_of_int (z : Z) : string := NilEmpty.string_of_int (Z.to_int z).

Section WithIsoformat.

(** [datetime.isoformat()] of an instant. *)
Variable isoformat : nat -> string.

(** [Task(id=..., title=..., ...)] of [mcp/tools.py] after [.dict()], as
    [invoke_agent] stores it and serialises it for the model. *)
Definition task_dict (task : Task.t) : pyval :=
  PDict (list_to_map
           [ ("id", PInt (Task.id task));
             ("title", PStr (Task.title task));
             ("description",
              match Task.description task with Some d => PStr d | None => PNone end);
             ("completed", PBool (Task.completed task));
             ("created_at", PStr (isoformat (Task.created_at task)));
             ("updated_at", PStr (isoformat (Task.updated_at task))) ]).

Definition not_found (task_id : Z) : exn :=
  ValueError ("Task " +:+ str_of_int task_id +:+ " not found or access denied").

(** [if not title.strip(): raise ...], [if len(title) > 500: raise ...]
    and then [title.strip()]. *)
Definition checked_title (title : pyval) : M string :=
  match title with
  | PStr s =>
      if String.eqb (strip s) "" then raise (ValueError "Title cannot be empty")
      else if (500 <? len s)%Z
      then raise (ValueError "Title must be 500 characters or less")
      else ret (strip s)
  | _ => raise Mcp.no_strip
  end.

(** [add_task].  The model class [Task] of phase-03 assigns both
    timestamps when the object is built, as the one of phase-3 does. *)
Definition add_task (user_id title description : pyval) : M pyval :=
  title <-
    (if negb (truthy title) then raise (ValueError "Title cannot be empty")
     else checked_title title) ;;
  description <-
    (if truthy description then lift (Mcp.py_strip description) else ret "") ;;
  created <- utcnow ;;
  updated <- utcnow ;;
  _ <- session ;;
  uid <- sql_text user_id ;;
  title <- sql_string title ;;
  description <- sql_string description ;;
  pk <- next_task_id ;;
  ts <- get_tasks ;;
  let task := Task.mk pk uid title (Some description) false created updated in
  _ <- put_tasks (ts ++ [task]) ;;
  ret (task_dict task).

(** [list_tasks] *)
Definition list_tasks (user_id completed : pyval) : M pyval :=
  _ <- session ;;
  uid <- sql_text user_id ;;
  ts <- get_tasks ;;
  let query := List.filter (fun r => String.eqb (Task.user_id r) uid) ts in
  query <-
    match completed with
    | PNone => ret query
    | PBool b => ret (List.filter (fun r => Bool.eqb (Task.completed r) b) query)
    | _ => unmodelled
    end ;;
  ret (PList (List.map task_dict (order_by_desc Task.created_at query))).

(** [complete_task] *)
Definition complete_task (user_id task_id : pyval) : M pyval :=
  _ <- session ;;
  tid <- sql_int task_id ;;
  uid <- sql_text user_id ;;
  ts <- get_tasks ;;
  match Mcp.select_task tid uid ts with
  | None => raise (not_found tid)
  | Some task =>
      now <- utcnow ;;
      let change := Mcp.set_completed (negb (Task.completed task)) now in
      _ <- put_tasks (Mcp.update_row (Task.id task) change ts) ;;
      ret (task_dict (change task))
  end.

(** [delete_task] *)
Definition delete_task (user_id task_id : pyval) : M pyval :=
  _ <- session ;;
  tid <- sql_int task_id ;;
  uid <- sql_text user_id ;;
  ts <- get_tasks ;;
  match Mcp.select_task tid uid ts with
  | None => raise (not_found tid)
  | Some task =>
      _ <- put_tasks (Mcp.delete_row (Task.id task) ts) ;;
      ret (PBool true)
  end.

(** [update_task] *)
Definition update_task (user_id task_id title description : pyval) : M pyval :=
  match title, description with
  | PNone, PNone => raise (ValueError "Must provide at least one field to update")
  | _, _ =>
      _ <- session ;;
      tid <- sql_int task_id ;;
      uid <- sql_text user_id ;;
      ts <- get_tasks ;;
      match Mcp.select_task tid uid ts with
      | None => raise (not_found tid)
      | Some task =>
          new_title <-
            match title with
            | PNone => ret None
            | _ => stripped <- checked_title title ;; ret (Some stripped)
            end ;;
          new_description <-
            match description with
            | PNone => ret None
            | _ => stripped <- lift (Mcp.py_strip description) ;; ret (Some stripped)
            end ;;
          now <- utcnow ;;
          new_title <- sql_opt_string new_title ;;
          new_description <- sql_opt_string new_description ;;
          let change := Mcp.set_fields new_title new_description now in
          _ <- put_tasks (Mcp.update_row (Task.id task) change ts) ;;
          ret (task_dict (change task))
      end
  end.

(** Calling each function with the dictionary as keyword arguments. *)
Definition call_add_task (args : gmap string pyval) : M pyval :=
  if AiAgent.unexpected ["user_id"; "title"; "description"] args
  then raise AiAgent.unexpected_keyword
  else
    match args !! "user_id", args !! "title" with
    | Some user_id, Some title =>
        add_task user_id title (AiAgent.or_default (args !! "description") (PStr ""))
    | _, _ => raise AiAgent.missing_argument
    end.

Definition call_list_tasks (args : gmap string pyval) : M pyval :=
  if AiAgent.unexpected ["user_id"; "completed"] args
  then raise AiAgent.unexpected_keyword
  else
    match args !! "user_id" with
    | Some user_id => list_tasks user_id (AiAgent.or_default (args !! "completed") PNone)
    | None => raise AiAgent.missing_argument
    end.

Definition call_complete_task (args : gmap string pyval) : M pyval :=
  if AiAgent.unexpected ["user_id"; "task_id"] args then raise AiAgent.unexpected_keyword
  else
    match args !! "user_id", args !! "task_id" with
    | Some user_id, Some task_id => complete_task user_id task_id
    | _, _ => raise AiAgent.missing_argument
    end.

Definition call_delete_task (args : gmap string pyval) : M pyval :=
  if AiAgent.unexpected ["user_id"; "task_id"] args then raise AiAgent.unexpected_keyword
  else
    match args !! "user_id", args !! "task_id" with
    | Some user_id, Some task_id => delete_task user_id task_id
    | _, _ => raise AiAgent.missing_argument
    end.

Definition call_update_task (args : gmap string pyval) : M pyval :=
  if AiAgent.unexpected ["user_id"; "task_id"; "title"; "description"] args
  then raise AiAgent.unexpected_keyword
  else
    match args !! "user_id", args !! "task_id" with
    | Some user_id, Some task_id =>
        update_task user_id task_id (AiAgent.or_default (args !! "title") PNone)
                    (AiAgent.or_default (args !! "description") PNone)
    | _, _ => raise AiAgent.missing_argument
    end.

(** The function registered under a name in [tool_map] of [execute_tool],
    called with the arguments; [execute_tool] has checked before that the
    name is registered. *)
Definition tool_func (tool_name : string) (args : gmap string pyval) : M pyval :=
  if String.eqb tool_name "add_task" then call_add_task args
  else if String.eqb tool_name "list_tasks" then call_list_tasks args
  else if String.eqb tool_name "complete_task" then call_complete_task args
  else if String.eqb tool_name "delete_task" then call_delete_task args
  else if String.eqb tool_name "update_task" then call_update_task args
  else unmodelled.

End WithIsoformat.

End Tools03.

(* --------------------------------------------------------------------- *)
(** ** phase-3: [routes/chat.py]                                          *)
(* --------------------------------------------------------------------- *)

Module Chat.

Module ChatResponse.
Record t : Type := mk {
  conversation_id : nat;
  response : string;
  timestamp : nat
}.
End ChatResponse.

(** [Conversation(user_id=user_id)], added to the session. *)
Definition new_conversation (user_id : string) (s : ChatDb) : M (Conversation.t * ChatDb) :=
  id <- uuid4 ;;
  created <- utcnow ;;
  updated <- utcnow ;;
  let conversation := Conversation.mk id user_id created updated in
  ret (conversation, mkChatDb (conversations s ++ [conversation]) (messages s)).

(** [Message(conversation_id=..., role=..., content=...)], added to the
    session. *)
Definition new_message (conversation_id : nat) (role content : string) (s : ChatDb)
  : M (Message.t * ChatDb) :=
  id <- uuid4 ;;
  created <- utcnow ;;
  content <- sql_string content ;;
  let message := Message.mk id conversation_id role content created in
  ret (message, mkChatDb (conversations s) (messages s ++ [message])).

(** The loop that builds [conversation_history].  A row loaded from the
    table carries its role as a [str] (the column is declared [role: str]),
    and [msg.role.value] exists only on the enumeration member held by the
    message object created in this request. *)
Fixpoint history_of (rows : list Message.t) (user_message : Message.t)
  : outcome (list (string * string)) :=
  match rows with
  | [] => Ok []
  | msg :: rest =>
      if (Message.id msg =? Message.id user_message)%nat
      then history_of rest user_message
      else Exc (AttributeError "'str' object has no attribute 'value'")
  end.

(** The statements of the transaction up to the call of the agent; [s] is
    what the session has flushed, starting from the committed tables. *)
Definition open_round (user_id : string) (conversation_id : option nat)
           (message_content : string) (s : ChatDb)
  : M (Conversation.t * ChatDb * list (string * string)) :=
  _ <- session ;;
  found <-
    match conversation_id with
    | Some cid =>
        match List.find (fun c => (Conversation.id c =? cid)%nat
                                  && String.eqb (Conversation.user_id c) user_id)
                        (conversations s) with
        | Some conversation => ret (conversation, s)
        | None => new_conversation user_id s
        end
    | None => new_conversation user_id s
    end ;;
  let '(conversation, s) := found in
  stored <- new_message (Conversation.id conversation) "user" message_content s ;;
  let '(user_message, s) := stored in
  let rows :=
    firstn 50
      (order_by_asc Message.created_at
         (List.filter
            (fun m => (Message.conversation_id m =? Conversation.id conversation)%nat)
            (messages s))) in
  conversation_history <- lift (history_of rows user_message) ;;
  ret (conversation, s, conversation_history ++ [("user", message_content)]).

Section WithProvider.

Variable client : Provider.
Variable system_prompt : string.

(** [send_chat_message].  Nothing reaches the committed tables before
    [session.commit()], so every [session.rollback()] leaves them as
    they were when the session began. *)
Definition send_chat_message (user_id : string) (chat_data : ChatRequest.t)
  : ST Server ChatResponse.t :=
  let message_content := strip (ChatRequest.message chat_data) in
  if String.eqb message_content "" then raise (HTTPException 422)
  else
    try_except
      (committed <- get_chat ;;
       opened <- in_world (open_round user_id (ChatRequest.conversation_id chat_data)
                                      message_content committed) ;;
       let '(conversation, s, conversation_history) := opened in
       ai_response <-
         try_except
           (in_world (AiAgent.generate_response client system_prompt
                        conversation_history user_id))
           (fun _ => raise (HTTPException 503)) ;;
       match ai_response with
       | None => raise (OperationalError "null value in column content")
       | Some text =>
           stored <- in_world (new_message (Conversation.id conversation)
                                           "assistant" text s) ;;
           let '(assistant_message, s) := stored in
           _ <- in_world session ;;
           _ <- put_chat s ;;
           timestamp <- in_world utcnow ;;
           ret (ChatResponse.mk (Conversation.id conversation) text timestamp)
       end)
      (fun e => match e with
                | HTTPException code => raise (HTTPException code)
                | _ => raise (HTTPException 500)
                end).

End WithProvider.

End Chat.

(* ===================================================================== *)
(** * Properties of the tool layer                                        *)
(* ===================================================================== *)

(** An owner id the tools accept: non-empty after [strip]. *)
Definition valid_owner (user_id : string) : Prop :=
  Mcp.validate_user_id (PStr user_id) = Ok None.

(** The storage layer answers. *)
Definition available (w : World) : Prop := db_error w = None.

(** What the database guarantees about table [tasks]: the primary key is
    unique and below the sequence, and no row was created in the future. *)
Record consistent (w : World) : Prop := {
  unique_ids : List.NoDup (List.map Task.id (tasks w));
  ids_below_seq : Forall (fun r => (Task.id r < task_seq w)%Z) (tasks w);
  created_in_past : Forall (fun r => (Task.created_at r < clock w)%nat) (tasks w)
}.

(** An optional string as the Python value the caller passes. *)
Definition py_opt (s : option string) : pyval :=
  match s with Some x => PStr x | None => PNone end.

Ltac run_tool :=
  unfold bind, lift, ret, raise, try_except, session, get_tasks, put_tasks,
    utcnow, next_task_id, sql_int, sql_text, sql_opt_text, sql_opt_string, sql_string,
    bind, ret, raise,
    Mcp.success_response, Mcp.error_response; simpl.

(** Both outcomes of the driver's test of a text. *)
Ltac nul_cases :=
  repeat match goal with
         | |- context [has_nul ?x] => destruct (has_nul x); simpl
         end.

(** A text the driver accepts: it holds no NUL character. *)
Definition storable (s : string) : Prop := has_nul s = false.

Definition storable_opt (s : option string) : Prop :=
  match s with Some x => storable x | None => True end.

Lemma isspace_not_nul c : isspace c = true -> (nat_of_ascii c =? 0)%nat = false.
Proof.
  unfold isspace. destruct (nat_of_ascii c) as [|n]; [discriminate|reflexivity].
Qed.

Lemma has_nul_lstrip s : has_nul (lstrip s) = has_nul s.
Proof.
  induction s as [|c s IH]; simpl; [reflexivity|].
  destruct (isspace c) eqn:Hc; [|reflexivity].
  rewrite (isspace_not_nul c Hc). exact IH.
Qed.

Lemma has_nul_rstrip s : has_nul (rstrip s) = has_nul s.
Proof.
  induction s as [|c s IH]; simpl; [reflexivity|].
  destruct (rstrip s) as [|a r].
  - simpl in IH. rewrite <- IH.
    destruct (isspace c) eqn:Hc; simpl; [|reflexivity].
    rewrite (isspace_not_nul c Hc). reflexivity.
  - cbn [has_nul]. cbn [has_nul] in IH. rewrite IH. reflexivity.
Qed.

(** Trimming neither removes nor adds a NUL character. *)
Lemma has_nul_strip s : has_nul (strip s) = has_nul s.
Proof. unfold strip. rewrite has_nul_rstrip. apply has_nul_lstrip. Qed.

Lemma select_task_spec task_id user_id ts task :
  Mcp.select_task task_id user_id ts = Some task ->
  In task ts /\ Task.id task = task_id /\ Task.user_id task = user_id.
Proof.
  unfold Mcp.select_task. intros H.
  apply List.find_some in H. destruct H as [Hin Hb].
  apply andb_true_iff in Hb. destruct Hb as [Hid Hu].
  apply Z.eqb_eq in Hid. apply String.eqb_eq in Hu. auto.
Qed.

Lemma select_task_update_row task_id user_id ts task f :
  (forall r, Task.id (f r) = Task.id r /\ Task.user_id (f r) = Task.user_id r) ->
  Mcp.select_task task_id user_id ts = Some task ->
  Mcp.select_task task_id user_id (Mcp.update_row task_id f ts) = Some (f task).
Proof.
  intros Hf. unfold Mcp.select_task, Mcp.update_row.
  induction ts as [|r ts IH]; simpl; [discriminate|].
  destruct ((Task.id r =? task_id)%Z) eqn:Hid; simpl.
  - destruct (Hf r) as [Hfi Hfu]. rewrite Hfi, Hfu, Hid. simpl.
    destruct (String.eqb (Task.user_id r) user_id); simpl.
    + intros [= ->]. reflexivity.
    + exact IH.
  - rewrite Hid. simpl. exact IH.
Qed.

Lemma select_task_delete_row task_id user_id ts :
  Mcp.select_task task_id user_id (Mcp.delete_row task_id ts) = None.
Proof.
  unfold Mcp.select_task, Mcp.delete_row.
  induction ts as [|r ts IH]; simpl; [reflexivity|].
  destruct ((Task.id r =? task_id)%Z) eqn:Hid; simpl; [exact IH|].
  rewrite Hid. simpl. exact IH.
Qed.

Lemma complete_task_found w user_id task_id task :
  available w -> valid_owner user_id ->
  Mcp.select_task task_id user_id (tasks w) = Some task ->
  Mcp.complete_task (PStr user_id) (PInt task_id) w =
    (Ok (Success task_id
           (if negb (Task.completed task) then "completed" else "incomplete")
           (Task.title task)),
     mkWorld (Mcp.update_row task_id
                (Mcp.set_completed (negb (Task.completed task)) (clock w)) (tasks w))
             (task_seq w) (S (clock w)) (uuid_seq w) (provider_calls w) (db_error w)).
Proof.
  intros Hdb Hu Hsel. unfold Mcp.complete_task.
  destruct (select_task_spec _ _ _ _ Hsel) as (_ & Hid & _).
  unfold available in Hdb.
  run_tool. rewrite Hu. simpl. rewrite Hdb. simpl. rewrite Hsel. simpl.
  rewrite Hid, ?Hdb. reflexivity.
Qed.

Lemma tool_not_found w user_id task_id :
  available w -> valid_owner user_id ->
  Mcp.select_task task_id user_id (tasks w) = None ->
  Mcp.complete_task (PStr user_id) (PInt task_id) w = (Ok (Error "task not found"), w)
  /\ Mcp.delete_task (PStr user_id) (PInt task_id) w = (Ok (Error "task not found"), w).
Proof.
  intros Hdb Hu Hsel. unfold Mcp.complete_task, Mcp.delete_task.
  run_tool. rewrite Hu. simpl. rewrite Hdb. simpl. rewrite Hsel. simpl. auto.
Qed.

Lemma delete_task_found w user_id task_id task :
  available w -> valid_owner user_id ->
  Mcp.select_task task_id user_id (tasks w) = Some task ->
  Mcp.delete_task (PStr user_id) (PInt task_id) w =
    (Ok (Success task_id "deleted" (Task.title task)),
     mkWorld (Mcp.delete_row task_id (tasks w))
             (task_seq w) (clock w) (uuid_seq w) (provider_calls w) (db_error w)).
Proof.
  intros Hdb Hu Hsel. unfold Mcp.delete_task.
  destruct (select_task_spec _ _ _ _ Hsel) as (_ & Hid & _).
  unfold available in Hdb.
  run_tool. rewrite Hu. simpl. rewrite Hdb. simpl. rewrite Hsel. simpl.
  rewrite Hid, ?Hdb. reflexivity.
Qed.

(** The [completed] field of the caller's task, if the caller has it. *)
Definition completed_of (user_id : string) (task_id : Z) (w : World) : option bool :=
  option_map Task.completed (Mcp.select_task task_id user_id (tasks w)).

(** The world after [n] successive calls of [complete_task]. *)
Definition complete_n (n : nat) (user_id : string) (task_id : Z) (w : World) : World :=
  Nat.iter n (fun w => snd (Mcp.complete_task (PStr user_id) (PInt task_id) w)) w.

Lemma complete_task_step w user_id task_id task :
  available w -> valid_owner user_id ->
  Mcp.select_task task_id user_id (tasks w) = Some task ->
  let w' := snd (Mcp.complete_task (PStr user_id) (PInt task_id) w) in
  available w'
  /\ Mcp.select_task task_id user_id (tasks w')
     = Some (Mcp.set_completed (negb (Task.completed task)) (clock w) task).
Proof.
  intros Hdb Hu Hsel. rewrite (complete_task_found _ _ _ _ Hdb Hu Hsel). simpl.
  split; [exact Hdb|].
  apply select_task_update_row; [|exact Hsel].
  intros r. split; reflexivity.
Qed.

Lemma complete_n_state n w user_id task_id task :
  available w -> valid_owner user_id ->
  Mcp.select_task task_id user_id (tasks w) = Some task ->
  available (complete_n n user_id task_id w)
  /\ exists task',
       Mcp.select_task task_id user_id (tasks (complete_n n user_id task_id w)) = Some task'
       /\ Task.completed task'
          = (if Nat.even n then Task.completed task else negb (Task.completed task)).
Proof.
  intros Hdb Hu Hsel. induction n as [|n IH].
  - simpl. split; [exact Hdb|]. exists task. auto.
  - destruct IH as (Hdb' & task' & Hsel' & Hc).
    unfold complete_n in *. rewrite Nat.iter_succ.
    destruct (complete_task_step _ _ _ _ Hdb' Hu Hsel') as (Hdb'' & Hsel'').
    split; [exact Hdb''|].
    eexists. split; [exact Hsel''|].
    unfold Mcp.set_completed. cbn [Task.completed].
    rewrite Hc, Nat.even_succ, <- Nat.negb_even.
    destruct (Nat.even n), (Task.completed task); reflexivity.
Qed.

(** C5 — Toggle involution.  For a task the caller owns, [complete_task]
    flips [completed] and reports the new state as ["completed"] or
    ["incomplete"]; a second call restores the original value; after any
    even number of calls the field has its original value. *)
Theorem complete_task_involution w user_id task_id task :
  available w -> valid_owner user_id ->
  Mcp.select_task task_id user_id (tasks w) = Some task ->
  let first := Mcp.complete_task (PStr user_id) (PInt task_id) w in
  let second := Mcp.complete_task (PStr user_id) (PInt task_id) (snd first) in
  fst first = Ok (Success task_id
                    (if Task.completed task then "incomplete" else "completed")
                    (Task.title task))
  /\ completed_of user_id task_id (snd first) = Some (negb (Task.completed task))
  /\ fst second = Ok (Success task_id
                        (if Task.completed task then "completed" else "incomplete")
                        (Task.title task))
  /\ completed_of user_id task_id (snd second) = Some (Task.completed task)
  /\ forall n, completed_of user_id task_id (complete_n (2 * n) user_id task_id w)
               = Some (Task.completed task).
Proof.
  intros Hdb Hu Hsel first second.
  destruct (complete_task_step _ _ _ _ Hdb Hu Hsel) as (Hdb1 & Hsel1).
  fold first in Hdb1, Hsel1.
  destruct (complete_task_step _ _ _ _ Hdb1 Hu Hsel1) as (Hdb2 & Hsel2).
  fold second in Hdb2, Hsel2.
  assert (H1 : first = Mcp.complete_task (PStr user_id) (PInt task_id) w) by reflexivity.
  rewrite (complete_task_found _ _ _ _ Hdb Hu Hsel) in H1.
  assert (H2 : second = Mcp.complete_task (PStr user_id) (PInt task_id) (snd first))
    by reflexivity.
  rewrite (complete_task_found _ _ _ _ Hdb1 Hu Hsel1) in H2.
  repeat split.
  - rewrite H1. simpl. destruct (Task.completed task); reflexivity.
  - unfold completed_of. rewrite Hsel1. reflexivity.
  - rewrite H2. simpl. destruct (Task.completed task); reflexivity.
  - unfold completed_of. rewrite Hsel2. simpl.
    destruct (Task.completed task); reflexivity.
  - intros n.
    destruct (complete_n_state (2 * n) _ _ _ _ Hdb Hu Hsel) as (_ & task' & Hsel' & Hc).
    unfold completed_of. rewrite Hsel'. simpl. rewrite Hc.
    replace (Nat.even (2 * n)) with true; [reflexivity|].
    symmetry. apply Nat.even_spec. exists n. reflexivity.
Qed.

(** C6 — Delete is not idempotent.  For a task the caller owns, the
    first [delete_task] answers ["deleted"] and removes every row with that
    id; a second call on the same id answers ["task not found"]. *)
Theorem delete_task_twice w user_id task_id task :
  available w -> valid_owner user_id ->
  Mcp.select_task task_id user_id (tasks w) = Some task ->
  exists w1,
    Mcp.delete_task (PStr user_id) (PInt task_id) w
      = (Ok (Success task_id "deleted" (Task.title task)), w1)
    /\ tasks w1 = Mcp.delete_row task_id (tasks w)
    /\ ~ In task_id (List.map Task.id (tasks w1))
    /\ Mcp.delete_task (PStr user_id) (PInt task_id) w1
       = (Ok (Error "task not found"), w1).
Proof.
  intros Hdb Hu Hsel. eexists. split; [apply delete_task_found; eassumption|].
  split; [reflexivity|]. split.
  - simpl. unfold Mcp.delete_row. intros Hin.
    apply in_map_iff in Hin. destruct Hin as (r & Hid & Hr).
    apply filter_In in Hr. destruct Hr as [_ Hne].
    apply negb_true_iff in Hne. apply Z.eqb_neq in Hne. contradiction.
  - apply tool_not_found; [exact Hdb | exact Hu |].
    simpl. apply select_task_delete_row.
Qed.

(** A world with one task of owner ["alice"], used in the examples. *)
Definition milk : Task.t := Task.mk 1 "alice" "buy milk" None false 0 1.

Definition alice_world : World := mkWorld [milk] 2 2 0 0 None.

Lemma complete_task_involution_witness :
  available alice_world /\ valid_owner "alice"
  /\ Mcp.select_task 1 "alice" (tasks alice_world) = Some milk
  /\ completed_of "alice" 1
       (snd (Mcp.complete_task (PStr "alice") (PInt 1)
               (snd (Mcp.complete_task (PStr "alice") (PInt 1) alice_world))))
     = Some false.
Proof.
  split; [reflexivity|]. split; [reflexivity|]. split; [reflexivity|].
  exact (proj1 (proj2 (proj2 (proj2
           (complete_task_involution alice_world "alice" 1 milk
              eq_refl eq_refl eq_refl))))).
Defined.

Lemma delete_task_twice_witness :
  available alice_world /\ valid_owner "alice"
  /\ Mcp.select_task 1 "alice" (tasks alice_world) = Some milk
  /\ exists w1,
       Mcp.delete_task (PStr "alice") (PInt 1) alice_world
         = (Ok (Success 1 "deleted" "buy milk"), w1)
       /\ tasks w1 = Mcp.delete_row 1 (tasks alice_world)
       /\ ~ In 1%Z (List.map Task.id (tasks w1))
       /\ Mcp.delete_task (PStr "alice") (PInt 1) w1 = (Ok (Error "task not found"), w1).
Proof.
  split; [reflexivity|]. split; [reflexivity|]. split; [reflexivity|].
  exact (delete_task_twice alice_world "alice" 1 milk eq_refl eq_refl eq_refl).
Defined.

(* --------------------------------------------------------------------- *)
(** ** Owner isolation                                                    *)
(* --------------------------------------------------------------------- *)

Lemma NoDup_map_inj {A B} (f : A -> B) (l : list A) x y :
  List.NoDup (List.map f l) -> In x l -> In y l -> f x = f y -> x = y.
Proof.
  induction l as [|a l IH]; simpl; intros Hnd Hx Hy Hf; [contradiction|].
  inversion Hnd as [|? ? Hnotin Hnd']; subst.
  destruct Hx as [->|Hx], Hy as [->|Hy]; auto.
  - exfalso. apply Hnotin. rewrite Hf. apply in_map. exact Hy.
  - exfalso. apply Hnotin. rewrite <- Hf. apply in_map. exact Hx.
Qed.

Lemma select_task_other_owner w task other :
  consistent w -> In task (tasks w) -> Task.user_id task <> other ->
  Mcp.select_task (Task.id task) other (tasks w) = None.
Proof.
  intros Hw Hin Hne.
  destruct (Mcp.select_task (Task.id task) other (tasks w)) as [task'|] eqn:Hsel;
    [|reflexivity].
  exfalso. apply select_task_spec in Hsel. destruct Hsel as (Hin' & Hid & Hu).
  assert (task' = task)
    by (eapply NoDup_map_inj; [apply (unique_ids _ Hw)| | |]; eassumption).
  subst task'. contradiction.
Qed.

Lemma in_insert_desc {A} (key : A -> nat) x y l :
  In x (insert_desc key y l) <-> x = y \/ In x l.
Proof.
  induction l as [|z l IH]; simpl.
  - intuition.
  - destruct (key z <=? key y)%nat; simpl; [intuition|].
    rewrite IH. intuition.
Qed.

Lemma in_order_by_desc {A} (key : A -> nat) x l :
  In x (order_by_desc key l) <-> In x l.
Proof.
  induction l as [|y l IH]; simpl; [reflexivity|].
  rewrite in_insert_desc, IH. intuition.
Qed.

Lemma in_firstn {A} (x : A) n l : In x (firstn n l) -> In x l.
Proof.
  revert l. induction n as [|n IH]; intros [|y l]; simpl; try tauto.
  intros [->|H]; auto.
Qed.

(** The rows [list_tasks] selects for an owner, a status filter and an
    effective limit. *)
Definition listing (user_id : string) (status : pyval) (n : Z) (ts : list Task.t)
  : list Row.t :=
  let query := List.filter (fun r => String.eqb (Task.user_id r) user_id) ts in
  let query :=
    if Mcp.py_eq_str status "pending"
    then List.filter (fun r => negb (Task.completed r)) query
    else if Mcp.py_eq_str status "completed"
    then List.filter (fun r => Task.completed r) query
    else query in
  List.map Mcp.row_of_task (firstn (Z.to_nat n) (order_by_desc Task.created_at query)).

Lemma validate_user_id_error v r :
  Mcp.validate_user_id v = Ok (Some r) -> r = Error "user_id is required".
Proof.
  unfold Mcp.validate_user_id, Mcp.error_response.
  destruct (negb (truthy v)); [congruence|].
  destruct v; try discriminate.
  destruct (negb (truthy (PStr (strip s)))); congruence.
Qed.

Lemma validate_status_error v r :
  Mcp.validate_status v = Some r ->
  r = Error "status must be 'all', 'pending', or 'completed'".
Proof.
  unfold Mcp.validate_status, Mcp.error_response.
  destruct v; try congruence.
  destruct (existsb _ _); congruence.
Qed.

Lemma validate_title_error v n r :
  Mcp.validate_title v n = Ok (Some r) -> exists msg, r = Error msg.
Proof.
  unfold Mcp.validate_title, Mcp.error_response.
  destruct v; simpl;
    repeat match goal with
           | |- context [if ?b then _ else _] => destruct b
           end;
    intros [= <-]; eauto.
Qed.


Arguments Mcp.validate_title : simpl never.
Arguments Mcp.validate_user_id : simpl never.
Arguments Mcp.validate_status : simpl never.
Arguments Mcp.select_task : simpl never.

(** Arguments of [update_task] that pass its validation: at least one
    field is given, and a given title is accepted by [validate_title]. *)
Definition update_args_valid (title description : option string) : Prop :=
  (title <> None \/ description <> None)
  /\ forall t, title = Some t -> Mcp.validate_title (PStr t) 500 = Ok None.





Lemma alice_world_consistent : consistent alice_world.
Proof.
  split; simpl.
  - constructor; [simpl; tauto | constructor].
  - repeat constructor.
  - repeat constructor.
Qed.

(** [update_task] checks its arguments before it looks the task up: a call
    with neither title nor description is a validation error for every
    task id, the caller's own, another owner's or none. *)
Example update_without_fields_is_a_validation_error :
  Mcp.update_task (PStr "bob") (PInt (Task.id milk)) PNone PNone alice_world
  = (Ok (Error "at least one of title or description must be provided"), alice_world)
  /\ Mcp.update_task (PStr "alice") (PInt (Task.id milk)) PNone PNone alice_world
     = (Ok (Error "at least one of title or description must be provided"), alice_world)
  /\ Mcp.update_task (PStr "alice") (PInt 99) PNone PNone alice_world
     = (Ok (Error "at least one of title or description must be provided"), alice_world).
Proof. split; [reflexivity|]. split; reflexivity. Qed.

(* --------------------------------------------------------------------- *)
(** ** Adding and listing                                                  *)
(* --------------------------------------------------------------------- *)

Lemma order_by_desc_newest {A} (key : A -> nat) (l : list A) (x : A) :
  Forall (fun y => (key y < key x)%nat) l ->
  order_by_desc key (l ++ [x]) = x :: order_by_desc key l.
Proof.
  induction 1 as [|y l Hy Hl IH]; simpl; [reflexivity|].
  fold (order_by_desc key (l ++ [x])). rewrite IH. simpl.
  fold (order_by_desc key l).
  destruct (Nat.leb_spec (key x) (key y)); [lia | reflexivity].
Qed.



(** A title or a description with a NUL character is refused when the row is
    written, and [add_task] reports the storage as unavailable. *)
Lemma add_task_refused w user_id title description :
  available w -> valid_owner user_id ->
  Mcp.validate_title (PStr title) 500 = Ok None ->
  has_nul title = true \/ (exists d, description = Some d /\ has_nul d = true) ->
  Mcp.add_task (PStr user_id) (PStr title) (py_opt description) w
  = (Ok (Error "service unavailable"),
     mkWorld (tasks w) (task_seq w) (S (S (clock w))) (uuid_seq w) (provider_calls w)
             (db_error w)).
Proof.
  intros Hdb Hu Ht Hnul. unfold available in Hdb.
  unfold Mcp.add_task. run_tool.
  rewrite Hu. simpl. rewrite Ht. simpl. rewrite Hdb. simpl.
  destruct (has_nul (strip title)) eqn:Hs; simpl; [rewrite ?Hdb; reflexivity|].
  rewrite has_nul_strip in Hs.
  destruct Hnul as [Hnul|(d & -> & Hnul)]; [congruence|].
  simpl. rewrite Hnul. simpl. rewrite ?Hdb. reflexivity.
Qed.

Lemma list_tasks_listing w user_id status n :
  available w -> valid_owner user_id -> Mcp.validate_status status = None ->
  (1 <= n)%Z ->
  Mcp.list_tasks (PStr user_id) status (PInt n) w
  = (Ok (TaskList (listing user_id status (Z.min n 1000) (tasks w))), w).
Proof.
  intros Hdb Hu Hs Hn. unfold available in Hdb. unfold Mcp.list_tasks. run_tool.
  rewrite Hu. simpl. rewrite Hs. simpl.
  destruct (Z.ltb_spec n 1); [lia|]. simpl.
  destruct (Z.ltb_spec 1000 n); simpl; rewrite Hdb; simpl.
  - rewrite Z.min_r by lia. reflexivity.
  - rewrite Z.min_l by lia. reflexivity.
Qed.




(** A title with a NUL character passes [validate_title], being neither
    empty nor too long. *)
Definition nul_title : string := String Ascii.zero "eggs".


(* --------------------------------------------------------------------- *)
(** ** The limit of [list_tasks]                                          *)
(* --------------------------------------------------------------------- *)

Lemma unexpected_insert params (args : gmap string pyval) key v :
  In key params ->
  AiAgent.unexpected params (<[key := v]> args) = AiAgent.unexpected params args.
Proof.
  intros Hkey. unfold AiAgent.unexpected. f_equal.
  apply bool_decide_ext. rewrite dom_insert.
  assert (Hk : key ∈ (list_to_set params : gset string))
    by (apply elem_of_list_to_set, list_elem_of_In; exact Hkey).
  split; intros Hsub x Hx.
  - apply Hsub, elem_of_union. right. exact Hx.
  - apply elem_of_union in Hx. destruct Hx as [Hx|Hx]; [|exact (Hsub x Hx)].
    apply elem_of_singleton in Hx. subst x. exact Hk.
Qed.

(** C10 — Limit normalisation in [list_tasks].  For a valid owner and a
    status that passes validation: a missing limit ([None], or no ["limit"]
    key in the arguments of the model) is treated as 100; a limit below 1 is
    rejected with ["limit must be at least 1"]; a limit above 1000 is not
    rejected but behaves exactly like 1000 and yields the listing; whereas a
    status outside all/pending/completed is rejected. *)
Theorem list_tasks_limit_normalization w user_id status :
  valid_owner user_id -> Mcp.validate_status status = None ->
  Mcp.list_tasks (PStr user_id) status PNone w
    = Mcp.list_tasks (PStr user_id) status (PInt 100) w
  /\ (forall items,
        items !! "limit" = None ->
        AiAgent.invoke_tool "list_tasks" user_id (PDict items) w
        = AiAgent.invoke_tool "list_tasks" user_id (PDict (<["limit" := PInt 100]> items)) w)
  /\ (forall n, (n < 1)%Z ->
        Mcp.list_tasks (PStr user_id) status (PInt n) w
        = (Ok (Error "limit must be at least 1"), w))
  /\ (forall n, (1000 < n)%Z ->
        Mcp.list_tasks (PStr user_id) status (PInt n) w
        = Mcp.list_tasks (PStr user_id) status (PInt 1000) w
        /\ (available w ->
            Mcp.list_tasks (PStr user_id) status (PInt n) w
            = (Ok (TaskList (listing user_id status 1000 (tasks w))), w)))
  /\ (forall s limit,
        existsb (String.eqb s) Mcp.valid_statuses = false ->
        Mcp.list_tasks (PStr user_id) (PStr s) limit w
        = (Ok (Error "status must be 'all', 'pending', or 'completed'"), w)).
Proof.
  intros Hu Hs. split; [|split; [|split; [|split]]].
  - unfold Mcp.list_tasks. reflexivity.
  - intros items Hnone. unfold AiAgent.invoke_tool, AiAgent.set_user_id.
    run_tool. unfold AiAgent.call_list_tasks.
    rewrite (insert_insert_ne items "user_id" "limit") by discriminate.
    rewrite (unexpected_insert _ (<["user_id" := PStr user_id]> items) "limit")
      by (simpl; tauto).
    destruct (AiAgent.unexpected _ _); [reflexivity|].
    rewrite !lookup_insert_eq.
    rewrite (lookup_insert_ne _ "limit" "user_id") by discriminate.
    rewrite lookup_insert_eq.
    rewrite (lookup_insert_ne _ "limit" "status") by discriminate.
    rewrite (lookup_insert_ne _ "user_id" "limit") by discriminate.
    rewrite Hnone. reflexivity.
  - intros n Hn. unfold Mcp.list_tasks. run_tool. rewrite Hu. simpl.
    rewrite Hs. simpl. destruct (Z.ltb_spec n 1); [reflexivity | lia].
  - intros n Hn. split.
    + unfold Mcp.list_tasks. run_tool. rewrite Hu. simpl. rewrite Hs. simpl.
      destruct (Z.ltb_spec n 1); [lia|]. simpl.
      destruct (Z.ltb_spec 1000 n); [reflexivity | lia].
    + intros Hdb. rewrite list_tasks_listing; [|assumption..|lia].
      rewrite Z.min_r by lia. reflexivity.
  - intros s limit Hbad. unfold Mcp.list_tasks. run_tool. rewrite Hu. simpl.
    unfold Mcp.validate_status. rewrite Hbad. reflexivity.
Qed.

Lemma list_tasks_limit_normalization_witness :
  valid_owner "alice" /\ Mcp.validate_status (PStr "all") = None
  /\ Mcp.list_tasks (PStr "alice") (PStr "all") (PInt 5000) alice_world
     = Mcp.list_tasks (PStr "alice") (PStr "all") (PInt 1000) alice_world.
Proof.
  split; [reflexivity|]. split; [reflexivity|].
  exact (proj1 (proj1 (proj2 (proj2 (proj2
           (list_tasks_limit_normalization alice_world "alice" (PStr "all")
              eq_refl eq_refl)))) 5000%Z ltac:(lia))).
Defined.

(* ===================================================================== *)
(** * The boundary between the agent and the tools                        *)
(* ===================================================================== *)

(** The same world with the storage layer failing with [text]. *)
Definition failing (text : string) (w : World) : World :=
  mkWorld (tasks w) (task_seq w) (clock w) (uuid_seq w) (provider_calls w) (Some text).

(** What a failing storage layer raises never shows in a tool's answer:
    the answer is the same for every exception text, and it is
    ["service unavailable"] as soon as the session is reached. *)
Lemma storage_failure_is_opaque w text1 text2 user_id task_id title description status limit :
  fst (Mcp.add_task user_id title description (failing text1 w))
    = fst (Mcp.add_task user_id title description (failing text2 w))
  /\ fst (Mcp.list_tasks user_id status limit (failing text1 w))
     = fst (Mcp.list_tasks user_id status limit (failing text2 w))
  /\ fst (Mcp.complete_task user_id task_id (failing text1 w))
     = fst (Mcp.complete_task user_id task_id (failing text2 w))
  /\ fst (Mcp.update_task user_id task_id title description (failing text1 w))
     = fst (Mcp.update_task user_id task_id title description (failing text2 w))
  /\ fst (Mcp.delete_task user_id task_id (failing text1 w))
     = fst (Mcp.delete_task user_id task_id (failing text2 w)).
Proof.
  unfold Mcp.add_task, Mcp.list_tasks, Mcp.complete_task, Mcp.update_task,
    Mcp.delete_task.
  run_tool.
  destruct (Mcp.validate_user_id user_id) as [[e|]| |]; simpl;
    [tauto| |tauto|tauto].
  repeat split.
  - destruct (Mcp.validate_title title 500) as [[e|]| |]; simpl; try reflexivity.
    destruct (Mcp.py_strip title); reflexivity.
  - destruct (Mcp.validate_status status); simpl; try reflexivity.
    destruct (Mcp.py_lt _ 1) as [[|]| |]; simpl; try reflexivity.
    destruct (Mcp.py_gt _ 1000) as [[|]| |]; reflexivity.
  - destruct (Mcp.validate_task_id task_id); reflexivity.
  - destruct (Mcp.validate_task_id task_id); simpl; try reflexivity.
    destruct title; try (destruct description; reflexivity);
      simpl; destruct (Mcp.validate_title _ 500) as [[e|]| |]; simpl; try reflexivity;
      destruct (Mcp.py_strip _); reflexivity.
  - destruct (Mcp.validate_task_id task_id); reflexivity.
Qed.

Lemma storage_failure_is_service_unavailable w text user_id task_id title :
  valid_owner user_id -> Mcp.validate_title (PStr title) 500 = Ok None ->
  fst (Mcp.add_task (PStr user_id) (PStr title) PNone (failing text w))
    = Ok (Error "service unavailable")
  /\ fst (Mcp.list_tasks (PStr user_id) (PStr "all") (PInt 100) (failing text w))
     = Ok (Error "service unavailable")
  /\ fst (Mcp.complete_task (PStr user_id) (PInt task_id) (failing text w))
     = Ok (Error "service unavailable")
  /\ fst (Mcp.update_task (PStr user_id) (PInt task_id) (PStr title) PNone (failing text w))
     = Ok (Error "service unavailable")
  /\ fst (Mcp.delete_task (PStr user_id) (PInt task_id) (failing text w))
     = Ok (Error "service unavailable").
Proof.
  intros Hu Ht.
  unfold Mcp.add_task, Mcp.list_tasks, Mcp.complete_task, Mcp.update_task,
    Mcp.delete_task.
  run_tool. rewrite Hu. simpl. rewrite Ht. simpl. repeat split.
Qed.

(** On arguments of the declared types every tool returns an object: no
    exception leaves it, whatever the state of the storage layer. *)
Lemma tools_return_on_typed_arguments w user_id
      (task_id : option Z) (title description status : option string) (limit : option Z) :
  let py_int := fun z : option Z => match z with Some n => PInt n | None => PNone end in
  (exists r w', Mcp.add_task (PStr user_id) (py_opt title) (py_opt description) w = (Ok r, w'))
  /\ (exists r w', Mcp.list_tasks (PStr user_id) (py_opt status) (py_int limit) w = (Ok r, w'))
  /\ (exists r w', Mcp.complete_task (PStr user_id) (py_int task_id) w = (Ok r, w'))
  /\ (exists r w', Mcp.update_task (PStr user_id) (py_int task_id)
                                   (py_opt title) (py_opt description) w = (Ok r, w'))
  /\ (exists r w', Mcp.delete_task (PStr user_id) (py_int task_id) w = (Ok r, w')).
Proof.
  intros py_int.
  assert (Hu : exists o, Mcp.validate_user_id (PStr user_id) = Ok o).
  { unfold Mcp.validate_user_id. simpl.
    destruct (negb (negb (String.eqb user_id ""))); [eauto|].
    destruct (negb (negb (String.eqb (strip user_id) ""))); eauto. }
  assert (Ht : forall t, exists o, Mcp.validate_title (PStr t) 500 = Ok o).
  { intros t. unfold Mcp.validate_title. simpl.
    destruct (negb (negb (String.eqb (strip t) ""))); [eauto|].
    destruct (Z.of_nat 500 <? len t)%Z; eauto. }
  destruct Hu as [ou Hu].
  unfold Mcp.add_task, Mcp.list_tasks, Mcp.complete_task, Mcp.update_task,
    Mcp.delete_task.
  run_tool. rewrite Hu. simpl.
  destruct ou as [e|]; simpl; [repeat split; eauto|].
  split; [|split; [|split; [|split]]].
  - destruct title as [t|]; simpl; [|unfold Mcp.validate_title; simpl; eauto].
    destruct (Ht t) as [[e|] ->]; simpl; [eauto|].
    destruct (db_error w); simpl; [eauto|].
    destruct description; simpl; nul_cases; eauto.
  - destruct (Mcp.validate_status (py_opt status)); simpl; [eauto|].
    destruct limit as [n|]; simpl.
    + destruct (n <? 1)%Z; simpl; [eauto|].
      destruct (1000 <? n)%Z; simpl; destruct (db_error w); simpl; eauto.
    + destruct (db_error w); simpl; eauto.
  - destruct task_id as [n|]; simpl; [|eauto].
    destruct (db_error w); simpl; [eauto|].
    destruct (Mcp.select_task n user_id (tasks w)); simpl; eauto.
  - destruct task_id as [n|]; simpl; [|eauto].
    destruct title as [t|]; simpl.
    + destruct (Ht t) as [[e|] ->]; simpl; [eauto|].
      destruct (db_error w); simpl; [eauto|].
      destruct (Mcp.select_task n user_id (tasks w)); simpl; [|eauto].
      destruct description; simpl; nul_cases; eauto.
    + destruct description; simpl; [|eauto].
      destruct (db_error w); simpl; [eauto|].
      destruct (Mcp.select_task n user_id (tasks w)); simpl; nul_cases; eauto.
  - destruct task_id as [n|]; simpl; [|eauto].
    destruct (db_error w); simpl; [eauto|].
    destruct (Mcp.select_task n user_id (tasks w)); simpl; eauto.
Qed.

(** What no tool touches: the provider counter, the identifier source and
    the state of the storage layer. *)
Definition same_environment (w w' : World) : Prop :=
  provider_calls w' = provider_calls w
  /\ uuid_seq w' = uuid_seq w
  /\ db_error w' = db_error w.

Definition keeps_environment {A} (m : M A) : Prop :=
  forall w, same_environment w (snd (m w)).

Section KeepsEnvironment.

Context {A B : Type}.

Lemma keeps_ret (a : A) : keeps_environment (ret a).
Proof. intros w. repeat split. Qed.

Lemma keeps_raise (e : exn) : keeps_environment (raise e : M A).
Proof. intros w. repeat split. Qed.

Lemma keeps_unmodelled : keeps_environment (unmodelled : M A).
Proof. intros w. repeat split. Qed.

Lemma keeps_lift (o : outcome A) : keeps_environment (lift o).
Proof. intros w. repeat split. Qed.

Lemma keeps_bind (m : M A) (k : A -> M B) :
  keeps_environment m -> (forall a, keeps_environment (k a)) ->
  keeps_environment (bind m k).
Proof.
  intros Hm Hk w. unfold bind. specialize (Hm w).
  destruct (m w) as [[a|e|] w1]; simpl in *; try exact Hm.
  specialize (Hk a w1). unfold same_environment in *.
  destruct Hm as (? & ? & ?), Hk as (? & ? & ?). repeat split; congruence.
Qed.

Lemma keeps_try_except (body : M A) (handler : exn -> M A) :
  keeps_environment body -> (forall e, keeps_environment (handler e)) ->
  keeps_environment (try_except body handler).
Proof.
  intros Hm Hk w. unfold try_except. specialize (Hm w).
  destruct (body w) as [[a|e|] w1]; simpl in *; try exact Hm.
  specialize (Hk e w1). unfold same_environment in *.
  destruct Hm as (? & ? & ?), Hk as (? & ? & ?). repeat split; congruence.
Qed.

End KeepsEnvironment.

Lemma keeps_primitives :
  keeps_environment session /\ keeps_environment utcnow
  /\ keeps_environment get_tasks /\ keeps_environment next_task_id
  /\ forall ts, keeps_environment (put_tasks ts).
Proof.
  unfold keeps_environment, same_environment, session, utcnow, get_tasks,
    next_task_id, put_tasks.
  split; [|repeat split].
  intros w. destruct (db_error w) eqn:E; simpl; auto.
Qed.

Ltac keeps :=
  repeat first
    [ apply keeps_ret | apply keeps_raise | apply keeps_unmodelled | apply keeps_lift
    | apply (proj1 keeps_primitives)
    | apply (proj1 (proj2 keeps_primitives))
    | apply (proj1 (proj2 (proj2 keeps_primitives)))
    | apply (proj1 (proj2 (proj2 (proj2 keeps_primitives))))
    | apply (proj2 (proj2 (proj2 (proj2 keeps_primitives))))
    | apply keeps_bind; [|intros ?]
    | apply keeps_try_except; [|intros ?]
    | match goal with
      | |- keeps_environment (match ?x with _ => _ end) => destruct x
      end ].

Ltac keeps_tool :=
  unfold Mcp.add_task, Mcp.list_tasks, Mcp.complete_task, Mcp.update_task,
    Mcp.delete_task, sql_int, sql_text, sql_opt_text, sql_opt_string, sql_string; keeps.

Lemma add_task_keeps_environment user_id title description :
  keeps_environment (Mcp.add_task user_id title description).
Proof. keeps_tool. Qed.

Lemma list_tasks_keeps_environment user_id status limit :
  keeps_environment (Mcp.list_tasks user_id status limit).
Proof. keeps_tool. Qed.

Lemma complete_task_keeps_environment user_id task_id :
  keeps_environment (Mcp.complete_task user_id task_id).
Proof. keeps_tool. Qed.

Lemma update_task_keeps_environment user_id task_id title description :
  keeps_environment (Mcp.update_task user_id task_id title description).
Proof. keeps_tool. Qed.

Lemma delete_task_keeps_environment user_id task_id :
  keeps_environment (Mcp.delete_task user_id task_id).
Proof. keeps_tool. Qed.

Lemma invoke_tool_keeps_environment tool_name user_id args :
  keeps_environment (AiAgent.invoke_tool tool_name user_id args).
Proof.
  unfold AiAgent.invoke_tool, AiAgent.call_add_task, AiAgent.call_list_tasks,
    AiAgent.call_complete_task, AiAgent.call_update_task, AiAgent.call_delete_task.
  apply keeps_bind; [apply keeps_lift|intros items].
  repeat match goal with
         | |- keeps_environment (match ?x with _ => _ end) => destruct x
         end;
    first [ apply keeps_raise | apply keeps_ret
          | apply add_task_keeps_environment | apply list_tasks_keeps_environment
          | apply complete_task_keeps_environment | apply update_task_keeps_environment
          | apply delete_task_keeps_environment ].
Qed.

(* ===================================================================== *)
(** * The agentic loop                                                    *)
(* ===================================================================== *)

Lemma execute_tool_calls_keeps_environment user_id tool_calls msgs :
  keeps_environment (AiAgent.execute_tool_calls user_id tool_calls msgs).
Proof.
  revert msgs. induction tool_calls as [|tool_call rest IH]; intros msgs; simpl.
  - apply keeps_ret.
  - apply keeps_bind; [apply keeps_lift|intros args].
    apply keeps_bind; [apply invoke_tool_keeps_environment|intros result].
    apply IH.
Qed.

Section AgenticLoop.

Variable client : Provider.
Variable system_prompt : string.

Lemma create_calls msgs w :
  provider_calls (snd (AiAgent.create client msgs w)) = S (provider_calls w).
Proof.
  unfold AiAgent.create. destruct (client (provider_calls w) msgs); reflexivity.
Qed.

(** One turn of the loop, with the effects of [bind] spelled out. *)
Lemma agentic_loop_step fuel user_id iteration msgs last w :
  AiAgent.agentic_loop client (S fuel) user_id iteration msgs last w
  = if (iteration <? AiAgent.max_iterations)%nat then
      match AiAgent.create client msgs w with
      | (Ok reply, w1) =>
          match Reply.tool_calls reply with
          | [] => (Ok (Some (AiAgent.Break (S iteration) (Reply.content reply))), w1)
          | tool_calls =>
              match AiAgent.execute_tool_calls user_id tool_calls
                      (msgs ++ [AssistantToolCalls (Reply.content reply) tool_calls])
                      w1 with
              | (Ok msgs', w2) =>
                  AiAgent.agentic_loop client fuel user_id (S iteration) msgs'
                                       (Reply.content reply) w2
              | (Exc e, w2) => (Exc e, w2)
              | (Unmodelled, w2) => (Unmodelled, w2)
              end
          end
      | (Exc e, w1) => (Exc e, w1)
      | (Unmodelled, w1) => (Unmodelled, w1)
      end
    else (Ok (Some (AiAgent.ConditionFalse iteration last)), w).
Proof.
  simpl. destruct (iteration <? AiAgent.max_iterations)%nat; [|reflexivity].
  unfold bind at 1.
  destruct (AiAgent.create client msgs w) as [[reply|e|] w1]; try reflexivity.
  destruct (Reply.tool_calls reply); reflexivity.
Qed.

Arguments AiAgent.agentic_loop : simpl never.
Arguments AiAgent.execute_tool_calls : simpl never.

Ltac case_execute msgs' e w2 :=
  cbv zeta;
  match goal with
  | |- context [AiAgent.execute_tool_calls ?u ?t ?m ?w] =>
      destruct (AiAgent.execute_tool_calls u t m w) as [[msgs'|e|] w2]
  end.

(** Whatever the provider answers, the loop sends it at most
    [max_iterations - iteration] requests. *)
Lemma agentic_loop_round_trips fuel user_id iteration msgs last w :
  (iteration <= AiAgent.max_iterations)%nat ->
  (provider_calls (snd (AiAgent.agentic_loop client fuel user_id iteration msgs last w))
   <= provider_calls w + (AiAgent.max_iterations - iteration))%nat.
Proof.
  revert iteration msgs last w.
  induction fuel as [|fuel IH]; intros iteration msgs last w Hle; [simpl; lia|].
  rewrite agentic_loop_step.
  destruct (Nat.ltb_spec iteration AiAgent.max_iterations) as [Hlt|Hge];
    [|simpl; lia].
  pose proof (create_calls msgs w) as Hc.
  destruct (AiAgent.create client msgs w) as [[reply|e|] w1]; simpl in Hc |- *;
    try lia.
  destruct (Reply.tool_calls reply) as [|tool_call rest]; [simpl; lia|].
  cbv zeta.
  pose proof (execute_tool_calls_keeps_environment user_id (tool_call :: rest)
                (msgs ++ [AssistantToolCalls (Reply.content reply) (tool_call :: rest)])
                w1) as (Hk & _).
  destruct (AiAgent.execute_tool_calls user_id (tool_call :: rest) _ w1)
    as [[msgs'|e|] w2]; simpl in Hk |- *; try lia.
  specialize (IH (S iteration) msgs' (Reply.content reply) w2 ltac:(lia)). lia.
Qed.

(** With more fuel than iterations left, the loop is left properly. *)
Lemma agentic_loop_fuel fuel user_id iteration msgs last w :
  (AiAgent.max_iterations - iteration < fuel)%nat ->
  fst (AiAgent.agentic_loop client fuel user_id iteration msgs last w) <> Ok None.
Proof.
  revert iteration msgs last w.
  induction fuel as [|fuel IH]; intros iteration msgs last w Hfuel; [lia|].
  rewrite agentic_loop_step.
  destruct (Nat.ltb_spec iteration AiAgent.max_iterations); [|discriminate].
  destruct (AiAgent.create client msgs w) as [[reply|e|] w1]; try discriminate.
  destruct (Reply.tool_calls reply) as [|tool_call rest]; [discriminate|].
  case_execute msgs' e w2; try discriminate.
  apply IH. lia.
Qed.

(** More fuel than needed changes nothing. *)
Lemma agentic_loop_more_fuel fuel user_id iteration msgs last w :
  fst (AiAgent.agentic_loop client fuel user_id iteration msgs last w) <> Ok None ->
  AiAgent.agentic_loop client (S fuel) user_id iteration msgs last w
  = AiAgent.agentic_loop client fuel user_id iteration msgs last w.
Proof.
  revert iteration msgs last w.
  induction fuel as [|fuel IH]; intros iteration msgs last w Hfuel.
  - simpl in Hfuel. contradiction.
  - rewrite (agentic_loop_step (S fuel)). rewrite (agentic_loop_step fuel) in Hfuel |- *.
    destruct (iteration <? AiAgent.max_iterations)%nat; [|reflexivity].
    destruct (AiAgent.create client msgs w) as [[reply|e|] w1]; try reflexivity.
    destruct (Reply.tool_calls reply) as [|tool_call rest]; [reflexivity|].
    revert Hfuel. case_execute msgs' e w2; intros Hfuel; try reflexivity.
    apply IH. exact Hfuel.
Qed.

(** [generate_response] terminates for every provider: the fuel it is
    given always suffices. *)
Lemma generate_response_fuel_suffices history user_id w :
  fst (AiAgent.generate_response_fuel client system_prompt (S AiAgent.max_iterations)
         history user_id w) <> Ok None.
Proof.
  unfold AiAgent.generate_response_fuel. unfold bind at 1.
  pose proof (agentic_loop_fuel (S AiAgent.max_iterations) user_id 0
                (Plain "system" system_prompt
                   :: List.map (fun m => Plain (fst m) (snd m)) history)
                None w ltac:(unfold AiAgent.max_iterations; lia)) as Hfuel.
  destruct (AiAgent.agentic_loop _ _ _ _ _ _ w) as [[[exit|]|e|] w1]; simpl in *;
    try discriminate.
  contradiction.
Qed.

Lemma generate_response_round_trips history user_id w :
  (provider_calls (snd (AiAgent.generate_response client system_prompt history user_id w))
   <= provider_calls w + AiAgent.max_iterations)%nat.
Proof.
  pose proof (agentic_loop_round_trips (S AiAgent.max_iterations) user_id 0
                (Plain "system" system_prompt
                   :: List.map (fun m => Plain (fst m) (snd m)) history)
                None w ltac:(unfold AiAgent.max_iterations; lia)) as Hcalls.
  unfold AiAgent.generate_response, AiAgent.generate_response_fuel, bind, ret,
    unmodelled.
  destruct (AiAgent.agentic_loop _ _ _ _ _ _ w) as [[[exit|]|e|] w1];
    unfold AiAgent.max_iterations in *; simpl in Hcalls |- *; lia.
Qed.

End AgenticLoop.

(** A provider that asks for at least one tool call in every answer. *)
Definition always_requests_tools (client : Provider) : Prop :=
  forall n msgs, exists reply,
    client n msgs = inr reply /\ Reply.tool_calls reply <> [].

(** A requested call whose arguments decode and whose invocation returns an
    object (a result or an error object) in every world. *)
Definition tool_call_returns (user_id : string) (tool_call : ToolCall.t) : Prop :=
  forall w, exists args r w',
    AiAgent.json_loads (ToolCall.arguments tool_call) = Ok args
    /\ AiAgent.invoke_tool (ToolCall.name tool_call) user_id args w = (Ok r, w').

Definition tool_calls_return (user_id : string) (client : Provider) : Prop :=
  forall n msgs reply,
    client n msgs = inr reply -> Forall (tool_call_returns user_id) (Reply.tool_calls reply).

Lemma execute_tool_calls_returns user_id tool_calls :
  Forall (tool_call_returns user_id) tool_calls ->
  forall msgs w, exists msgs' w',
    AiAgent.execute_tool_calls user_id tool_calls msgs w = (Ok msgs', w')
    /\ provider_calls w' = provider_calls w.
Proof.
  induction 1 as [|tool_call rest Hcall Hrest IH]; intros msgs w.
  - exists msgs, w. split; reflexivity.
  - destruct (Hcall w) as (args & r & w1 & Hargs & Hinvoke).
    destruct (IH (msgs ++ [ToolResult (ToolCall.id tool_call) r]) w1)
      as (msgs' & w2 & Hexec & Hcalls).
    exists msgs', w2. split.
    + simpl. unfold bind, lift. rewrite Hargs, Hinvoke. exact Hexec.
    + rewrite Hcalls.
      pose proof (invoke_tool_keeps_environment (ToolCall.name tool_call) user_id args w)
        as (Hk & _).
      rewrite Hinvoke in Hk. exact Hk.
Qed.

Section CeilingReached.

Variable client : Provider.
Variable system_prompt : string.
Variable user_id : string.
Hypothesis Hrequests : always_requests_tools client.
Hypothesis Hreturn : tool_calls_return user_id client.

Arguments AiAgent.agentic_loop : simpl never.
Arguments AiAgent.execute_tool_calls : simpl never.

Lemma agentic_loop_reaches_ceiling fuel iteration msgs last w :
  (iteration < AiAgent.max_iterations)%nat ->
  (AiAgent.max_iterations - iteration < fuel)%nat ->
  exists msgs_last reply w',
    AiAgent.agentic_loop client fuel user_id iteration msgs last w
      = (Ok (Some (AiAgent.ConditionFalse AiAgent.max_iterations (Reply.content reply))), w')
    /\ client (provider_calls w' - 1) msgs_last = inr reply
    /\ provider_calls w' = (provider_calls w + (AiAgent.max_iterations - iteration))%nat.
Proof.
  revert iteration msgs last w.
  induction fuel as [|fuel IH]; intros iteration msgs last w Hlt Hfuel; [lia|].
  rewrite agentic_loop_step.
  destruct (Nat.ltb_spec iteration AiAgent.max_iterations) as [_|Hge]; [|lia].
  destruct (Hrequests (provider_calls w) msgs) as (reply & Hreply & Hcalls).
  unfold AiAgent.create. rewrite Hreply.
  destruct (Reply.tool_calls reply) as [|tool_call rest] eqn:Htools; [congruence|].
  cbv zeta.
  pose proof (Hreturn _ _ _ Hreply) as Hret. rewrite Htools in Hret.
  destruct (execute_tool_calls_returns user_id _ Hret
              (msgs ++ [AssistantToolCalls (Reply.content reply) (tool_call :: rest)])
              (mkWorld (tasks w) (task_seq w) (clock w) (uuid_seq w)
                       (S (provider_calls w)) (db_error w)))
    as (msgs' & w2 & Hexec & Hpc).
  rewrite Hexec. simpl in Hpc.
  destruct (Nat.eq_dec (S iteration) AiAgent.max_iterations) as [Hlast|Hmore].
  - destruct fuel as [|fuel]; [unfold AiAgent.max_iterations in *; lia|].
    rewrite agentic_loop_step. rewrite Hlast, Nat.ltb_irrefl.
    exists msgs, reply, w2. split; [reflexivity|].
    split.
    + rewrite Hpc. simpl. rewrite Nat.sub_0_r. exact Hreply.
    + rewrite Hpc. unfold AiAgent.max_iterations in *. lia.
  - destruct (IH (S iteration) msgs' (Reply.content reply) w2) as
      (msgs_last & reply' & w' & Hloop & Hfinal & Hcount);
      [unfold AiAgent.max_iterations in *; lia..|].
    exists msgs_last, reply', w'. split; [exact Hloop|]. split; [exact Hfinal|].
    rewrite Hcount, Hpc. unfold AiAgent.max_iterations in *. lia.
Qed.

Lemma content_or_default_nonempty content :
  AiAgent.content_or_default content <> "".
Proof.
  unfold AiAgent.content_or_default. destruct content as [s|]; [|discriminate].
  destruct (String.eqb_spec s ""); [discriminate | assumption].
Qed.

(** When every requested call returns, a provider that never stops
    requesting tools is cut off at the ceiling: exactly five requests are
    sent and the text returned is non-empty, namely the content of the
    fifth answer or else the completion message. *)
Lemma generate_response_at_ceiling history w :
  exists text msgs_last reply w',
    AiAgent.generate_response client system_prompt history user_id w
      = (Ok (Some text), w')
    /\ text <> ""
    /\ provider_calls w' = (provider_calls w + AiAgent.max_iterations)%nat
    /\ client (provider_calls w + 4)%nat msgs_last = inr reply
    /\ text = match Reply.content reply with
              | Some s => if String.eqb s "" then AiAgent.completion_message else s
              | None => AiAgent.completion_message
              end.
Proof.
  destruct (agentic_loop_reaches_ceiling (S AiAgent.max_iterations) 0
              (Plain "system" system_prompt
                 :: List.map (fun m => Plain (fst m) (snd m)) history) None w)
    as (msgs_last & reply & w' & Hloop & Hfinal & Hcount);
    [unfold AiAgent.max_iterations; lia..|].
  exists (AiAgent.content_or_default (Reply.content reply)), msgs_last, reply, w'.
  split; [|split; [|split; [|split]]].
  - unfold AiAgent.generate_response, AiAgent.generate_response_fuel, bind, ret.
    rewrite Hloop. reflexivity.
  - apply content_or_default_nonempty.
  - rewrite Hcount. unfold AiAgent.max_iterations. lia.
  - rewrite Hcount in Hfinal. unfold AiAgent.max_iterations in Hfinal.
    replace (provider_calls w + 4)%nat with (provider_calls w + (5 - 0) - 1)%nat by lia.
    exact Hfinal.
  - reflexivity.
Qed.

End CeilingReached.

(* --------------------------------------------------------------------- *)
(** ** Where exceptions cross from the tools into the loop                *)
(* --------------------------------------------------------------------- *)

(** C8 — Tool-boundary totality fails on arguments of the wrong shape.
    [_invoke_tool] lets an exception through when the model leaves out a
    required argument, names an unknown one, sends a value of another type
    for [title] or [limit], or sends arguments that are not an object. *)
Theorem invoke_tool_raises_on_wrong_shape :
  AiAgent.invoke_tool "add_task" "alice" (PDict ∅) alice_world
    = (Exc (TypeError "missing required positional argument"), alice_world)
  /\ AiAgent.invoke_tool "complete_task" "alice" (PDict {["id" := PInt 1]}) alice_world
     = (Exc (TypeError "got an unexpected keyword argument"), alice_world)
  /\ AiAgent.invoke_tool "add_task" "alice" (PDict {["title" := PInt 5]}) alice_world
     = (Exc (AttributeError "object has no attribute 'strip'"), alice_world)
  /\ AiAgent.invoke_tool "list_tasks" "alice" (PDict {["limit" := PStr "5"]}) alice_world
     = (Exc (TypeError "'<' not supported between these instances"), alice_world)
  /\ AiAgent.invoke_tool "delete_task" "alice" (PList [PInt 1]) alice_world
     = (Exc (TypeError "list indices must be integers or slices, not str"), alice_world).
Proof.
  repeat split; vm_compute; reflexivity.
Qed.

(** A provider that keeps asking for [add_task] without a title. *)
Definition forgetful_model : Provider :=
  fun _ _ => inr (Reply.mk None [ToolCall.mk "call_1" "add_task" (Json (PDict ∅))]).

(** C2 — The loop does not always return text.  With a provider that
    requests a tool call in every answer, but leaves out the required
    title, [generate_response] sends one request and then raises the
    [TypeError] of the tool invocation instead of returning text. *)
Theorem generate_response_aborts_on_tool_exception :
  always_requests_tools forgetful_model
  /\ exists w',
       AiAgent.generate_response forgetful_model "You are a helpful task management assistant."
         [("user", "add a task")] "alice" alice_world
       = (Exc (TypeError "missing required positional argument"), w')
       /\ provider_calls w' = 1%nat.
Proof.
  split.
  - intros n msgs. eexists. split; [reflexivity|discriminate].
  - eexists. split; [vm_compute; reflexivity|reflexivity].
Qed.

(** A provider that keeps asking for the list of tasks. *)
Definition listing_model : Provider :=
  fun _ _ => inr (Reply.mk (Some "Let me look.")
                           [ToolCall.mk "call_1" "list_tasks" (Json (PDict ∅))]).

Lemma listing_model_returns user_id :
  always_requests_tools listing_model /\ tool_calls_return user_id listing_model.
Proof.
  split.
  - intros n msgs. eexists. split; [reflexivity|discriminate].
  - intros n msgs reply [= <-]. constructor; [|constructor].
    intros w. exists (PDict ∅). simpl.
    assert (H : AiAgent.invoke_tool "list_tasks" user_id (PDict ∅) w
                = Mcp.list_tasks (PStr user_id) (PStr "all") (PInt 100) w)
      by reflexivity.
    rewrite H.
    destruct (tools_return_on_typed_arguments w user_id None None None (Some "all")
                (Some 100%Z)) as (_ & (r & w' & Hlist) & _).
    exists r, w'. split; [reflexivity|exact Hlist].
Qed.

(** The ceiling at work: five requests, then the last content. *)
Example generate_response_listing_model :
  exists w',
    AiAgent.generate_response listing_model "prompt" [("user", "what are my tasks?")]
                              "alice" alice_world
    = (Ok (Some "Let me look."), w')
    /\ provider_calls w' = 5%nat.
Proof.
  eexists. split; [vm_compute; reflexivity|reflexivity].
Qed.

(* --------------------------------------------------------------------- *)
(** ** The schema of [update_task]                                        *)
(* --------------------------------------------------------------------- *)

(** C9 — The [update_task] schema handed to the provider requires
    [title].  Its required list is [task_id; title] and only [description]
    is optional, although [update_task] itself accepts a call without
    title and the schema of [app/mcp/server.py] (phase-03) requires
    [task_id] alone. *)
Theorem update_task_schema_requires_title :
  option_map AiAgent.required_of (AiAgent.schema_of "update_task" AiAgent.tools)
    = Some ["task_id"; "title"]
  /\ option_map AiAgent.optional_of (AiAgent.schema_of "update_task" AiAgent.tools)
     = Some ["description"]
  /\ option_map AiAgent.required_of
       (AiAgent.schema_of "update_task" Phase03.get_tool_definitions)
     = Some ["task_id"]
  /\ fst (Mcp.update_task (PStr "alice") (PInt 1) PNone (PStr "2 litres") alice_world)
     = Ok (Success 1 "updated" "buy milk").
Proof.
  repeat split.
Qed.

(* ===================================================================== *)
(** * The bounded history of phase-03                                     *)
(* ===================================================================== *)


Lemma insert_desc_sorted {A} (key : A -> nat) x l :
  StronglySorted (fun a b => (key b <= key a)%nat) l ->
  StronglySorted (fun a b => (key b <= key a)%nat) (insert_desc key x l).
Proof.
  induction 1 as [|y l Hsorted IH Hall]; simpl.
  - repeat constructor.
  - destruct (Nat.leb_spec (key y) (key x)) as [Hle|Hgt].
    + constructor; [constructor; assumption|].
      constructor; [exact Hle|].
      eapply List.Forall_impl; [|exact Hall]. simpl. intros; lia.
    + constructor; [exact IH|].
      apply List.Forall_forall. intros z Hz. apply in_insert_desc in Hz.
      destruct Hz as [->|Hz]; [lia|].
      rewrite List.Forall_forall in Hall. exact (Hall z Hz).
Qed.

Lemma order_by_desc_sorted {A} (key : A -> nat) l :
  StronglySorted (fun a b => (key b <= key a)%nat) (order_by_desc key l).
Proof.
  induction l as [|x l IH]; simpl; [constructor|].
  apply insert_desc_sorted. exact IH.
Qed.

Lemma firstn_sorted {A} (R : A -> A -> Prop) n l :
  StronglySorted R l -> StronglySorted R (firstn n l).
Proof.
  intros H. revert n. induction H as [|x l Hsorted IH Hall]; intros [|n]; simpl;
    try constructor.
  - apply IH.
  - apply List.Forall_forall. intros y Hy. apply in_firstn in Hy.
    rewrite List.Forall_forall in Hall. exact (Hall y Hy).
Qed.

Lemma rev_sorted {A} (R : A -> A -> Prop) l :
  StronglySorted R l -> StronglySorted (fun a b => R b a) (List.rev l).
Proof.
  induction 1 as [|x l Hsorted IH Hall]; simpl; [constructor|].
  assert (Happ : forall l1 l2,
            StronglySorted (fun a b => R b a) l1 ->
            StronglySorted (fun a b => R b a) l2 ->
            (forall a b, In a l1 -> In b l2 -> R b a) ->
            StronglySorted (fun a b => R b a) (l1 ++ l2)).
  { induction l1 as [|a l1 IH1]; intros l2 H1 H2 H12; simpl; [exact H2|].
    inversion H1 as [|? ? H1' Ha]; subst.
    constructor.
    - apply IH1; [exact H1'|exact H2|]. intros; apply H12; simpl; auto.
    - apply List.Forall_app. split; [exact Ha|].
      apply List.Forall_forall. intros b Hb. apply H12; simpl; auto. }
  apply Happ; [exact IH|repeat constructor|].
  intros a b Ha [<-|[]]. apply in_rev in Ha.
  rewrite List.Forall_forall in Hall. exact (Hall a Ha).
Qed.

Section BoundedHistory.

Variable tokens : string -> nat.

(** The size of a set of messages, in tokens. *)
Definition total_tokens (msgs : list Message.t) : Z :=
  fold_right (fun m acc => (Z.of_nat (tokens (Message.content m)) + acc)%Z) 0%Z msgs.

(** The dictionary built for a message. *)
Definition as_dict (m : Message.t) : string * string :=
  (Message.role m, Message.content m).

Lemma total_tokens_nonneg msgs : (0 <= total_tokens msgs)%Z.
Proof. induction msgs as [|m msgs IH]; simpl; lia. Qed.

(** The loop keeps the longest prefix of the newest-first messages that
    fits the remaining budget, and returns it reversed. *)
Lemma history_loop_prefix msgs max_tokens result total :
  (total <= max_tokens)%Z ->
  exists k,
    (k <= length msgs)%nat
    /\ Phase03.history_loop tokens msgs max_tokens result total
       = List.map as_dict (List.rev (firstn k msgs)) ++ result
    /\ (total + total_tokens (firstn k msgs) <= max_tokens)%Z
    /\ ((k < length msgs)%nat ->
        (max_tokens < total + total_tokens (firstn (S k) msgs))%Z).
Proof.
  revert result total.
  induction msgs as [|msg rest IH]; intros result total Hle; simpl.
  - exists 0%nat. simpl. repeat split; try lia.
  - destruct (Z.ltb_spec max_tokens (total + Z.of_nat (tokens (Message.content msg))))
      as [Hover|Hfits].
    + exists 0%nat. simpl. repeat split; try lia.
    + destruct (IH ((Message.role msg, Message.content msg) :: result)
                   (total + Z.of_nat (tokens (Message.content msg)))%Z Hfits)
        as (k & Hk & Hloop & Hsum & Hmax).
      exists (S k). simpl. split; [lia|]. split; [|split].
      * rewrite Hloop, List.map_app. simpl. rewrite <- List.app_assoc. reflexivity.
      * lia.
      * intros Hlt. specialize (Hmax ltac:(lia)). simpl in Hmax. lia.
Qed.

Lemma total_tokens_app l1 l2 :
  total_tokens (l1 ++ l2) = (total_tokens l1 + total_tokens l2)%Z.
Proof. induction l1 as [|m l1 IH]; simpl; [reflexivity|]. rewrite IH. lia. Qed.

Lemma total_tokens_rev l : total_tokens (List.rev l) = total_tokens l.
Proof.
  induction l as [|m l IH]; simpl; [reflexivity|].
  rewrite total_tokens_app, IH. simpl. lia.
Qed.

End BoundedHistory.

Lemma firstn_succ_split {A} k (l : list A) :
  (k < length l)%nat ->
  exists x rest, l = firstn k l ++ x :: rest /\ firstn (S k) l = firstn k l ++ [x].
Proof.
  revert l. induction k as [|k IH]; intros [|y l] Hk; simpl in Hk; try lia.
  - exists y, l. split; reflexivity.
  - destruct (IH l ltac:(lia)) as (x & rest & Hl & Hfirst).
    exists x, rest. split.
    + simpl. rewrite <- Hl. reflexivity.
    + change (firstn (S (S k)) (y :: l)) with (y :: firstn (S k) l).
      rewrite Hfirst. reflexivity.
Qed.

Lemma sorted_app {A} (R : A -> A -> Prop) l1 l2 :
  StronglySorted R (l1 ++ l2) -> forall a b, In a l1 -> In b l2 -> R a b.
Proof.
  induction l1 as [|x l1 IH]; simpl; intros Hs a b Ha Hb; [contradiction|].
  inversion Hs as [|? ? Hs' Hall]; subst.
  destruct Ha as [<-|Ha]; [|exact (IH Hs' a b Ha Hb)].
  rewrite List.Forall_forall in Hall. apply Hall. apply in_or_app. right. exact Hb.
Qed.

(** The messages the query of the loader returns are those of the
    conversation in table [messages]. *)
Lemma newest_first_rows conversation_id db m :
  In m (Phase03.newest_first conversation_id db)
  <-> In m (messages db) /\ Message.conversation_id m = conversation_id.
Proof.
  unfold Phase03.newest_first. rewrite in_order_by_desc, filter_In, Nat.eqb_eq.
  reflexivity.
Qed.

(** C4 (amended) — Bounded history.  For a budget that is not negative,
    [load_conversation_history] returns whole messages, oldest first.  Each
    of them is a row of table [messages] that belongs to the conversation,
    and every message of the conversation that is left out is no newer than
    any returned one: the returned messages are the [k] most recent ones of
    the conversation.  Their cumulative token count does not exceed the
    budget, and [k] is the largest such number: when a message of the
    conversation is left out, the newest message left out does not fit the
    budget together with the returned ones.  In particular, when the newest
    message alone exceeds the budget nothing is returned. *)
Theorem load_conversation_history_bounded
        (tokens : string -> nat) (conversation_id : nat) (max_tokens : Z) (s : Server) :
  available (world s) -> (0 <= max_tokens)%Z ->
  let newest := Phase03.newest_first conversation_id (chat s) in
  let of_conversation := fun m =>
    In m (messages (chat s)) /\ Message.conversation_id m = conversation_id in
  exists k,
    let selected := List.rev (firstn k newest) in
    Phase03.load_conversation_history tokens conversation_id max_tokens s
      = (Ok (List.map (as_dict) selected), s)
    /\ (k <= length newest)%nat
    /\ StronglySorted (fun a b => (Message.created_at a <= Message.created_at b)%nat) selected
    /\ (total_tokens tokens (firstn k newest) <= max_tokens)%Z
    /\ ((k < length newest)%nat ->
        (max_tokens < total_tokens tokens (firstn (S k) newest))%Z)
    /\ (forall m rest,
          newest = m :: rest ->
          (max_tokens < Z.of_nat (tokens (Message.content m)))%Z ->
          k = 0%nat /\ selected = [])
    /\ (forall m, In m newest <-> of_conversation m)
    /\ (forall m, In m selected -> of_conversation m)
    /\ (forall m older,
          In m selected -> of_conversation older -> ~ In older selected ->
          (Message.created_at older <= Message.created_at m)%nat)
    /\ (total_tokens tokens selected <= max_tokens)%Z
    /\ ((exists m, of_conversation m /\ ~ In m selected) ->
        exists next,
          of_conversation next
          /\ (forall m, In m selected ->
                        (Message.created_at next <= Message.created_at m)%nat)
          /\ (max_tokens
              < total_tokens tokens selected + Z.of_nat (tokens (Message.content next)))%Z).
Proof.
  intros Hdb Hbudget newest of_conversation.
  destruct (history_loop_prefix tokens newest max_tokens [] 0%Z Hbudget)
    as (k & Hk & Hloop & Hsum & Hmax).
  assert (Hrows : forall m, In m newest <-> of_conversation m)
    by (intros m; apply newest_first_rows).
  assert (Hsorted : StronglySorted
            (fun a b => (Message.created_at b <= Message.created_at a)%nat) newest)
    by apply order_by_desc_sorted.
  assert (Hleft : forall m, In m newest -> ~ In m (List.rev (firstn k newest)) ->
                            In m (skipn k newest)).
  { intros m Hm Hnot. rewrite <- (firstn_skipn k newest) in Hm.
    apply in_app_or in Hm. destruct Hm as [Hm|Hm]; [|exact Hm].
    exfalso. apply Hnot. exact (proj1 (in_rev _ _) Hm). }
  exists k. cbv zeta.
  split; [|split; [|split; [|split; [|split; [|split; [|split; [|split;
    [|split; [|split]]]]]]]]].
  - unfold Phase03.load_conversation_history, bind, in_world, session, get_chat, ret.
    unfold available in Hdb. rewrite Hdb. simpl. fold newest.
    rewrite Hloop, List.app_nil_r. destruct s; reflexivity.
  - exact Hk.
  - apply (rev_sorted (fun a b => (Message.created_at b <= Message.created_at a)%nat)).
    apply firstn_sorted. exact Hsorted.
  - lia.
  - intros Hlt. specialize (Hmax Hlt). lia.
  - intros m rest Hnewest Hover.
    assert (k = 0%nat) as ->.
    { destruct k as [|k]; [reflexivity|]. exfalso.
      rewrite Hnewest in Hsum. simpl in Hsum.
      pose proof (total_tokens_nonneg tokens (firstn k rest)). lia. }
    split; reflexivity.
  - exact Hrows.
  - intros m Hm. apply Hrows. apply (proj2 (in_rev _ _)) in Hm.
    apply in_firstn in Hm. exact Hm.
  - intros m older Hm Holder Hnot.
    apply Hrows in Holder. apply (Hleft older Holder) in Hnot.
    apply (proj2 (in_rev _ _)) in Hm.
    rewrite <- (firstn_skipn k newest) in Hsorted.
    exact (sorted_app _ _ _ Hsorted m older Hm Hnot).
  - rewrite total_tokens_rev. lia.
  - intros (m & Hm & Hnot). apply Hrows in Hm.
    assert (Hlt : (k < length newest)%nat).
    { destruct (Nat.lt_ge_cases k (length newest)) as [Hlt|Hge]; [exact Hlt|].
      exfalso. apply Hnot. apply (proj1 (in_rev _ _)).
      rewrite firstn_all2 by exact Hge. exact Hm. }
    destruct (firstn_succ_split k newest Hlt) as (next & rest & Hsplit & Hfirst).
    exists next. split; [|split].
    + apply Hrows. rewrite Hsplit. apply in_or_app. right. left. reflexivity.
    + intros m0 Hm0. apply (proj2 (in_rev _ _)) in Hm0.
      rewrite Hsplit in Hsorted.
      apply (sorted_app _ _ _ Hsorted m0 next Hm0). left. reflexivity.
    + specialize (Hmax Hlt). rewrite Hfirst, total_tokens_app in Hmax.
      rewrite total_tokens_rev. simpl in Hmax. lia.
Qed.

(** A conversation of ["alice"] with a single message. *)
Definition hello : Message.t := Message.mk 0 7 "user" "hello" 0.

Definition one_message : Server :=
  mkServer (mkWorld [milk] 2 2 8 0 None)
           (mkChatDb [Conversation.mk 7 "alice" 0 0] [hello]).

Lemma load_conversation_history_bounded_witness :
  available (world one_message) /\ (0 <= 5)%Z
  /\ exists k,
       Phase03.load_conversation_history String.length 7 5 one_message
       = (Ok (List.map as_dict
                (List.rev (firstn k (Phase03.newest_first 7 (chat one_message))))),
          one_message)
       /\ (total_tokens String.length
             (firstn k (Phase03.newest_first 7 (chat one_message))) <= 5)%Z
       /\ forall m,
            In m (List.rev (firstn k (Phase03.newest_first 7 (chat one_message)))) ->
            In m (messages (chat one_message)) /\ Message.conversation_id m = 7%nat.
Proof.
  split; [reflexivity|]. split; [lia|].
  destruct (load_conversation_history_bounded String.length 7 5 one_message
              eq_refl ltac:(lia)) as (k & H1 & _ & _ & H4 & _ & _ & _ & H8 & _).
  exists k. split; [exact H1|]. split; [exact H4|exact H8].
Defined.

(** A conversation whose only message is two words long. *)
Definition hello_world : Message.t := Message.mk 1 9 "user" "hello world" 0.

Definition two_words : Server :=
  mkServer (mkWorld [milk] 2 2 10 0 None)
           (mkChatDb [Conversation.mk 9 "alice" 0 0] [hello_world]).

(** C4 as stated fails: a newest message that alone exceeds the budget is
    not included; the loader returns nothing.  (The budget is one token;
    counting a token per character the message has eleven, and no
    tokenizer gives two words fewer than two.) *)
Lemma load_conversation_history_drops_oversized_newest :
  Phase03.newest_first 9 (chat two_words) = [hello_world]
  /\ (1 < Z.of_nat (String.length (Message.content hello_world)))%Z
  /\ Phase03.load_conversation_history String.length 9 1 two_words
     = (Ok [], two_words).
Proof.
  split; [reflexivity|]. split; [vm_compute; reflexivity|]. reflexivity.
Qed.

(* ===================================================================== *)
(** * The chat endpoints when the agent raises                            *)
(* ===================================================================== *)

(** phase-3: once the round is open and the agent raises, the endpoint
    answers 503 and the committed chat tables are those from before the
    request; the world is the one the agent left. *)
Lemma send_chat_message_agent_raises
      client system_prompt user_id chat_data s conversation pending history w1 e w2 :
  strip (ChatRequest.message chat_data) <> "" ->
  Chat.open_round user_id (ChatRequest.conversation_id chat_data)
                  (strip (ChatRequest.message chat_data)) (chat s) (world s)
    = (Ok (conversation, pending, history), w1) ->
  AiAgent.generate_response client system_prompt history user_id w1 = (Exc e, w2) ->
  Chat.send_chat_message client system_prompt user_id chat_data s
    = (Exc (HTTPException 503), mkServer w2 (chat s)).
Proof.
  intros Hmsg Hopen Hagent. unfold Chat.send_chat_message.
  destruct (String.eqb_spec (strip (ChatRequest.message chat_data)) "");
    [contradiction|].
  unfold try_except, bind, get_chat, in_world, raise. simpl.
  rewrite Hopen. simpl. rewrite Hagent. reflexivity.
Qed.

(** phase-03: what [store_message] does.  It appends the message when the
    storage layer answers, the texts hold no NUL character and the
    conversation exists; otherwise it raises and the tables stay as they
    were. *)
Lemma store_message_cases conversation_id role content s :
  match Phase03.store_message conversation_id role content s with
  | (Ok message, s') =>
      message = Message.mk (uuid_seq (world s)) conversation_id role content
                           (clock (world s))
      /\ chat s' = mkChatDb (conversations (chat s)) (messages (chat s) ++ [message])
      /\ tasks (world s') = tasks (world s)
      /\ db_error (world s') = db_error (world s)
      /\ clock (world s') = S (clock (world s))
  | (Exc e, s') =>
      chat s' = chat s /\ tasks (world s') = tasks (world s)
      /\ ((exists text, e = OperationalError text /\ db_error (world s) = Some text)
          \/ (e = nul_refused /\ (has_nul role = true \/ has_nul content = true))
          \/ (e = Phase03.no_such_conversation
              /\ existsb (fun c => (Conversation.id c =? conversation_id)%nat)
                         (conversations (chat s)) = false))
  | (Unmodelled, _) => False
  end.
Proof.
  unfold Phase03.store_message, bind, in_world, session, get_chat, put_chat, uuid4,
    utcnow, sql_string, ret, raise.
  simpl.
  destruct (db_error (world s)) eqn:Hdb; simpl; [eauto 7|].
  destruct (has_nul role) eqn:Hrole; simpl; [auto 7|].
  destruct (has_nul content) eqn:Hcontent; simpl; [auto 7|].
  destruct (existsb _ (conversations (chat s))) eqn:Hfk; simpl; [auto 7|].
  split; [reflexivity|]. split; [reflexivity|]. right. right. split; [reflexivity|].
  reflexivity.
Qed.

(** phase-03: [receive] appends exactly the user's message to the
    messages table. *)
Lemma receive_stores_user_message tokens user_id request s conversation history s1 :
  Phase03.receive tokens user_id request s = (Ok (conversation, history), s1) ->
  exists id created,
    messages (chat s1)
    = messages (chat s)
      ++ [Message.mk id (Conversation.id conversation) "user"
                     (ChatRequest.message request) created].
Proof.
  unfold Phase03.receive.
  destruct (10000 <? len (ChatRequest.message request))%Z; [discriminate|].
  unfold bind at 1.
  destruct (try_except _ _ s) as [[conv|e|] s0] eqn:Hconv; try discriminate.
  assert (Hkeep : messages (chat s0) = messages (chat s)).
  { revert Hconv.
    unfold try_except, Phase03.get_or_create_conversation, bind, in_world, session,
      get_chat, put_chat, uuid4, utcnow, ret, raise.
    simpl. destruct (db_error (world s)); simpl; [discriminate|].
    destruct (match ChatRequest.conversation_id request with
              | Some cid => _ | None => None end) as [c|]; simpl.
    - destruct (String.eqb (Conversation.user_id c) user_id); simpl;
        [intros [= _ <-]; reflexivity | discriminate].
    - destruct (List.find _ (conversations (chat s))); simpl;
        intros [= _ <-]; reflexivity. }
  unfold bind at 1.
  destruct (Phase03.load_conversation_history tokens (Conversation.id conv) 2000 s0)
    as [[loaded|e|] s0'] eqn:Hload; try discriminate.
  assert (s0' = s0) as ->.
  { revert Hload.
    unfold Phase03.load_conversation_history, bind, in_world, session, get_chat, ret.
    destruct (db_error (world s0)); simpl; [discriminate|].
    intros [= _ <-]. destruct s0; reflexivity. }
  unfold bind at 1.
  pose proof (store_message_cases (Conversation.id conv) "user"
                (ChatRequest.message request) s0) as Hstore.
  destruct (Phase03.store_message (Conversation.id conv) "user"
              (ChatRequest.message request) s0) as [[message|e|] s2]; try discriminate.
  destruct Hstore as (-> & Hchat & _).
  unfold ret. intros [= <- _ <-]. rewrite Hchat. simpl. rewrite Hkeep. eauto.
Qed.

(** phase-03: once the user's message is stored and the agent raises
    [GeminiAPIError], the endpoint answers 503 and writes nothing more. *)
Lemma chat_endpoint_agent_raises
      tokens invoke_agent user_id request s conversation history s1 text w2 :
  Phase03.receive tokens user_id request s = (Ok (conversation, history), s1) ->
  invoke_agent user_id history (ChatRequest.message request) Phase03.get_tool_definitions
               (world s1)
    = (Exc (GeminiAPIError text), w2) ->
  Phase03.chat_endpoint tokens invoke_agent user_id request s
    = (Exc (HTTPException 503), mkServer w2 (chat s1)).
Proof.
  intros Hreceive Hagent. unfold Phase03.chat_endpoint.
  unfold try_except at 1. unfold bind at 1. rewrite Hreceive.
  unfold bind, try_except, in_world. rewrite Hagent. reflexivity.
Qed.

(** phase-03: an exception of the agent that is no [GeminiAPIError] and
    whose text names neither a tool nor MCP leaves the endpoint as status
    500. *)
Lemma chat_endpoint_agent_fails
      tokens invoke_agent user_id request s conversation history s1 text w2 :
  Phase03.receive tokens user_id request s = (Ok (conversation, history), s1) ->
  invoke_agent user_id history (ChatRequest.message request) Phase03.get_tool_definitions
               (world s1)
    = (Exc (ValueError text), w2) ->
  Phase03.chat_endpoint tokens invoke_agent user_id request s
    = (Exc (HTTPException 500), mkServer w2 (chat s1)).
Proof.
  intros Hreceive Hagent. unfold Phase03.chat_endpoint.
  unfold try_except at 1. unfold bind at 1. rewrite Hreceive.
  unfold bind, try_except, in_world. rewrite Hagent. unfold Phase03.on_agent_error.
  destruct (_ || _); reflexivity.
Qed.

(** phase-03: [get_client] either returns a client, the singleton or a new
    one made with the key, or raises because the key is not set. *)
Lemma get_client_cases api_key gemini_client new_client :
  (exists client, Agent03.get_client api_key gemini_client new_client = Ok client)
  \/ (Agent03.get_client api_key gemini_client new_client = Exc Agent03.api_key_missing
      /\ gemini_client = None /\ (api_key = None \/ api_key = Some "")).
Proof.
  unfold Agent03.get_client, Agent03.get_gemini_client.
  destruct gemini_client as [client|]; [eauto|].
  destruct api_key as [key|]; [|auto].
  destruct key as [|c key]; simpl; eauto.
Qed.

(** phase-03: what goes wrong inside the [try] of [invoke_agent] leaves it
    as a [GeminiAPIError]; the exception of [get_client], called before the
    [try], leaves it as it is, and then nothing has happened. *)
Lemma invoke_agent_raises_service_error
      api_key gemini_client new_client system_prompt tool_func
      user_id history user_message tools w e w' :
  Agent03.invoke_agent api_key gemini_client new_client system_prompt tool_func
                       user_id history user_message tools w
    = (Exc e, w') ->
  ((exists client, Agent03.get_client api_key gemini_client new_client = Ok client)
   /\ exists text, e = GeminiAPIError text)
  \/ (Agent03.get_client api_key gemini_client new_client = Exc Agent03.api_key_missing
      /\ e = Agent03.api_key_missing /\ w' = w).
Proof.
  unfold Agent03.invoke_agent. unfold bind at 1. unfold lift.
  destruct (get_client_cases api_key gemini_client new_client) as [[client Hc]|[Hc _]];
    rewrite Hc.
  - unfold try_except, raise.
    destruct (bind _ _ w) as [[r|e0|] w0]; intros [= <- <-]. left. eauto.
  - intros [= <- <-]. right. auto.
Qed.

(** phase-03: an exception raised while a tool executes does not leave the
    loop over the requested calls; it becomes a tool message. *)
Lemma run_tool_calls_captures_exceptions
      tool_func user_id tool_calls msgs calls w e :
  Forall (fun tool_call => exists v,
            AiAgent.json_loads (ToolCall.arguments tool_call) = Ok v) tool_calls ->
  fst (Agent03.run_tool_calls tool_func user_id tool_calls msgs calls w) <> Exc e.
Proof.
  intros Hdecode. revert msgs calls w.
  induction Hdecode as [|tool_call rest [v Hv] Hrest IH]; intros msgs calls w; simpl.
  - discriminate.
  - unfold bind at 1. unfold lift. rewrite Hv.
    unfold bind at 1. unfold try_except.
    destruct (bind (Agent03.execute_tool tool_func (ToolCall.name tool_call) v user_id) _ w)
      as [[step|e0|] w1]; simpl; try discriminate; apply IH.
Qed.

(** phase-03: the call without title that aborts the loop of phase-3 is
    answered there with a tool message, and the agent goes on to its final
    request. *)
Example invoke_agent_captures_missing_title :
  let tool_func : string -> gmap string pyval -> M pyval :=
    fun _ _ => raise (TypeError "missing required positional argument") in
  let client : Agent03.Client :=
    fun n _ => match n with
               | O => inr (Reply.mk None [ToolCall.mk "call_1" "add_task" (Json (PDict ∅))])
               | S _ => inr (Reply.mk (Some "I need a title for the task.") [])
               end in
  fst (Agent03.invoke_agent (Some "key") None (fun _ => client) "prompt" tool_func
                            "alice" [] "add a task"
                            Phase03.get_tool_definitions alice_world)
  = Ok (Phase03.AgentResponse.mk (Some "I need a title for the task.") []).
Proof. vm_compute. reflexivity. Qed.

(** C3 (amended) — Provider failure.  Whenever the agent raises because
    of the provider, no assistant message is written and the caller
    receives 503; the world of the tools stays as the agent left it, so what
    tools had committed survives.  In phase-3 ([send_chat_message]) the
    transaction is rolled back: the conversation and message tables are
    exactly those from before the request, without the user's message.  In
    phase-03 ([chat_endpoint]) the user's message was committed before the
    agent ran and persists; there the agent obtains its client before its
    [try]: when it has one, every exception it raises is answered 503, and
    when the API key is not set it raises before any request to the provider
    and the caller receives 500, the user's message stored all the same. *)
Theorem agent_failure_is_service_unavailable :
  (forall client system_prompt user_id chat_data s conversation pending history w1 e w2,
      strip (ChatRequest.message chat_data) <> "" ->
      Chat.open_round user_id (ChatRequest.conversation_id chat_data)
                      (strip (ChatRequest.message chat_data)) (chat s) (world s)
        = (Ok (conversation, pending, history), w1) ->
      AiAgent.generate_response client system_prompt history user_id w1 = (Exc e, w2) ->
      Chat.send_chat_message client system_prompt user_id chat_data s
        = (Exc (HTTPException 503), mkServer w2 (chat s)))
  /\ (forall tokens api_key gemini_client new_client system_prompt tool_func
             user_id request s conversation history s1 e w2,
        let invoke_agent :=
          Agent03.invoke_agent api_key gemini_client new_client system_prompt tool_func in
        Phase03.receive tokens user_id request s = (Ok (conversation, history), s1) ->
        invoke_agent user_id history (ChatRequest.message request)
                     Phase03.get_tool_definitions (world s1)
          = (Exc e, w2) ->
        (exists id created,
           messages (chat s1)
           = messages (chat s)
             ++ [Message.mk id (Conversation.id conversation) "user"
                            (ChatRequest.message request) created])
        /\ (forall client,
              Agent03.get_client api_key gemini_client new_client = Ok client ->
              Phase03.chat_endpoint tokens invoke_agent user_id request s
              = (Exc (HTTPException 503), mkServer w2 (chat s1)))
        /\ (forall e0,
              Agent03.get_client api_key gemini_client new_client = Exc e0 ->
              e = e0 /\ e0 = Agent03.api_key_missing /\ w2 = world s1
              /\ Phase03.chat_endpoint tokens invoke_agent user_id request s
                 = (Exc (HTTPException 500), s1))).
Proof.
  split.
  - intros. eapply send_chat_message_agent_raises; eassumption.
  - intros tokens api_key gemini_client new_client system_prompt tool_func user_id request s
           conversation history s1 e w2 invoke_agent Hreceive Hagent.
    subst invoke_agent.
    split; [eapply receive_stores_user_message; eassumption|].
    destruct (invoke_agent_raises_service_error _ _ _ _ _ _ _ _ _ _ _ _ Hagent)
      as [([client Hc] & text & ->)|(Hc & -> & ->)].
    + split.
      * intros _ _. eapply chat_endpoint_agent_raises; eassumption.
      * intros e0 He0. congruence.
    + split.
      * intros client Hclient. congruence.
      * intros e0 He0. rewrite Hc in He0. injection He0 as <-.
        split; [reflexivity|]. split; [reflexivity|]. split; [reflexivity|].
        rewrite (chat_endpoint_agent_fails _ _ _ _ _ _ _ _ _ _ Hreceive Hagent).
        destruct s1; reflexivity.
Qed.

(** A provider that cannot be reached, and one that asks for a task to be
    added and cannot be reached afterwards. *)
Definition unreachable : Provider := fun _ _ => inl (APIError "Connection error.").

Definition adds_then_fails : Provider :=
  fun n _ =>
    match n with
    | O => inr (Reply.mk None
                  [ToolCall.mk "call_1" "add_task"
                               (Json (PDict {["title" := PStr "buy eggs"]}))])
    | S _ => inl (APIError "Connection error.")
    end.

(** The same for the client of phase-03, and tools that are never reached. *)
Definition unreachable03 : Agent03.Client := fun _ _ => inl (APIError "Connection error.").

Definition no_tools : string -> gmap string pyval -> M pyval :=
  fun _ _ => raise (ValueError "Title cannot be empty").

Definition fresh_server : Server := mkServer alice_world (mkChatDb [] []).

Definition add_eggs : ChatRequest.t := ChatRequest.mk "please add eggs" None.

Lemma agent_failure_is_service_unavailable_witness :
  (exists w2,
     Chat.send_chat_message unreachable "prompt" "alice" add_eggs fresh_server
     = (Exc (HTTPException 503), mkServer w2 (chat fresh_server)))
  /\ (exists w2 s1,
        Phase03.chat_endpoint String.length
          (Agent03.invoke_agent (Some "key") None (fun _ => unreachable03) "prompt" no_tools)
          "alice" add_eggs fresh_server
        = (Exc (HTTPException 503), mkServer w2 (chat s1))
        /\ exists id created,
             messages (chat s1)
             = messages (chat fresh_server)
               ++ [Message.mk id 0 "user" "please add eggs" created])
  /\ (exists s1,
        Phase03.chat_endpoint String.length
          (Agent03.invoke_agent None None (fun _ => unreachable03) "prompt" no_tools)
          "alice" add_eggs fresh_server
        = (Exc (HTTPException 500), s1)
        /\ exists id created,
             messages (chat s1)
             = messages (chat fresh_server)
               ++ [Message.mk id 0 "user" "please add eggs" created]).
Proof.
  split; [|split].
  - eexists.
    eapply (proj1 agent_failure_is_service_unavailable
              unreachable "prompt" "alice" add_eggs fresh_server).
    + vm_compute. discriminate.
    + vm_compute. reflexivity.
    + vm_compute. reflexivity.
  - edestruct (proj2 agent_failure_is_service_unavailable
                 String.length (Some "key") None (fun _ : string => unreachable03)
                 "prompt" no_tools "alice" add_eggs fresh_server
                 (Conversation.mk 0 "alice" 2 3)) as (Hstored & H503 & _).
    + vm_compute. reflexivity.
    + vm_compute. reflexivity.
    + eexists _, _. split; [exact (H503 unreachable03 eq_refl)|exact Hstored].
  - edestruct (proj2 agent_failure_is_service_unavailable
                 String.length None None (fun _ : string => unreachable03)
                 "prompt" no_tools "alice" add_eggs fresh_server
                 (Conversation.mk 0 "alice" 2 3)) as (Hstored & _ & H500).
    + vm_compute. reflexivity.
    + vm_compute. reflexivity.
    + destruct (H500 Agent03.api_key_missing eq_refl) as (_ & _ & _ & Hrun).
      eexists. split; [exact Hrun|exact Hstored].
Defined.

(** C3 as stated fails in phase-3: after a request during which the
    provider could not be reached, the caller has received 503 and the
    messages table is still empty; the user's message was rolled back with
    the rest of the transaction. *)
Lemma send_chat_message_rolls_back_user_message :
  exists w2 s',
    Chat.send_chat_message unreachable "prompt" "alice" add_eggs fresh_server
    = (Exc (HTTPException 503), s')
    /\ s' = mkServer w2 (mkChatDb [] [])
    /\ messages (chat s') = []
    /\ ~ exists m, In m (messages (chat s'))
                   /\ Message.role m = "user"
                   /\ Message.content m = "please add eggs".
Proof.
  eexists _, _. split; [vm_compute; reflexivity|].
  split; [reflexivity|]. split; [reflexivity|].
  intros (m & Hin & _). exact Hin.
Qed.

(** What a tool committed before the provider failed stays committed, in
    phase-3 as well. *)
Example task_added_before_failure_survives :
  exists w2,
    Chat.send_chat_message adds_then_fails "prompt" "alice" add_eggs fresh_server
    = (Exc (HTTPException 503), mkServer w2 (mkChatDb [] []))
    /\ List.map Task.title (tasks w2) = ["buy milk"; "buy eggs"].
Proof.
  eexists. split; [vm_compute; reflexivity|reflexivity].
Qed.

(** A conversation of ["alice"] that already holds a message.  In phase-3
    a further message to it never reaches the agent: building the history
    trips over [msg.role.value] on the stored row and the request ends with
    500, the tables unchanged. *)
Definition ongoing : Server :=
  mkServer (mkWorld [milk] 2 2 8 0 None)
           (mkChatDb [Conversation.mk 7 "alice" 0 0] [hello]).

Example follow_up_message_fails :
  exists w',
    Chat.send_chat_message listing_model "prompt" "alice"
                           (ChatRequest.mk "and eggs" (Some 7)) ongoing
    = (Exc (HTTPException 500), mkServer w' (chat ongoing))
    /\ provider_calls w' = 0%nat.
Proof.
  eexists. split; [vm_compute; reflexivity|reflexivity].
Qed.

(* ===================================================================== *)
(** * The tools keep the task table consistent                            *)
(* ===================================================================== *)

Lemma consistent_later w c u p d :
  consistent w -> (clock w <= c)%nat ->
  consistent (mkWorld (tasks w) (task_seq w) c u p d).
Proof.
  intros [H1 H2 H3] Hc. split; simpl; auto.
  eapply List.Forall_impl; [|exact H3]. simpl. intros; lia.
Qed.

Lemma consistent_insert w uid title descr created updated c u p d :
  consistent w -> (created < c)%nat -> (clock w <= c)%nat ->
  consistent (mkWorld (tasks w ++ [Task.mk (task_seq w) uid title descr false created updated])
                      (task_seq w + 1) c u p d).
Proof.
  intros [H1 H2 H3] Hcreated Hc. split; simpl.
  - rewrite List.map_app. simpl.
    apply List.NoDup_app; [exact H1|constructor; [simpl; tauto|constructor]|].
    intros x Hx Hx'. simpl in Hx'. destruct Hx' as [<-|[]].
    apply in_map_iff in Hx. destruct Hx as (r & Hid & Hr).
    rewrite List.Forall_forall in H2. specialize (H2 r Hr). lia.
  - apply List.Forall_app. split.
    + eapply List.Forall_impl; [|exact H2]. simpl. intros; lia.
    + constructor; [simpl; lia|constructor].
  - apply List.Forall_app. split.
    + eapply List.Forall_impl; [|exact H3]. simpl. intros; lia.
    + constructor; [simpl; lia|constructor].
Qed.

Lemma consistent_update_row w pk f c u p d :
  consistent w -> (clock w <= c)%nat ->
  (forall r, Task.id (f r) = Task.id r /\ Task.created_at (f r) = Task.created_at r) ->
  consistent (mkWorld (Mcp.update_row pk f (tasks w)) (task_seq w) c u p d).
Proof.
  intros [H1 H2 H3] Hc Hf. unfold Mcp.update_row.
  assert (Hids : List.map Task.id
                   (List.map (fun r => if (Task.id r =? pk)%Z then f r else r) (tasks w))
                 = List.map Task.id (tasks w)).
  { rewrite List.map_map. apply List.map_ext. intros r.
    destruct (Task.id r =? pk)%Z; [apply Hf|reflexivity]. }
  split; simpl.
  - rewrite Hids. exact H1.
  - apply List.Forall_map. eapply List.Forall_impl; [|exact H2]. simpl. intros r Hr.
    destruct (Task.id r =? pk)%Z; [destruct (Hf r) as [-> _]|]; exact Hr.
  - apply List.Forall_map. eapply List.Forall_impl; [|exact H3]. simpl. intros r Hr.
    destruct (Task.id r =? pk)%Z; [destruct (Hf r) as [_ ->]|]; lia.
Qed.

Lemma consistent_delete_row w pk u p d :
  consistent w ->
  consistent (mkWorld (Mcp.delete_row pk (tasks w)) (task_seq w) (clock w) u p d).
Proof.
  intros [H1 H2 H3]. unfold Mcp.delete_row. split; simpl.
  - clear H2 H3. induction (tasks w) as [|r ts IH]; simpl; [constructor|].
    inversion H1 as [|? ? Hnotin Hnd]; subst.
    destruct (negb (Task.id r =? pk)%Z); simpl; [|apply IH; exact Hnd].
    constructor; [|apply IH; exact Hnd].
    intros Hin. apply Hnotin. apply in_map_iff in Hin. destruct Hin as (x & Hx & Hin).
    apply filter_In in Hin. rewrite <- Hx. apply in_map. tauto.
  - apply List.Forall_forall. intros r Hr. apply filter_In in Hr.
    rewrite List.Forall_forall in H2. apply H2. tauto.
  - apply List.Forall_forall. intros r Hr. apply filter_In in Hr.
    rewrite List.Forall_forall in H3. apply H3. tauto.
Qed.

(** Case analysis on what a tool inspects: its arguments, the results of
    validation, the state of the storage layer and the lookup. *)
Ltac inspected x :=
  first
    [ is_var x
    | lazymatch x with
      | db_error _ => idtac
      | has_nul _ => idtac
      | Mcp.select_task _ _ _ => idtac
      | Mcp.validate_user_id _ => idtac
      | Mcp.validate_title _ _ => idtac
      | Mcp.validate_status _ => idtac
      | Mcp.validate_task_id _ => idtac
      | Mcp.py_strip _ => idtac
      | Mcp.py_lt _ _ => idtac
      | Mcp.py_gt _ _ => idtac
      end ].

Ltac case_inspected :=
  match goal with
  | |- context [match ?x with _ => _ end] => inspected x; destruct x
  end.

Ltac consistent_world Hw :=
  first
    [ exact Hw
    | apply consistent_later; [exact Hw|lia]
    | apply consistent_insert; [exact Hw|lia|lia]
    | apply consistent_update_row; [exact Hw|lia|intros ?; split; reflexivity]
    | apply consistent_delete_row; exact Hw ].

(** Every tool, called with any arguments, leaves a consistent table
    consistent. *)
Lemma tools_keep_consistency w user_id task_id title description status limit :
  consistent w ->
  consistent (snd (Mcp.add_task user_id title description w))
  /\ consistent (snd (Mcp.list_tasks user_id status limit w))
  /\ consistent (snd (Mcp.complete_task user_id task_id w))
  /\ consistent (snd (Mcp.update_task user_id task_id title description w))
  /\ consistent (snd (Mcp.delete_task user_id task_id w)).
Proof.
  intros Hw.
  unfold Mcp.add_task, Mcp.list_tasks, Mcp.complete_task, Mcp.update_task,
    Mcp.delete_task.
  run_tool. unfold unmodelled.
  split; [|split; [|split; [|split]]];
    repeat (simpl; case_inspected); simpl; consistent_world Hw.
Qed.

Lemma invoke_tool_keeps_consistency tool_name user_id args w :
  consistent w -> consistent (snd (AiAgent.invoke_tool tool_name user_id args w)).
Proof.
  intros Hw.
  pose proof (fun u i t d s l => tools_keep_consistency w u i t d s l Hw) as Htools.
  unfold AiAgent.invoke_tool, AiAgent.call_add_task, AiAgent.call_list_tasks,
    AiAgent.call_complete_task, AiAgent.call_update_task, AiAgent.call_delete_task,
    bind, lift, raise, ret.
  destruct (AiAgent.set_user_id args user_id) as [items|e|]; simpl; try exact Hw.
  repeat match goal with
         | |- context [if ?b then _ else _] => destruct b; simpl; try exact Hw
         | |- context [match ?x !! ?k with _ => _ end] =>
             destruct (x !! k); simpl; try exact Hw
         end.
  all: first
         [ apply (proj1 (Htools _ PNone _ _ PNone PNone))
         | apply (proj1 (proj2 (Htools _ PNone PNone PNone _ _)))
         | apply (proj1 (proj2 (proj2 (Htools _ _ PNone PNone PNone PNone))))
         | apply (proj1 (proj2 (proj2 (proj2 (Htools _ _ _ _ PNone PNone)))))
         | apply (proj2 (proj2 (proj2 (proj2 (Htools _ _ PNone PNone PNone PNone))))) ].
Qed.

(** The agent never leaves the task table inconsistent, whatever the
    provider answers and however the request ends. *)
Lemma generate_response_keeps_consistency client system_prompt history user_id w :
  consistent w ->
  consistent (snd (AiAgent.generate_response client system_prompt history user_id w)).
Proof.
  assert (Hcreate : forall msgs w0, consistent w0 ->
            consistent (snd (AiAgent.create client msgs w0))).
  { intros msgs w0 [H1 H2 H3]. unfold AiAgent.create.
    destruct (client (provider_calls w0) msgs); split; assumption. }
  assert (Hexec : forall tool_calls msgs w0, consistent w0 ->
            consistent (snd (AiAgent.execute_tool_calls user_id tool_calls msgs w0))).
  { induction tool_calls as [|tool_call rest IH]; intros msgs w0 Hw0; simpl; [exact Hw0|].
    unfold bind at 1. unfold lift.
    destruct (AiAgent.json_loads (ToolCall.arguments tool_call)) as [args|e|]; simpl;
      try exact Hw0.
    unfold bind at 1.
    pose proof (invoke_tool_keeps_consistency (ToolCall.name tool_call) user_id args w0 Hw0)
      as Hinvoke.
    destruct (AiAgent.invoke_tool (ToolCall.name tool_call) user_id args w0)
      as [[r|e|] w1]; simpl in *; try exact Hinvoke.
    apply IH. exact Hinvoke. }
  assert (Hloop : forall fuel iteration msgs last w0, consistent w0 ->
            consistent (snd (AiAgent.agentic_loop client fuel user_id iteration msgs last w0))).
  { induction fuel as [|fuel IH]; intros iteration msgs last w0 Hw0; [exact Hw0|].
    rewrite agentic_loop_step.
    destruct (iteration <? AiAgent.max_iterations)%nat; [|exact Hw0].
    pose proof (Hcreate msgs w0 Hw0) as Hc.
    destruct (AiAgent.create client msgs w0) as [[reply|e|] w1]; simpl in Hc;
      try exact Hc.
    destruct (Reply.tool_calls reply) as [|tool_call rest]; [exact Hc|]. cbv zeta.
    pose proof (Hexec (tool_call :: rest)
                  (msgs ++ [AssistantToolCalls (Reply.content reply) (tool_call :: rest)])
                  w1 Hc) as He.
    destruct (AiAgent.execute_tool_calls user_id (tool_call :: rest) _ w1)
      as [[msgs'|e|] w2]; simpl in He; try exact He.
    apply IH. exact He. }
  intros Hw.
  unfold AiAgent.generate_response, AiAgent.generate_response_fuel, bind, ret, unmodelled.
  pose proof (Hloop (S AiAgent.max_iterations) 0%nat
                (Plain "system" system_prompt
                   :: List.map (fun m => Plain (fst m) (snd m)) history) None w Hw) as H.
  destruct (AiAgent.agentic_loop _ _ _ _ _ _ w) as [[[exit|]|e|] w1]; exact H.
Qed.

(* ===================================================================== *)
(** * Titles                                                              *)
(* ===================================================================== *)

Lemma lstrip_length s : (String.length (lstrip s) <= String.length s)%nat.
Proof.
  induction s as [|c s IH]; simpl; [lia|]. destruct (isspace c); simpl; lia.
Qed.

Lemma rstrip_length s : (String.length (rstrip s) <= String.length s)%nat.
Proof.
  induction s as [|c s IH]; simpl; [lia|].
  destruct (rstrip s); [destruct (isspace c)|]; simpl in *; lia.
Qed.

Lemma strip_length s : (String.length (strip s) <= String.length s)%nat.
Proof.
  unfold strip. pose proof (rstrip_length (lstrip s)). pose proof (lstrip_length s). lia.
Qed.

Lemma rstrip_idempotent s : rstrip (rstrip s) = rstrip s.
Proof.
  induction s as [|c s IH]; simpl; [reflexivity|].
  destruct (rstrip s) as [|c' r] eqn:Hr.
  - destruct (isspace c) eqn:Hc; simpl; [reflexivity|]. rewrite Hc. reflexivity.
  - change (rstrip (String c (String c' r)))
      with (match rstrip (String c' r) with
            | EmptyString => if isspace c then EmptyString else String c EmptyString
            | r0 => String c r0
            end).
    rewrite IH. reflexivity.
Qed.

Lemma lstrip_fixed c s : isspace c = false -> lstrip (String c s) = String c s.
Proof. intros H. simpl. rewrite H. reflexivity. Qed.

Lemma lstrip_head s : lstrip s = "" \/ exists c r, lstrip s = String c r /\ isspace c = false.
Proof.
  induction s as [|c s IH]; simpl; [left; reflexivity|].
  destruct (isspace c) eqn:Hc; [exact IH|]. right. eauto.
Qed.

Lemma rstrip_head c s :
  isspace c = false -> exists r, rstrip (String c s) = String c r.
Proof.
  intros Hc. simpl. destruct (rstrip s); [rewrite Hc|]; eauto.
Qed.

Lemma strip_idempotent s : strip (strip s) = strip s.
Proof.
  unfold strip. destruct (lstrip_head s) as [->|(c & r & -> & Hc)]; [reflexivity|].
  destruct (rstrip_head c r Hc) as [r' Hr]. rewrite Hr.
  rewrite (lstrip_fixed c r' Hc). rewrite <- Hr. apply rstrip_idempotent.
Qed.

Lemma truthy_nonempty s : negb (truthy (PStr s)) = false <-> s <> "".
Proof.
  simpl. rewrite negb_involutive. split.
  - intros H ->. discriminate.
  - intros H. destruct (String.eqb_spec s ""); [contradiction|reflexivity].
Qed.

Lemma validate_title_accepted s n :
  Mcp.validate_title (PStr s) n = Ok None
  <-> strip s <> "" /\ (String.length s <= n)%nat.
Proof.
  unfold Mcp.validate_title. cbv zeta.
  destruct (negb (truthy (PStr (strip s)))) eqn:Hempty.
  - split; [discriminate|]. intros [H _]. apply truthy_nonempty in H. congruence.
  - apply truthy_nonempty in Hempty. unfold len.
    destruct (Z.ltb_spec (Z.of_nat n) (Z.of_nat (String.length s))).
    + split; [discriminate|]. intros [_ H']. lia.
    + split; [intros _; split; [exact Hempty|lia]|reflexivity].
Qed.

(** X1 — What [validate_title] decides.  A title is accepted exactly when
    it is not empty after trimming and the text as given, surrounding
    whitespace included, has at most the maximum number of characters; it is
    reported as empty exactly when it is empty or only whitespace; and it is
    reported as too long, with the maximum in the message, exactly when it
    is not empty after trimming and the text as given is longer than the
    maximum. *)
Theorem validate_title_decides s n :
  (Mcp.validate_title (PStr s) n = Ok None
   <-> strip s <> "" /\ (String.length s <= n)%nat)
  /\ (Mcp.validate_title (PStr s) n = Ok (Some (Error "title cannot be empty"))
      <-> strip s = "")
  /\ (Mcp.validate_title (PStr s) n
      = Ok (Some (Error ("title exceeds maximum length of "
                           +:+ str_of_nat n +:+ " characters")))
      <-> strip s <> "" /\ (n < String.length s)%nat).
Proof.
  split; [apply validate_title_accepted|].
  unfold Mcp.validate_title, Mcp.error_response. cbv zeta.
  destruct (negb (truthy (PStr (strip s)))) eqn:Hempty.
  - assert (Hs : strip s = "").
    { destruct (String.eqb_spec (strip s) "") as [H|H]; [exact H|].
      apply truthy_nonempty in H. congruence. }
    split; [tauto|]. split; [discriminate|]. intros [H _]. contradiction.
  - apply truthy_nonempty in Hempty. unfold len.
    destruct (Z.ltb_spec (Z.of_nat n) (Z.of_nat (String.length s))).
    + split; [split; [discriminate|contradiction]|].
      split; [intros _; split; [exact Hempty|lia]|reflexivity].
    + split; [split; [discriminate|contradiction]|].
      split; [discriminate|]. intros [_ H']. lia.
Qed.

(** A stored title as the tools write it: trimmed, not empty and at most
    500 characters long. *)
Definition title_ok (t : string) : Prop :=
  strip t = t /\ t <> "" /\ (String.length t <= 500)%nat.

Definition titles_ok (w : World) : Prop :=
  Forall (fun r => title_ok (Task.title r)) (tasks w).

Lemma validated_title_ok s :
  Mcp.validate_title (PStr s) 500 = Ok None -> title_ok (strip s).
Proof.
  intros H. apply validate_title_accepted in H. destruct H as [Hne Hlen].
  split; [apply strip_idempotent|]. split; [exact Hne|].
  pose proof (strip_length s). lia.
Qed.

(* ===================================================================== *)
(** * What a tool call may change                                         *)
(* ===================================================================== *)

(** The rows of one owner, in table order. *)
Definition owned_by (user_id : string) (ts : list Task.t) : list Task.t :=
  List.filter (fun r => String.eqb (Task.user_id r) user_id) ts.

(** The table without the row of one id. *)
Definition other_rows (task_id : Z) (ts : list Task.t) : list Task.t :=
  List.filter (fun r => negb (Task.id r =? task_id)%Z) ts.

(** What may differ between the world before and after code acting for
    [user_id]: the table stays consistent, the primary-key sequence and the
    clock only advance, and the rows of every other owner are the same. *)
Record acts_as (user_id : string) (w w' : World) : Prop := {
  stays_consistent : consistent w';
  seq_advances : (task_seq w <= task_seq w')%Z;
  clock_advances : (clock w <= clock w')%nat;
  others_untouched :
    forall other, other <> user_id -> owned_by other (tasks w') = owned_by other (tasks w)
}.

Lemma acts_as_later user_id w c u p d :
  consistent w -> (clock w <= c)%nat ->
  acts_as user_id w (mkWorld (tasks w) (task_seq w) c u p d).
Proof.
  intros Hw Hc. split; simpl; [apply consistent_later; assumption|lia|exact Hc|reflexivity].
Qed.

Lemma acts_as_refl user_id w : consistent w -> acts_as user_id w w.
Proof. intros Hw. split; [exact Hw|lia|lia|reflexivity]. Qed.

Lemma acts_as_trans user_id w1 w2 w3 :
  acts_as user_id w1 w2 -> acts_as user_id w2 w3 -> acts_as user_id w1 w3.
Proof.
  intros [_ Hs1 Hc1 Ho1] [Hw Hs2 Hc2 Ho2]. split; [exact Hw|lia|lia|].
  intros other Hother. rewrite Ho2, Ho1; auto.
Qed.

Lemma acts_as_insert user_id w title descr created updated c u p d :
  consistent w -> (created < c)%nat -> (clock w <= c)%nat ->
  acts_as user_id w
    (mkWorld (tasks w ++ [Task.mk (task_seq w) user_id title descr false created updated])
             (task_seq w + 1) c u p d).
Proof.
  intros Hw Hcreated Hc. split; simpl; [apply consistent_insert; assumption|lia|exact Hc|].
  intros other Hother. unfold owned_by. rewrite List.filter_app. simpl.
  destruct (String.eqb_spec user_id other); [congruence|]. apply List.app_nil_r.
Qed.

Lemma owned_by_update_row other pk f ts :
  (forall r, In r ts -> Task.id r = pk -> Task.user_id r <> other) ->
  (forall r, Task.user_id (f r) = Task.user_id r) ->
  owned_by other (Mcp.update_row pk f ts) = owned_by other ts.
Proof.
  intros Hpk Hf. unfold owned_by, Mcp.update_row.
  induction ts as [|r ts IH]; simpl; [reflexivity|].
  rewrite IH by (intros; apply Hpk; [right|]; assumption).
  destruct (Z.eqb_spec (Task.id r) pk) as [Hid|Hid]; [|reflexivity].
  rewrite Hf. destruct (String.eqb_spec (Task.user_id r) other) as [Heq|Hne]; [|reflexivity].
  exfalso. eapply Hpk; [left; reflexivity|exact Hid|exact Heq].
Qed.

Lemma owned_by_delete_row other pk ts :
  (forall r, In r ts -> Task.id r = pk -> Task.user_id r <> other) ->
  owned_by other (Mcp.delete_row pk ts) = owned_by other ts.
Proof.
  intros Hpk. unfold owned_by, Mcp.delete_row.
  induction ts as [|r ts IH]; simpl; [reflexivity|].
  rewrite <- IH by (intros; apply Hpk; [right|]; assumption).
  destruct (Z.eqb_spec (Task.id r) pk) as [Hid|Hid]; simpl; [|reflexivity].
  destruct (String.eqb_spec (Task.user_id r) other) as [Heq|Hne]; [|reflexivity].
  exfalso. eapply Hpk; [left; reflexivity|exact Hid|exact Heq].
Qed.

(** In a consistent table the row found for an owner is the only row with
    its id. *)
Lemma found_row_is_the_only_one w task_id user_id task other :
  consistent w -> Mcp.select_task task_id user_id (tasks w) = Some task ->
  other <> user_id ->
  forall r, In r (tasks w) -> Task.id r = Task.id task -> Task.user_id r <> other.
Proof.
  intros Hw Hfound Hother r Hr Hid.
  apply select_task_spec in Hfound. destruct Hfound as (Hin & _ & Huser).
  rewrite (NoDup_map_inj Task.id (tasks w) r task (unique_ids w Hw) Hr Hin Hid).
  congruence.
Qed.

Lemma acts_as_update_row user_id w task_id task f c u p d :
  consistent w -> (clock w <= c)%nat ->
  Mcp.select_task task_id user_id (tasks w) = Some task ->
  (forall r, Task.id (f r) = Task.id r /\ Task.created_at (f r) = Task.created_at r) ->
  (forall r, Task.user_id (f r) = Task.user_id r) ->
  acts_as user_id w (mkWorld (Mcp.update_row (Task.id task) f (tasks w)) (task_seq w) c u p d).
Proof.
  intros Hw Hc Hfound Hf Hu.
  split; simpl; [apply consistent_update_row; assumption|lia|exact Hc|].
  intros other Hother. apply owned_by_update_row; [|exact Hu].
  eapply found_row_is_the_only_one; eassumption.
Qed.

Lemma acts_as_delete_row user_id w task_id task u p d :
  consistent w ->
  Mcp.select_task task_id user_id (tasks w) = Some task ->
  acts_as user_id w
    (mkWorld (Mcp.delete_row (Task.id task) (tasks w)) (task_seq w) (clock w) u p d).
Proof.
  intros Hw Hfound.
  split; simpl; [apply consistent_delete_row; assumption|lia|lia|].
  intros other Hother. apply owned_by_delete_row.
  eapply found_row_is_the_only_one; eassumption.
Qed.

Ltac case_inspected_eqn :=
  match goal with
  | |- context [match ?x with _ => _ end] => inspected x; destruct x eqn:?
  end.

Ltac acts_as_world Hw :=
  first
    [ apply acts_as_refl; exact Hw
    | apply acts_as_later; [exact Hw|lia]
    | apply acts_as_insert; [exact Hw|lia|lia]
    | eapply acts_as_update_row;
        [exact Hw|lia|eassumption|intros ?; split; reflexivity|intros ?; reflexivity]
    | eapply acts_as_delete_row; [exact Hw|eassumption] ].

(** Every tool called for an owner, with any other arguments, acts as
    that owner. *)
Lemma tools_act_as_owner w user_id task_id title description status limit :
  consistent w ->
  let u := PStr user_id in
  acts_as user_id w (snd (Mcp.add_task u title description w))
  /\ acts_as user_id w (snd (Mcp.list_tasks u status limit w))
  /\ acts_as user_id w (snd (Mcp.complete_task u task_id w))
  /\ acts_as user_id w (snd (Mcp.update_task u task_id title description w))
  /\ acts_as user_id w (snd (Mcp.delete_task u task_id w)).
Proof.
  intros Hw u. subst u.
  unfold Mcp.add_task, Mcp.list_tasks, Mcp.complete_task, Mcp.update_task,
    Mcp.delete_task.
  run_tool. unfold unmodelled.
  split; [|split; [|split; [|split]]];
    repeat (simpl; case_inspected_eqn); simpl; acts_as_world Hw.
Qed.

(* ===================================================================== *)
(** * From the tools to the agent                                         *)
(* ===================================================================== *)

(** A relation between the world before and after that holds across each
    tool call made for [user_id] and across the counting of a request to
    the provider holds across the whole agent. *)
Section Lifting.

Variable R : World -> World -> Prop.
Variable P : World -> Prop.
Variable user_id : string.

Hypothesis R_refl : forall w, P w -> R w w.
Hypothesis R_trans : forall w1 w2 w3, R w1 w2 -> R w2 w3 -> R w1 w3.
Hypothesis R_keeps : forall w w', P w -> R w w' -> P w'.
Hypothesis R_provider :
  forall w, P w ->
    R w (mkWorld (tasks w) (task_seq w) (clock w) (uuid_seq w)
                 (S (provider_calls w)) (db_error w)).
Hypothesis R_tools :
  forall w task_id title description status limit, P w ->
    R w (snd (Mcp.add_task (PStr user_id) title description w))
    /\ R w (snd (Mcp.list_tasks (PStr user_id) status limit w))
    /\ R w (snd (Mcp.complete_task (PStr user_id) task_id w))
    /\ R w (snd (Mcp.update_task (PStr user_id) task_id title description w))
    /\ R w (snd (Mcp.delete_task (PStr user_id) task_id w)).

Lemma lift_invoke_tool tool_name args w :
  P w -> R w (snd (AiAgent.invoke_tool tool_name user_id args w)).
Proof.
  intros Hw.
  pose proof (fun i t d s l => R_tools w i t d s l Hw) as Htools.
  pose proof (R_refl w Hw) as Hrefl.
  unfold AiAgent.invoke_tool, AiAgent.call_add_task, AiAgent.call_list_tasks,
    AiAgent.call_complete_task, AiAgent.call_update_task, AiAgent.call_delete_task,
    bind, lift, raise, ret.
  destruct args as [| | | |items|items]; simpl; try exact Hrefl.
  rewrite lookup_insert_eq.
  repeat match goal with
         | |- context [if ?b then _ else _] => destruct b; simpl; try exact Hrefl
         | |- context [match ?x !! ?k with _ => _ end] =>
             destruct (x !! k); simpl; try exact Hrefl
         end.
  all: first
         [ apply (proj1 (Htools PNone _ _ PNone PNone))
         | apply (proj1 (proj2 (Htools PNone PNone PNone _ _)))
         | apply (proj1 (proj2 (proj2 (Htools _ PNone PNone PNone PNone))))
         | apply (proj1 (proj2 (proj2 (proj2 (Htools _ _ _ PNone PNone)))))
         | apply (proj2 (proj2 (proj2 (proj2 (Htools _ PNone PNone PNone PNone))))) ].
Qed.

Lemma lift_execute_tool_calls tool_calls msgs w :
  P w -> R w (snd (AiAgent.execute_tool_calls user_id tool_calls msgs w)).
Proof.
  revert msgs w.
  induction tool_calls as [|tool_call rest IH]; intros msgs w Hw; simpl;
    [apply R_refl; exact Hw|].
  unfold bind at 1. unfold lift.
  destruct (AiAgent.json_loads (ToolCall.arguments tool_call)) as [args|e|]; simpl;
    try (apply R_refl; exact Hw).
  unfold bind at 1.
  pose proof (lift_invoke_tool (ToolCall.name tool_call) args w Hw) as Hinvoke.
  destruct (AiAgent.invoke_tool (ToolCall.name tool_call) user_id args w)
    as [[r|e|] w1]; simpl in *; try exact Hinvoke.
  eapply R_trans; [exact Hinvoke|]. apply IH. eapply R_keeps; eassumption.
Qed.

Variable client : Provider.
Variable system_prompt : string.

Lemma lift_create msgs w : P w -> R w (snd (AiAgent.create client msgs w)).
Proof.
  intros Hw. unfold AiAgent.create.
  destruct (client (provider_calls w) msgs); simpl; apply R_provider; exact Hw.
Qed.

Lemma lift_agentic_loop fuel iteration msgs last w :
  P w -> R w (snd (AiAgent.agentic_loop client fuel user_id iteration msgs last w)).
Proof.
  revert iteration msgs last w.
  induction fuel as [|fuel IH]; intros iteration msgs last w Hw; [apply R_refl; exact Hw|].
  rewrite agentic_loop_step.
  destruct (iteration <? AiAgent.max_iterations)%nat; [|apply R_refl; exact Hw].
  pose proof (lift_create msgs w Hw) as Hc.
  destruct (AiAgent.create client msgs w) as [[reply|e|] w1]; simpl in Hc;
    try exact Hc.
  destruct (Reply.tool_calls reply) as [|tool_call rest]; [exact Hc|]. cbv zeta.
  assert (Hw1 : P w1) by (eapply R_keeps; eassumption).
  pose proof (lift_execute_tool_calls (tool_call :: rest)
                (msgs ++ [AssistantToolCalls (Reply.content reply) (tool_call :: rest)])
                w1 Hw1) as He.
  destruct (AiAgent.execute_tool_calls user_id (tool_call :: rest) _ w1)
    as [[msgs'|e|] w2]; simpl in He; try (eapply R_trans; eassumption).
  eapply R_trans; [exact Hc|]. eapply R_trans; [exact He|].
  apply IH. eapply R_keeps; eassumption.
Qed.

Lemma lift_generate_response history w :
  P w -> R w (snd (AiAgent.generate_response client system_prompt history user_id w)).
Proof.
  intros Hw.
  unfold AiAgent.generate_response, AiAgent.generate_response_fuel, bind, ret, unmodelled.
  pose proof (lift_agentic_loop (S AiAgent.max_iterations) 0%nat
                (Plain "system" system_prompt
                   :: List.map (fun m => Plain (fst m) (snd m)) history) None w Hw) as H.
  destruct (AiAgent.agentic_loop _ _ _ _ _ _ w) as [[[exit|]|e|] w1]; exact H.
Qed.

End Lifting.

(* ===================================================================== *)
(** * Further properties of the tool layer                                *)
(* ===================================================================== *)

(** The call returned a success object. *)
Definition succeeded (o : outcome response) : Prop :=
  exists task_id status title, o = Ok (Success task_id status title).

(** X2 — A tool changes tasks only when it reports success.  Whatever the
    arguments, a call of [add_task], [complete_task], [update_task] or
    [delete_task] that does not return a success object (a validation error,
    "task not found", a storage failure, an exception) leaves the task table
    and the primary-key sequence as they were, and [list_tasks] never
    changes anything. *)
Theorem tasks_change_only_on_success w user_id task_id title description status limit :
  let unchanged := fun w' => tasks w' = tasks w /\ task_seq w' = task_seq w in
  (succeeded (fst (Mcp.add_task user_id title description w))
   \/ unchanged (snd (Mcp.add_task user_id title description w)))
  /\ snd (Mcp.list_tasks user_id status limit w) = w
  /\ (succeeded (fst (Mcp.complete_task user_id task_id w))
      \/ unchanged (snd (Mcp.complete_task user_id task_id w)))
  /\ (succeeded (fst (Mcp.update_task user_id task_id title description w))
      \/ unchanged (snd (Mcp.update_task user_id task_id title description w)))
  /\ (succeeded (fst (Mcp.delete_task user_id task_id w))
      \/ unchanged (snd (Mcp.delete_task user_id task_id w))).
Proof.
  unfold Mcp.add_task, Mcp.list_tasks, Mcp.complete_task, Mcp.update_task,
    Mcp.delete_task, succeeded.
  run_tool. unfold unmodelled.
  split; [|split; [|split; [|split]]];
    repeat (simpl; case_inspected); simpl;
    first [ reflexivity
          | right; split; reflexivity
          | left; eexists _, _, _; reflexivity ].
Qed.

Lemma other_rows_update_row z f ts :
  (forall r, Task.id (f r) = Task.id r) ->
  other_rows z (Mcp.update_row z f ts) = other_rows z ts.
Proof.
  intros Hf. unfold other_rows, Mcp.update_row.
  induction ts as [|r ts IH]; simpl; [reflexivity|]. rewrite IH.
  destruct (Z.eqb_spec (Task.id r) z) as [Hid|Hid]; simpl.
  - rewrite Hf. destruct (Z.eqb_spec (Task.id r) z); [reflexivity|contradiction].
  - destruct (Z.eqb_spec (Task.id r) z); [contradiction|reflexivity].
Qed.

Lemma other_rows_delete_row z ts :
  other_rows z (Mcp.delete_row z ts) = other_rows z ts.
Proof.
  unfold other_rows, Mcp.delete_row.
  induction ts as [|r ts IH]; simpl; [reflexivity|].
  destruct (negb (Task.id r =? z)%Z) eqn:H; simpl; rewrite ?H, IH; reflexivity.
Qed.

Ltac found_id :=
  match goal with
  | H : Mcp.select_task _ _ _ = Some _ |- _ =>
      apply select_task_spec in H; destruct H as (_ & H & _); rewrite H
  end.

(** X3 — A tool touches at most the row it is given.  [complete_task],
    [update_task] and [delete_task] called with task id [z] leave every row
    with another id exactly as it was, in the same order; [list_tasks]
    leaves the table alone; and [add_task] keeps all existing rows and
    appends at most one row, which carries the next id of the sequence and
    is not completed. *)
Theorem tools_touch_one_row w user_id z title description status limit :
  other_rows z (tasks (snd (Mcp.complete_task user_id (PInt z) w))) = other_rows z (tasks w)
  /\ other_rows z (tasks (snd (Mcp.update_task user_id (PInt z) title description w)))
     = other_rows z (tasks w)
  /\ other_rows z (tasks (snd (Mcp.delete_task user_id (PInt z) w))) = other_rows z (tasks w)
  /\ tasks (snd (Mcp.list_tasks user_id status limit w)) = tasks w
  /\ exists added,
       tasks (snd (Mcp.add_task user_id title description w)) = tasks w ++ added
       /\ (length added <= 1)%nat
       /\ Forall (fun r => Task.id r = task_seq w /\ Task.completed r = false) added.
Proof.
  unfold Mcp.add_task, Mcp.list_tasks, Mcp.complete_task, Mcp.update_task,
    Mcp.delete_task.
  run_tool. unfold unmodelled.
  split; [|split; [|split; [|split]]].
  1-4: repeat (simpl; case_inspected_eqn); simpl; try reflexivity; found_id;
    first [ apply other_rows_update_row; reflexivity | apply other_rows_delete_row ].
  repeat (simpl; case_inspected); simpl;
    first [ exists []; rewrite List.app_nil_r; repeat split; [simpl; lia|constructor]
          | eexists [_]; repeat split; [simpl; lia|repeat constructor] ].
Qed.

(** What a tool answers while the storage layer fails. *)
Definition reports_failure (w : World) (r : outcome response * World) : Prop :=
  tasks (snd r) = tasks w /\ task_seq (snd r) = task_seq w
  /\ forall x, fst r = Ok x -> exists message, x = Error message.

Lemma validate_task_id_error v r :
  Mcp.validate_task_id v = Some r -> r = Error "task_id is required".
Proof. destruct v; simpl; intros H; inversion H; reflexivity. Qed.

(** X4 — Storage failure.  While the storage layer fails, every tool,
    whatever its arguments, leaves the task table and the primary-key
    sequence unchanged, and any object it returns is an error object: never
    a success object and never a listing. *)
Theorem storage_failure_changes_no_task
        w text user_id task_id title description status limit :
  db_error w = Some text ->
  reports_failure w (Mcp.add_task user_id title description w)
  /\ reports_failure w (Mcp.list_tasks user_id status limit w)
  /\ reports_failure w (Mcp.complete_task user_id task_id w)
  /\ reports_failure w (Mcp.update_task user_id task_id title description w)
  /\ reports_failure w (Mcp.delete_task user_id task_id w).
Proof.
  intros Hdb.
  unfold Mcp.add_task, Mcp.list_tasks, Mcp.complete_task, Mcp.update_task,
    Mcp.delete_task, reports_failure.
  run_tool. unfold unmodelled. rewrite ?Hdb.
  split; [|split; [|split; [|split]]];
    repeat (simpl; rewrite ?Hdb; case_inspected_eqn); simpl; rewrite ?Hdb; simpl;
    (split; [reflexivity|split; [reflexivity|]]); intros x Hx;
    try discriminate; injection Hx as <-;
    first [ eexists; reflexivity
          | eexists; eapply validate_user_id_error; eassumption
          | eexists; eapply validate_status_error; eassumption
          | eapply validate_title_error; eassumption
          | eexists; eapply validate_task_id_error; eassumption ].
Qed.

(** X5 — Partial update by the owner.  When the owner updates an existing
    task with a valid title and/or a description, neither of which holds a
    NUL character, [update_task] answers
    ["updated"] with the resulting title and changes exactly that row: the
    title becomes the trimmed new title if one was given and stays
    otherwise, the description becomes the new description (as given, not
    trimmed) if one was given and stays otherwise, the completion state and
    the creation time are kept, the update time is the time of the call, and
    all other rows are untouched. *)
Theorem update_task_by_owner w user_id task_id task title description :
  available w -> valid_owner user_id ->
  Mcp.select_task task_id user_id (tasks w) = Some task ->
  update_args_valid title description ->
  storable_opt title -> storable_opt description ->
  let stored := Mcp.set_fields (option_map strip title) description (clock w) task in
  exists w',
    Mcp.update_task (PStr user_id) (PInt task_id) (py_opt title) (py_opt description) w
      = (Ok (Success task_id "updated" (Task.title stored)), w')
    /\ tasks w'
       = Mcp.update_row task_id
           (Mcp.set_fields (option_map strip title) description (clock w)) (tasks w)
    /\ Mcp.select_task task_id user_id (tasks w') = Some stored
    /\ other_rows task_id (tasks w') = other_rows task_id (tasks w)
    /\ Task.title stored = match title with Some t => strip t | None => Task.title task end
    /\ Task.description stored
       = match description with Some d => Some d | None => Task.description task end
    /\ Task.completed stored = Task.completed task
    /\ Task.created_at stored = Task.created_at task
    /\ Task.updated_at stored = clock w.
Proof.
  intros Hdb Hu Hsel [Hsome Hvalid] Htitle Hdescr stored. unfold available in Hdb.
  pose proof (select_task_spec _ _ _ _ Hsel) as (_ & Hid & _).
  assert (Hrun : Mcp.update_task (PStr user_id) (PInt task_id) (py_opt title)
                   (py_opt description) w
                 = (Ok (Success task_id "updated" (Task.title stored)),
                    mkWorld (Mcp.update_row task_id
                               (Mcp.set_fields (option_map strip title) description (clock w))
                               (tasks w))
                            (task_seq w) (S (clock w)) (uuid_seq w) (provider_calls w)
                            (db_error w))).
  { unfold Mcp.update_task. run_tool. rewrite Hu. simpl.
    destruct title as [t|]; simpl.
    - rewrite (Hvalid t eq_refl). simpl. rewrite Hdb. simpl. rewrite Hsel.
      simpl in Htitle. unfold storable in Htitle. rewrite <- has_nul_strip in Htitle.
      simpl. rewrite Htitle.
      destruct description as [d|]; simpl; [simpl in Hdescr; rewrite Hdescr; simpl|];
        rewrite Hid, ?Hdb; reflexivity.
    - destruct description as [d|]; simpl; [|destruct Hsome; congruence].
      rewrite Hdb. simpl. rewrite Hsel. simpl.
      simpl in Hdescr. rewrite Hdescr. simpl. rewrite Hid, ?Hdb. reflexivity. }
  eexists. split; [exact Hrun|]. simpl tasks.
  split; [reflexivity|].
  split; [apply select_task_update_row; [intros r; split; reflexivity|exact Hsel]|].
  split; [apply other_rows_update_row; reflexivity|].
  subst stored. destruct title, description; simpl; repeat split; reflexivity.
Qed.




(* ===================================================================== *)
(** * Acting for one owner                                                *)
(* ===================================================================== *)

Lemma invoke_tool_acts_as_user tool_name user_id args w :
  consistent w -> acts_as user_id w (snd (AiAgent.invoke_tool tool_name user_id args w)).
Proof.
  apply (lift_invoke_tool (acts_as user_id) consistent user_id).
  - apply (acts_as_refl user_id).
  - intros; apply tools_act_as_owner; assumption.
Qed.

Lemma generate_response_acts_as_user client system_prompt history user_id w :
  consistent w ->
  acts_as user_id w
    (snd (AiAgent.generate_response client system_prompt history user_id w)).
Proof.
  apply (lift_generate_response (acts_as user_id) consistent user_id).
  - apply (acts_as_refl user_id).
  - apply (acts_as_trans user_id).
  - intros w0 w' _ H. exact (stays_consistent _ _ _ H).
  - intros w0 Hw0. apply acts_as_later; [exact Hw0|lia].
  - intros; apply tools_act_as_owner; assumption.
Qed.






(** X7 — Write isolation between owners, at the tools.  In a consistent
    table, a call of any of the five tools for one owner, with any task id
    and any other arguments, leaves the rows of every other owner exactly
    as they were. *)
Theorem tools_never_touch_other_owners
        w user_id other task_id title description status limit :
  consistent w -> other <> user_id ->
  let u := PStr user_id in
  owned_by other (tasks (snd (Mcp.add_task u title description w)))
    = owned_by other (tasks w)
  /\ owned_by other (tasks (snd (Mcp.list_tasks u status limit w)))
     = owned_by other (tasks w)
  /\ owned_by other (tasks (snd (Mcp.complete_task u task_id w)))
     = owned_by other (tasks w)
  /\ owned_by other (tasks (snd (Mcp.update_task u task_id title description w)))
     = owned_by other (tasks w)
  /\ owned_by other (tasks (snd (Mcp.delete_task u task_id w)))
     = owned_by other (tasks w).
Proof.
  intros Hw Hother u.
  destruct (tools_act_as_owner w user_id task_id title description status limit Hw)
    as (Ha & Hl & Hc & Hu & Hd).
  split; [exact (others_untouched _ _ _ Ha other Hother)|].
  split; [exact (others_untouched _ _ _ Hl other Hother)|].
  split; [exact (others_untouched _ _ _ Hc other Hother)|].
  split; [exact (others_untouched _ _ _ Hu other Hother)|].
  exact (others_untouched _ _ _ Hd other Hother).
Qed.

(** X8 — Write isolation between owners, at the agent.  In a consistent
    table, neither a single tool invocation by the agent nor a whole run of
    [generate_response] for one user changes a row of any other owner,
    whatever tool names and arguments the model asks for. *)
Theorem agent_never_touches_other_owners
        client system_prompt history user_id other w tool_name args :
  consistent w -> other <> user_id ->
  owned_by other (tasks (snd (AiAgent.invoke_tool tool_name user_id args w)))
    = owned_by other (tasks w)
  /\ owned_by other
       (tasks (snd (AiAgent.generate_response client system_prompt history user_id w)))
     = owned_by other (tasks w).
Proof.
  intros Hw Hother. split.
  - apply (others_untouched _ _ _ (invoke_tool_acts_as_user tool_name user_id args w Hw)).
    exact Hother.
  - apply (others_untouched _ _ _
             (generate_response_acts_as_user client system_prompt history user_id w Hw)).
    exact Hother.
Qed.

(** X9 — The task table stays consistent.  If ids are unique and below
    the primary-key sequence and every creation time lies in the past, the
    same holds after any call of any tool with any arguments, and after a
    whole run of [generate_response], however that run ends. *)
Theorem table_stays_consistent
        client system_prompt history user_id w
        (u task_id title description status limit : pyval) :
  consistent w ->
  consistent (snd (Mcp.add_task u title description w))
  /\ consistent (snd (Mcp.list_tasks u status limit w))
  /\ consistent (snd (Mcp.complete_task u task_id w))
  /\ consistent (snd (Mcp.update_task u task_id title description w))
  /\ consistent (snd (Mcp.delete_task u task_id w))
  /\ consistent (snd (AiAgent.generate_response client system_prompt history user_id w)).
Proof.
  intros Hw.
  destruct (tools_keep_consistency w u task_id title description status limit Hw)
    as (Ha & Hl & Hc & Hu & Hd).
  repeat (split; [assumption|]).
  apply generate_response_keeps_consistency. exact Hw.
Qed.

(** X10 — Ids are never reused.  After a run of the agent on a
    consistent table, whatever it added or deleted, a task created next
    gets an id that is greater than the id of every task that existed before
    the run, not below the sequence value from before the run, and not
    carried by any task now in the table. *)
Theorem task_ids_never_reused
        client system_prompt history user_id w task
        (u title description : pyval) new_id status new_title w2 :
  consistent w -> In task (tasks w) ->
  let w1 := snd (AiAgent.generate_response client system_prompt history user_id w) in
  Mcp.add_task u title description w1 = (Ok (Success new_id status new_title), w2) ->
  (Task.id task < new_id)%Z
  /\ (task_seq w <= new_id)%Z
  /\ ~ In new_id (List.map Task.id (tasks w1)).
Proof.
  intros Hw Htask w1 Hadd.
  pose proof (generate_response_acts_as_user client system_prompt history user_id w Hw)
    as Hacts.
  fold w1 in Hacts. destruct Hacts as [Hw1 Hseq _ _].
  assert (Hnew : new_id = task_seq w1).
  { revert Hadd. unfold Mcp.add_task. run_tool. unfold unmodelled.
    repeat (simpl; case_inspected_eqn); simpl; intros H; inversion H; subst;
      try reflexivity;
      match goal with
      | E : Mcp.validate_user_id _ = Ok (Some _) |- _ =>
          apply validate_user_id_error in E; discriminate
      | E : Mcp.validate_title _ _ = Ok (Some _) |- _ =>
          apply validate_title_error in E; destruct E; discriminate
      end. }
  pose proof (ids_below_seq _ Hw) as Hbelow. rewrite List.Forall_forall in Hbelow.
  specialize (Hbelow task Htask).
  split; [lia|]. split; [lia|].
  intros Hin. apply in_map_iff in Hin. destruct Hin as (r & Hid & Hr).
  pose proof (ids_below_seq _ Hw1) as Hbelow1. rewrite List.Forall_forall in Hbelow1.
  specialize (Hbelow1 r Hr). lia.
Qed.

(* ===================================================================== *)
(** * Stored titles                                                       *)
(* ===================================================================== *)

Lemma titles_ok_same_tasks w ts q c u p d :
  titles_ok w -> ts = tasks w -> titles_ok (mkWorld ts q c u p d).
Proof. intros Hw ->. exact Hw. Qed.

Lemma titles_ok_insert w pk uid title descr created updated q c u p d :
  titles_ok w -> title_ok title ->
  titles_ok (mkWorld (tasks w ++ [Task.mk pk uid title descr false created updated])
                     q c u p d).
Proof.
  intros Hw Ht. unfold titles_ok. simpl. apply List.Forall_app. split; [exact Hw|].
  constructor; [exact Ht|constructor].
Qed.

Lemma titles_ok_update_row w pk f q c u p d :
  titles_ok w -> (forall r, title_ok (Task.title r) -> title_ok (Task.title (f r))) ->
  titles_ok (mkWorld (Mcp.update_row pk f (tasks w)) q c u p d).
Proof.
  intros Hw Hf. unfold titles_ok, Mcp.update_row. simpl. apply List.Forall_map.
  eapply List.Forall_impl; [|exact Hw]. simpl. intros r Hr.
  destruct (Task.id r =? pk)%Z; [apply Hf|]; exact Hr.
Qed.

Lemma titles_ok_delete_row w pk q c u p d :
  titles_ok w -> titles_ok (mkWorld (Mcp.delete_row pk (tasks w)) q c u p d).
Proof.
  intros Hw. unfold titles_ok, Mcp.delete_row. simpl.
  apply List.Forall_forall. intros r Hr. apply filter_In in Hr.
  unfold titles_ok in Hw. rewrite List.Forall_forall in Hw. apply Hw. tauto.
Qed.

Lemma validated_stripped title t :
  Mcp.validate_title title 500 = Ok None -> Mcp.py_strip title = Ok t -> title_ok t.
Proof.
  destruct title; simpl; try discriminate. intros Hv [= <-].
  apply validated_title_ok. exact Hv.
Qed.

Lemma tools_keep_titles w user_id task_id title description status limit :
  titles_ok w ->
  titles_ok (snd (Mcp.add_task user_id title description w))
  /\ titles_ok (snd (Mcp.list_tasks user_id status limit w))
  /\ titles_ok (snd (Mcp.complete_task user_id task_id w))
  /\ titles_ok (snd (Mcp.update_task user_id task_id title description w))
  /\ titles_ok (snd (Mcp.delete_task user_id task_id w)).
Proof.
  intros Hw.
  unfold Mcp.add_task, Mcp.list_tasks, Mcp.complete_task, Mcp.update_task,
    Mcp.delete_task.
  run_tool. unfold unmodelled.
  split; [|split; [|split; [|split]]];
    repeat (simpl; case_inspected_eqn); simpl;
    first
      [ exact Hw
      | apply (titles_ok_same_tasks w); [exact Hw|reflexivity]
      | apply titles_ok_insert;
        [exact Hw
        |first [ eapply validated_stripped; eassumption
               | apply validated_title_ok; assumption ]]
      | apply titles_ok_delete_row; exact Hw
      | apply titles_ok_update_row; [exact Hw|]; intros r Hr; simpl;
        first [ exact Hr
              | eapply validated_stripped; eassumption
              | apply validated_title_ok; assumption ] ].
Qed.

(** X11 — Stored titles stay well formed.  If every stored title is
    trimmed, not empty and at most 500 characters long, the same holds after
    [add_task] and [update_task] with any arguments and after a whole run of
    [generate_response]. *)
Theorem stored_titles_stay_wellformed
        client system_prompt history user_id w
        (u task_id title description : pyval) :
  titles_ok w ->
  titles_ok (snd (Mcp.add_task u title description w))
  /\ titles_ok (snd (Mcp.update_task u task_id title description w))
  /\ titles_ok (snd (AiAgent.generate_response client system_prompt history user_id w)).
Proof.
  intros Hw.
  destruct (tools_keep_titles w u task_id title description PNone PNone Hw)
    as (Ha & _ & _ & Hu & _).
  split; [exact Ha|]. split; [exact Hu|].
  exact (lift_generate_response (fun _ w' => titles_ok w') titles_ok user_id
           (fun _ H => H) (fun _ _ _ _ H => H) (fun _ _ _ H => H) (fun _ H => H)
           (fun w0 i t d s l H => tools_keep_titles w0 (PStr user_id) i t d s l H)
           client system_prompt history w Hw).
Qed.

(* ===================================================================== *)
(** * What [list_tasks] returns                                           *)
(* ===================================================================== *)

(** An array returned by [list_tasks] is the [listing] for the caller, the
    given status and the normalised limit. *)
Lemma list_tasks_result user_id status limit w rows w' :
  Mcp.list_tasks user_id status limit w = (Ok (TaskList rows), w') ->
  w' = w
  /\ exists u n,
       user_id = PStr u /\ rows = listing u status n (tasks w)
       /\ (1 <= n <= 1000)%Z
       /\ ((limit = PNone /\ n = 100%Z) \/ (exists m, limit = PInt m /\ n = Z.min m 1000)).
Proof.
  unfold Mcp.list_tasks. run_tool.
  destruct (Mcp.validate_user_id user_id) as [[?|]| |] eqn:Hu; simpl;
    try discriminate.
  { apply validate_user_id_error in Hu. subst. discriminate. }
  destruct (Mcp.validate_status status) as [?|] eqn:Hs; simpl.
  { apply validate_status_error in Hs. subst. discriminate. }
  destruct limit as [|[|]|z| | |]; simpl; try discriminate;
    try (destruct (Z.ltb_spec z 1); simpl; try discriminate;
         destruct (Z.ltb_spec 1000 z); simpl);
    destruct (db_error w); simpl; try discriminate;
    destruct user_id as [| | |u| |]; simpl; try discriminate;
    intros [= <- <-]; (split; [reflexivity|]).
  - exists u, 100%Z. repeat split; try lia. left. split; reflexivity.
  - exists u, 1000%Z. repeat split; try lia. right. exists z. split; [reflexivity|lia].
  - exists u, z. repeat split; try lia. right. exists z. split; [reflexivity|lia].
Qed.

Lemma map_sorted {A B} (f : A -> B) (R : B -> B -> Prop) l :
  StronglySorted (fun a b => R (f a) (f b)) l -> StronglySorted R (List.map f l).
Proof.
  induction 1 as [|x l Hl IH Hx]; simpl; constructor; [exact IH|].
  apply List.Forall_map. exact Hx.
Qed.

Lemma listing_sorted user_id status n ts :
  StronglySorted (fun a b => (Row.created_at b <= Row.created_at a)%nat)
                 (listing user_id status n ts).
Proof.
  unfold listing. apply map_sorted. simpl. apply firstn_sorted.
  apply order_by_desc_sorted.
Qed.

Lemma listing_length user_id status n ts :
  (length (listing user_id status n ts) <= Z.to_nat n)%nat.
Proof.
  unfold listing. rewrite List.length_map. apply List.firstn_le_length.
Qed.

Lemma listing_rows user_id status n ts row :
  In row (listing user_id status n ts) ->
  exists task, In task ts /\ Task.user_id task = user_id /\ row = Mcp.row_of_task task.
Proof.
  unfold listing. intros Hin. apply in_map_iff in Hin.
  destruct Hin as (task & <- & Hin). exists task.
  apply in_firstn in Hin. apply in_order_by_desc in Hin.
  assert (Hf : In task (List.filter (fun r => String.eqb (Task.user_id r) user_id) ts)).
  { destruct (Mcp.py_eq_str status "pending");
      [apply filter_In in Hin; tauto|].
    destruct (Mcp.py_eq_str status "completed");
      [apply filter_In in Hin; tauto|exact Hin]. }
  apply filter_In in Hf. destruct Hf as [Hts Hu]. apply String.eqb_eq in Hu.
  auto.
Qed.

(** X12 — What a listing looks like.  An array returned by [list_tasks]
    leaves the world unchanged, is ordered by creation time, newest first,
    has at most 1000 entries, at most [limit] entries when a limit was given
    and at most 100 when none was, and each entry is the image of a stored
    task of the caller. *)
Theorem list_tasks_sorted_and_bounded w user_id status limit rows w' :
  Mcp.list_tasks user_id status limit w = (Ok (TaskList rows), w') ->
  w' = w
  /\ StronglySorted (fun a b => (Row.created_at b <= Row.created_at a)%nat) rows
  /\ (length rows <= 1000)%nat
  /\ (forall n, limit = PInt n -> (Z.of_nat (length rows) <= n)%Z)
  /\ (limit = PNone -> (length rows <= 100)%nat)
  /\ Forall (fun row => exists task,
                 In task (tasks w) /\ row = Mcp.row_of_task task
                 /\ user_id = PStr (Task.user_id task)) rows.
Proof.
  intros H. apply list_tasks_result in H.
  destruct H as (-> & u & n & -> & -> & Hn & Hlimit).
  pose proof (listing_length u status n (tasks w)) as Hlen.
  split; [reflexivity|]. split; [apply listing_sorted|].
  split; [lia|]. split; [|split].
  - intros m ->. destruct Hlimit as [[? _]|(m' & [= <-] & ->)]; [discriminate|]. lia.
  - intros ->. destruct Hlimit as [[_ ->]|(m' & ? & _)]; [|discriminate]. lia.
  - apply List.Forall_forall. intros row Hrow. apply listing_rows in Hrow.
    destruct Hrow as (task & Hin & <- & ->). eauto.
Qed.

Lemma order_by_desc_length {A} (key : A -> nat) l :
  length (order_by_desc key l) = length l.
Proof.
  induction l as [|x l IH]; simpl; [reflexivity|]. rewrite <- IH.
  generalize (order_by_desc key l). intros l'. clear.
  induction l' as [|y l' IH]; simpl; [reflexivity|].
  destruct (key y <=? key x)%nat; simpl; [reflexivity|]. rewrite IH. reflexivity.
Qed.

Lemma filter_length_le {A} (p : A -> bool) l : (length (List.filter p l) <= length l)%nat.
Proof.
  induction l as [|x l IH]; simpl; [lia|]. destruct (p x); simpl; lia.
Qed.

Lemma filter_length_split {A} (p : A -> bool) l :
  (length (List.filter (fun x => negb (p x)) l) + length (List.filter p l))%nat = length l.
Proof.
  induction l as [|x l IH]; simpl; [reflexivity|]. destruct (p x); simpl; lia.
Qed.

(** The rows of an owner with a given completion state. *)
Definition in_state (user_id : string) (completed : option bool) (w : World) (row : Row.t)
  : Prop :=
  exists task,
    In task (tasks w) /\ Task.user_id task = user_id /\ row = Mcp.row_of_task task
    /\ match completed with Some c => Task.completed task = c | None => True end.

Lemma listing_complete user_id status n ts :
  (length (owned_by user_id ts) <= Z.to_nat n)%nat ->
  listing user_id status n ts
  = List.map Mcp.row_of_task
      (order_by_desc Task.created_at
         (if Mcp.py_eq_str status "pending"
          then List.filter (fun r => negb (Task.completed r)) (owned_by user_id ts)
          else if Mcp.py_eq_str status "completed"
          then List.filter (fun r => Task.completed r) (owned_by user_id ts)
          else owned_by user_id ts)).
Proof.
  intros Hlen. unfold listing. fold (owned_by user_id ts). cbv zeta. f_equal.
  apply List.firstn_all2. rewrite order_by_desc_length.
  destruct (Mcp.py_eq_str status "pending");
    [etransitivity; [apply filter_length_le|exact Hlen]|].
  destruct (Mcp.py_eq_str status "completed");
    [etransitivity; [apply filter_length_le|exact Hlen]|exact Hlen].
Qed.

(** X13 — The status filter.  When the owner has no more tasks than the
    limit allows, ["all"] (or no status) lists exactly the owner's tasks,
    ["pending"] exactly those not completed and ["completed"] exactly the
    completed ones; the two filtered listings together have as many entries
    as the full one, which has one entry per task of the owner. *)
Theorem list_tasks_status_filter w user_id n :
  available w -> valid_owner user_id -> (1 <= n)%Z ->
  (length (owned_by user_id (tasks w)) <= Z.to_nat (Z.min n 1000))%nat ->
  exists all pending completed,
    Mcp.list_tasks (PStr user_id) (PStr "all") (PInt n) w = (Ok (TaskList all), w)
    /\ Mcp.list_tasks (PStr user_id) PNone (PInt n) w = (Ok (TaskList all), w)
    /\ Mcp.list_tasks (PStr user_id) (PStr "pending") (PInt n) w = (Ok (TaskList pending), w)
    /\ Mcp.list_tasks (PStr user_id) (PStr "completed") (PInt n) w
       = (Ok (TaskList completed), w)
    /\ (forall row, In row all <-> in_state user_id None w row)
    /\ (forall row, In row pending <-> in_state user_id (Some false) w row)
    /\ (forall row, In row completed <-> in_state user_id (Some true) w row)
    /\ (length pending + length completed)%nat = length all
    /\ length all = length (owned_by user_id (tasks w)).
Proof.
  intros Hdb Hu Hn Hlen.
  exists (listing user_id (PStr "all") (Z.min n 1000) (tasks w)),
    (listing user_id (PStr "pending") (Z.min n 1000) (tasks w)),
    (listing user_id (PStr "completed") (Z.min n 1000) (tasks w)).
  split; [apply list_tasks_listing; [exact Hdb|exact Hu|reflexivity|exact Hn]|].
  split; [rewrite list_tasks_listing; [reflexivity|exact Hdb|exact Hu|reflexivity|exact Hn]|].
  split; [apply list_tasks_listing; [exact Hdb|exact Hu|reflexivity|exact Hn]|].
  split; [apply list_tasks_listing; [exact Hdb|exact Hu|reflexivity|exact Hn]|].
  rewrite !listing_complete by exact Hlen. simpl Mcp.py_eq_str. cbv iota.
  assert (Hrows : forall (p : Task.t -> bool) row,
             In row (List.map Mcp.row_of_task
                       (order_by_desc Task.created_at
                          (List.filter p (owned_by user_id (tasks w)))))
             <-> exists task, In task (tasks w) /\ Task.user_id task = user_id
                              /\ row = Mcp.row_of_task task /\ p task = true).
  { intros p row. rewrite in_map_iff. split.
    - intros (task & <- & Hin). apply in_order_by_desc in Hin.
      apply filter_In in Hin. destruct Hin as [Hin Hp].
      apply filter_In in Hin. destruct Hin as [Hin Ho]. apply String.eqb_eq in Ho.
      exists task. auto.
    - intros (task & Hin & Ho & -> & Hp). exists task. split; [reflexivity|].
      apply in_order_by_desc. apply filter_In. split; [|exact Hp].
      apply filter_In. split; [exact Hin|]. apply String.eqb_eq. exact Ho. }
  split; [|split; [|split; [|split]]].
  - intros row. unfold in_state. rewrite in_map_iff. split.
    + intros (task & <- & Hin). apply in_order_by_desc in Hin.
      apply filter_In in Hin. destruct Hin as [Hin Ho]. apply String.eqb_eq in Ho.
      exists task. auto.
    + intros (task & Hin & Ho & -> & _). exists task. split; [reflexivity|].
      apply in_order_by_desc. apply filter_In. split; [exact Hin|].
      apply String.eqb_eq. exact Ho.
  - intros row. rewrite Hrows. unfold in_state. split.
    + intros (task & ? & ? & ? & Hc). exists task. apply negb_true_iff in Hc. auto.
    + intros (task & ? & ? & ? & Hc). exists task. rewrite Hc. auto.
  - intros row. rewrite Hrows. unfold in_state. split; intros (task & ? & ? & ? & Hc);
      exists task; auto.
  - rewrite !List.length_map, !order_by_desc_length. apply filter_length_split.
  - rewrite List.length_map, order_by_desc_length. reflexivity.
Qed.

(* ===================================================================== *)
(** * Calls that follow the schemas                                       *)
(* ===================================================================== *)

(** JSON-schema typing of one argument value. *)
Definition has_type (type : string) (v : pyval) : Prop :=
  (type = "string" /\ exists s, v = PStr s)
  \/ (type = "integer" /\ exists z, v = PInt z)
  \/ (type = "boolean" /\ exists b, v = PBool b).

Definition allowed (p : Property.t) (v : pyval) : Prop :=
  has_type (Property.type p) v
  /\ match Property.enum p with
     | Some values => exists s, v = PStr s /\ In s values
     | None => True
     end.

(** An argument object that is valid against a tool's schema: every key is
    a declared property with a value of its type, and every required
    property is present. *)
Definition conforms (s : ToolSchema.t) (args : gmap string pyval) : Prop :=
  (forall k v, args !! k = Some v ->
     exists p, In p (ToolSchema.properties s) /\ Property.name p = k /\ allowed p v)
  /\ (forall k, In k (AiAgent.required_of s) -> exists v, args !! k = Some v).

Lemma expected_keys params (args : gmap string pyval) :
  (forall k v, args !! k = Some v -> In k params) ->
  AiAgent.unexpected params args = false.
Proof.
  intros H. unfold AiAgent.unexpected. apply negb_false_iff, bool_decide_eq_true.
  intros k Hk. apply elem_of_dom in Hk. destruct Hk as [v Hv].
  apply elem_of_list_to_set, list_elem_of_In. eapply H. exact Hv.
Qed.

Lemma conforms_expected s args params :
  conforms s args ->
  (forall p, In p (ToolSchema.properties s) -> In (Property.name p) params) ->
  In "user_id" params ->
  forall u, AiAgent.unexpected params (<["user_id" := u]> args) = false.
Proof.
  intros [Hkeys _] Hparams Huser u. rewrite unexpected_insert by exact Huser.
  apply expected_keys. intros k v Hk. destruct (Hkeys k v Hk) as (p & Hp & <- & _).
  apply Hparams. exact Hp.
Qed.

(** What a conforming argument object holds under a key. *)
Lemma conforms_string s args k :
  conforms s args ->
  (forall p, In p (ToolSchema.properties s) -> Property.name p = k ->
             Property.type p = "string") ->
  exists o : option string, args !! k = option_map PStr o.
Proof.
  intros [Hkeys _] Htype. destruct (args !! k) as [v|] eqn:Hv; [|exists None; reflexivity].
  destruct (Hkeys k v Hv) as (p & Hp & Hname & [Hty _]).
  rewrite (Htype p Hp Hname) in Hty.
  destruct Hty as [[_ [x ->]]|[[? _]|[? _]]]; try discriminate.
  exists (Some x). reflexivity.
Qed.

Lemma conforms_integer s args k :
  conforms s args ->
  (forall p, In p (ToolSchema.properties s) -> Property.name p = k ->
             Property.type p = "integer") ->
  exists o : option Z, args !! k = option_map PInt o.
Proof.
  intros [Hkeys _] Htype. destruct (args !! k) as [v|] eqn:Hv; [|exists None; reflexivity].
  destruct (Hkeys k v Hv) as (p & Hp & Hname & [Hty _]).
  rewrite (Htype p Hp Hname) in Hty.
  destruct Hty as [[? _]|[[_ [x ->]]|[? _]]]; try discriminate.
  exists (Some x). reflexivity.
Qed.

Ltac property_of_schema :=
  simpl; intros p Hp;
  repeat (destruct Hp as [<-|Hp]; [simpl; try tauto; try discriminate; auto|]);
  try contradiction.

Ltac schema_lookup H args k kind o Ho :=
  let Hk := fresh in
  assert (Hk := kind _ args k H);
  destruct Hk as [o Ho];
  [ simpl; intros p Hp;
    repeat (destruct Hp as [<-|Hp]; [simpl; intros; first [reflexivity|discriminate]|]);
    contradiction
  | ].

Ltac required_key H k v Hv :=
  destruct (proj2 H k) as [v Hv]; [simpl; tauto|].

Lemma invoke_tool_on_conforming_arguments s args user_id w :
  In s AiAgent.tools -> conforms s args ->
  exists r w', AiAgent.invoke_tool (ToolSchema.name s) user_id (PDict args) w = (Ok r, w').
Proof.
  intros Hs Hc.
  pose proof (tools_return_on_typed_arguments w user_id) as Htools. cbv zeta in Htools.
  unfold AiAgent.invoke_tool, bind, lift. simpl AiAgent.set_user_id. cbv iota beta.
  simpl in Hs. destruct Hs as [<-|[<-|[<-|[<-|[<-|[]]]]]]; simpl.
  - unfold AiAgent.call_add_task.
    rewrite (conforms_expected _ _ _ Hc) by (property_of_schema || (simpl; tauto)).
    rewrite lookup_insert_eq, !lookup_insert_ne by discriminate.
    schema_lookup Hc args "title" conforms_string title Htitle.
    schema_lookup Hc args "description" conforms_string description Hdescription.
    required_key Hc "title" v Hv.
    rewrite Htitle in Hv |- *. rewrite Hdescription.
    destruct title as [title|]; [|discriminate]. simpl.
    destruct (Htools None (Some title) description None None) as (H & _).
    destruct description; exact H.
  - unfold AiAgent.call_list_tasks.
    rewrite (conforms_expected _ _ _ Hc) by (property_of_schema || (simpl; tauto)).
    rewrite lookup_insert_eq, !lookup_insert_ne by discriminate.
    schema_lookup Hc args "status" conforms_string status Hstatus.
    schema_lookup Hc args "limit" conforms_integer limit Hlimit.
    rewrite Hstatus, Hlimit.
    destruct status as [status|], limit as [limit|]; simpl.
    + exact (proj1 (proj2 (Htools None None None (Some status) (Some limit)))).
    + exact (proj1 (proj2 (Htools None None None (Some status) (Some 100%Z)))).
    + exact (proj1 (proj2 (Htools None None None (Some "all") (Some limit)))).
    + exact (proj1 (proj2 (Htools None None None (Some "all") (Some 100%Z)))).
  - unfold AiAgent.call_complete_task.
    rewrite (conforms_expected _ _ _ Hc) by (property_of_schema || (simpl; tauto)).
    rewrite lookup_insert_eq, !lookup_insert_ne by discriminate.
    schema_lookup Hc args "task_id" conforms_integer task_id Htask_id.
    rewrite Htask_id. destruct task_id as [task_id|]; simpl.
    + exact (proj1 (proj2 (proj2 (Htools (Some task_id) None None None None)))).
    + required_key Hc "task_id" v Hv. rewrite Htask_id in Hv. discriminate.
  - unfold AiAgent.call_update_task.
    rewrite (conforms_expected _ _ _ Hc) by (property_of_schema || (simpl; tauto)).
    rewrite lookup_insert_eq, !lookup_insert_ne by discriminate.
    schema_lookup Hc args "task_id" conforms_integer task_id Htask_id.
    schema_lookup Hc args "title" conforms_string title Htitle.
    schema_lookup Hc args "description" conforms_string description Hdescription.
    rewrite Htask_id, Htitle, Hdescription. destruct task_id as [task_id|]; simpl.
    + pose proof (proj1 (proj2 (proj2 (proj2
                    (Htools (Some task_id) title description None None))))) as H.
      destruct title, description; exact H.
    + required_key Hc "task_id" v Hv. rewrite Htask_id in Hv. discriminate.
  - unfold AiAgent.call_delete_task.
    rewrite (conforms_expected _ _ _ Hc) by (property_of_schema || (simpl; tauto)).
    rewrite lookup_insert_eq, !lookup_insert_ne by discriminate.
    schema_lookup Hc args "task_id" conforms_integer task_id Htask_id.
    rewrite Htask_id. destruct task_id as [task_id|]; simpl.
    + exact (proj2 (proj2 (proj2 (proj2 (Htools (Some task_id) None None None None))))).
    + required_key Hc "task_id" v Hv. rewrite Htask_id in Hv. discriminate.
Qed.

(** A tool call as a model that follows the schemas makes it. *)
Definition follows_schema (tool_call : ToolCall.t) : Prop :=
  exists s args,
    In s AiAgent.tools /\ ToolCall.name tool_call = ToolSchema.name s
    /\ ToolCall.arguments tool_call = Json (PDict args) /\ conforms s args.

Lemma follows_schema_returns user_id tool_call :
  follows_schema tool_call -> tool_call_returns user_id tool_call.
Proof.
  intros (s & args & Hs & Hname & Hargs & Hc) w.
  destruct (invoke_tool_on_conforming_arguments s args user_id w Hs Hc) as (r & w' & H).
  exists (PDict args), r, w'. rewrite Hargs, Hname. split; [reflexivity|exact H].
Qed.

(** The tool messages appended for a batch of calls and their results. *)
Definition tool_results (tool_calls : list ToolCall.t) (results : list response)
  : list message :=
  List.map (fun p => ToolResult (ToolCall.id (fst p)) (snd p)) (combine tool_calls results).

Lemma execute_tool_calls_shape user_id tool_calls msgs w msgs' w' :
  AiAgent.execute_tool_calls user_id tool_calls msgs w = (Ok msgs', w') ->
  exists results,
    length results = length tool_calls
    /\ msgs' = msgs ++ tool_results tool_calls results
    /\ provider_calls w' = provider_calls w.
Proof.
  revert msgs w.
  induction tool_calls as [|tool_call rest IH]; intros msgs w; simpl.
  - intros [= <- <-]. exists []. rewrite List.app_nil_r. auto.
  - unfold bind at 1. unfold lift.
    destruct (AiAgent.json_loads (ToolCall.arguments tool_call)) as [args|e|];
      try discriminate.
    unfold bind at 1.
    pose proof (invoke_tool_keeps_environment (ToolCall.name tool_call) user_id args w)
      as (Hcalls & _).
    destruct (AiAgent.invoke_tool (ToolCall.name tool_call) user_id args w)
      as [[r|e|] w1]; try discriminate.
    intros H. apply IH in H. destruct H as (results & Hlen & -> & Hcalls').
    exists (r :: results). simpl in *. split; [lia|].
    split; [rewrite <- List.app_assoc; reflexivity|congruence].
Qed.

Lemma tool_results_ids tool_calls results :
  length results = length tool_calls ->
  List.map (fun m => match m with ToolResult id _ => Some id | _ => None end)
           (tool_results tool_calls results)
  = List.map (fun c => Some (ToolCall.id c)) tool_calls.
Proof.
  revert results. unfold tool_results.
  induction tool_calls as [|c tool_calls IH]; intros [|r results] Hlen;
    simpl in *; try discriminate; [reflexivity|].
  f_equal. apply IH. lia.
Qed.

(** X14 — One tool message per call.  When the execution of a batch of
    tool calls returns, it has appended to the message array exactly one
    tool message per call, in the order of the calls and each tagged with
    the id of its call, and has sent no request to the provider. *)
Theorem execute_tool_calls_answers_each_call user_id tool_calls msgs w msgs' w' :
  AiAgent.execute_tool_calls user_id tool_calls msgs w = (Ok msgs', w') ->
  exists results,
    length results = length tool_calls
    /\ msgs' = msgs ++ tool_results tool_calls results
    /\ List.map (fun m => match m with ToolResult id _ => Some id | _ => None end)
                (tool_results tool_calls results)
       = List.map (fun c => Some (ToolCall.id c)) tool_calls
    /\ provider_calls w' = provider_calls w.
Proof.
  intros H. apply execute_tool_calls_shape in H.
  destruct H as (results & Hlen & Hmsgs & Hcalls). exists results.
  split; [exact Hlen|]. split; [exact Hmsgs|].
  split; [apply tool_results_ids; exact Hlen|exact Hcalls].
Qed.

(** X15 — A call to an unknown tool.  If the model names a tool that is
    not among the five and passes an object as arguments, the invocation
    returns the error object ["Unknown tool: <name>"] without touching the
    world, and the batch goes on with the remaining calls after recording
    that error as the result of the call. *)
Theorem unknown_tool_does_not_stop_the_batch user_id tool_call rest msgs w args :
  ~ In (ToolCall.name tool_call) (List.map ToolSchema.name AiAgent.tools) ->
  ToolCall.arguments tool_call = Json (PDict args) ->
  AiAgent.invoke_tool (ToolCall.name tool_call) user_id (PDict args) w
    = (Ok (Error ("Unknown tool: " +:+ ToolCall.name tool_call)), w)
  /\ AiAgent.execute_tool_calls user_id (tool_call :: rest) msgs w
     = AiAgent.execute_tool_calls user_id rest
         (msgs ++ [ToolResult (ToolCall.id tool_call)
                              (Error ("Unknown tool: " +:+ ToolCall.name tool_call))]) w.
Proof.
  intros Hname Hargs.
  assert (Hinvoke : AiAgent.invoke_tool (ToolCall.name tool_call) user_id (PDict args) w
                    = (Ok (Error ("Unknown tool: " +:+ ToolCall.name tool_call)), w)).
  { unfold AiAgent.invoke_tool, bind, lift. simpl AiAgent.set_user_id. cbv iota beta.
    simpl in Hname.
    repeat match goal with
           | |- context [String.eqb ?a ?b] =>
               destruct (String.eqb_spec a b) as [Heq|_];
                 [exfalso; apply Hname; rewrite Heq; tauto|]
           end.
    reflexivity. }
  split; [exact Hinvoke|].
  simpl. unfold bind at 1. unfold lift. rewrite Hargs. simpl.
  unfold bind at 1. rewrite Hinvoke. reflexivity.
Qed.

(** X16 — Calls that follow the schemas are answered.  If every call of a
    batch names one of the five tools and passes an argument object that is
    valid against that tool's schema, the execution of the batch returns,
    with one result per call; no call raises. *)
Theorem conforming_calls_are_all_answered user_id tool_calls msgs w :
  Forall follows_schema tool_calls ->
  exists results w',
    AiAgent.execute_tool_calls user_id tool_calls msgs w
      = (Ok (msgs ++ tool_results tool_calls results), w')
    /\ length results = length tool_calls.
Proof.
  intros Hcalls.
  assert (Hreturn : Forall (tool_call_returns user_id) tool_calls).
  { eapply List.Forall_impl; [|exact Hcalls]. apply follows_schema_returns. }
  destruct (execute_tool_calls_returns user_id tool_calls Hreturn msgs w)
    as (msgs' & w' & Hrun & _).
  destruct (execute_tool_calls_shape _ _ _ _ _ _ Hrun) as (results & Hlen & -> & _).
  exists results, w'. split; [exact Hrun|exact Hlen].
Qed.

Section SchemaFollowingModel.

Variable client : Provider.
Variable system_prompt : string.
Variable user_id : string.

(** Every tool call the provider ever requests follows the schemas. *)
Hypothesis Hschema :
  forall n msgs reply,
    client n msgs = inr reply -> Forall follows_schema (Reply.tool_calls reply).

(** The request ended with a result, or with an exception raised by the
    provider. *)
Definition only_provider_errors {A} (r : outcome A * World) : Prop :=
  (exists a, fst r = Ok a)
  \/ (exists e n msgs, fst r = Exc e /\ client n msgs = inl e).

Lemma agentic_loop_only_provider_errors fuel iteration msgs last w :
  (AiAgent.max_iterations - iteration < fuel)%nat ->
  (exists exit, fst (AiAgent.agentic_loop client fuel user_id iteration msgs last w)
                = Ok (Some exit))
  \/ (exists e n msgs',
        fst (AiAgent.agentic_loop client fuel user_id iteration msgs last w) = Exc e
        /\ client n msgs' = inl e).
Proof.
  revert iteration msgs last w.
  induction fuel as [|fuel IH]; intros iteration msgs last w Hfuel; [lia|].
  rewrite agentic_loop_step.
  destruct (Nat.ltb_spec iteration AiAgent.max_iterations); [|left; eauto].
  unfold AiAgent.create.
  destruct (client (provider_calls w) msgs) as [e|reply] eqn:Hclient;
    [right; eauto|].
  pose proof (Hschema _ _ _ Hclient) as Hcalls.
  destruct (Reply.tool_calls reply) as [|tool_call rest]; [left; eauto|]. cbv zeta.
  assert (Hreturn : Forall (tool_call_returns user_id) (tool_call :: rest)).
  { eapply List.Forall_impl; [|exact Hcalls]. apply follows_schema_returns. }
  match goal with
  | |- context [AiAgent.execute_tool_calls ?u ?t ?m ?w0] =>
      destruct (execute_tool_calls_returns u t Hreturn m w0) as (msgs' & w2 & -> & _)
  end.
  apply IH. lia.
Qed.

End SchemaFollowingModel.

(** X17 — A model that follows the schemas cannot crash a request.  If
    every tool call the provider ever asks for is valid against the schema
    of its tool, [generate_response] ends with a result, or with an
    exception that the provider itself raised; it never ends with an
    exception from a tool. *)
Theorem schema_following_model_never_crashes client system_prompt history user_id w :
  (forall n msgs reply,
      client n msgs = inr reply -> Forall follows_schema (Reply.tool_calls reply)) ->
  only_provider_errors client
    (AiAgent.generate_response client system_prompt history user_id w).
Proof.
  intros Hschema.
  pose proof (agentic_loop_only_provider_errors client user_id Hschema
                (S AiAgent.max_iterations) 0
                (Plain "system" system_prompt
                   :: List.map (fun m => Plain (fst m) (snd m)) history)
                None w ltac:(unfold AiAgent.max_iterations; lia)) as H.
  unfold only_provider_errors, AiAgent.generate_response, AiAgent.generate_response_fuel,
    bind, ret, unmodelled.
  destruct (AiAgent.agentic_loop _ _ _ _ _ _ w) as [[[exit|]|e|] w1]; simpl in *.
  - left. eauto.
  - destruct H as [[exit H]|(e & n & msgs & H & _)]; discriminate.
  - right. destruct H as [[exit H]|(e' & n & msgs & [= <-] & Hc)]; [discriminate|]. eauto.
  - destruct H as [[exit H]|(e & n & msgs & H & _)]; discriminate.
Qed.

(* ===================================================================== *)
(** * Requests to the provider                                            *)
(* ===================================================================== *)

(** The provider counter only grows, and identifiers and the state of the
    storage layer are never touched, across the tools and the agent. *)
Definition counts_requests (w w' : World) : Prop :=
  (provider_calls w <= provider_calls w')%nat
  /\ uuid_seq w' = uuid_seq w /\ db_error w' = db_error w.

Lemma counts_requests_refl w : counts_requests w w.
Proof. unfold counts_requests. auto. Qed.

Lemma counts_requests_trans w1 w2 w3 :
  counts_requests w1 w2 -> counts_requests w2 w3 -> counts_requests w1 w3.
Proof.
  intros (Hp & Hu & Hd) (Hp' & Hu' & Hd'). unfold counts_requests.
  rewrite Hu', Hd'. split; [lia|auto].
Qed.

Lemma keeps_environment_counts {A} (m : M A) w :
  keeps_environment m -> counts_requests w (snd (m w)).
Proof.
  intros Hm. destruct (Hm w) as (Hp & Hu & Hd).
  unfold counts_requests. rewrite Hp, Hu, Hd. auto.
Qed.

Lemma tools_count_no_request user_id w task_id title description status limit :
  counts_requests w (snd (Mcp.add_task (PStr user_id) title description w))
  /\ counts_requests w (snd (Mcp.list_tasks (PStr user_id) status limit w))
  /\ counts_requests w (snd (Mcp.complete_task (PStr user_id) task_id w))
  /\ counts_requests w (snd (Mcp.update_task (PStr user_id) task_id title description w))
  /\ counts_requests w (snd (Mcp.delete_task (PStr user_id) task_id w)).
Proof.
  split; [apply keeps_environment_counts, add_task_keeps_environment|].
  split; [apply keeps_environment_counts, list_tasks_keeps_environment|].
  split; [apply keeps_environment_counts, complete_task_keeps_environment|].
  split; [apply keeps_environment_counts, update_task_keeps_environment|].
  apply keeps_environment_counts, delete_task_keeps_environment.
Qed.

Lemma agentic_loop_counts_requests client fuel user_id iteration msgs last w :
  counts_requests w
    (snd (AiAgent.agentic_loop client fuel user_id iteration msgs last w)).
Proof.
  exact (lift_agentic_loop counts_requests (fun _ => True) user_id
           (fun w0 _ => counts_requests_refl w0) counts_requests_trans
           (fun _ _ _ _ => I)
           (fun w0 _ => conj (Nat.le_succ_diag_r _) (conj eq_refl eq_refl))
           (fun w0 i t d s l _ => tools_count_no_request user_id w0 i t d s l)
           client fuel iteration msgs last w I).
Qed.

Lemma generate_response_counts_requests client system_prompt history user_id w :
  counts_requests w
    (snd (AiAgent.generate_response client system_prompt history user_id w)).
Proof.
  exact (lift_generate_response counts_requests (fun _ => True) user_id
           (fun w0 _ => counts_requests_refl w0) counts_requests_trans
           (fun _ _ _ _ => I)
           (fun w0 _ => conj (Nat.le_succ_diag_r _) (conj eq_refl eq_refl))
           (fun w0 i t d s l _ => tools_count_no_request user_id w0 i t d s l)
           client system_prompt history w I).
Qed.

Lemma agentic_loop_fuel_more client user_id msgs last w extra :
  AiAgent.agentic_loop client (S AiAgent.max_iterations + extra) user_id 0 msgs last w
  = AiAgent.agentic_loop client (S AiAgent.max_iterations) user_id 0 msgs last w.
Proof.
  induction extra as [|extra IH]; [rewrite Nat.add_0_r; reflexivity|].
  rewrite Nat.add_succ_r, agentic_loop_more_fuel; [exact IH|]. rewrite IH.
  apply agentic_loop_fuel. unfold AiAgent.max_iterations. lia.
Qed.

Lemma generate_response_fuel_more client system_prompt history user_id w extra :
  AiAgent.generate_response_fuel client system_prompt (S AiAgent.max_iterations + extra)
                                 history user_id w
  = AiAgent.generate_response_fuel client system_prompt (S AiAgent.max_iterations)
                                   history user_id w.
Proof.
  unfold AiAgent.generate_response_fuel, bind.
  rewrite agentic_loop_fuel_more. reflexivity.
Qed.

(** X18 — Requests to the provider.  Every run of [generate_response]
    sends at least one and at most five requests to the provider, whatever
    the provider answers and however the run ends; it draws no identifier
    and does not change the state of the storage layer; and the six rounds
    the loop is run with always suffice: with more rounds the result is the
    same. *)
Theorem generate_response_requests_bounded client system_prompt history user_id w :
  let w' := snd (AiAgent.generate_response client system_prompt history user_id w) in
  (provider_calls w + 1 <= provider_calls w' <= provider_calls w + 5)%nat
  /\ uuid_seq w' = uuid_seq w
  /\ db_error w' = db_error w
  /\ forall extra,
       AiAgent.generate_response_fuel client system_prompt
         (S AiAgent.max_iterations + extra) history user_id w
       = AiAgent.generate_response_fuel client system_prompt
           (S AiAgent.max_iterations) history user_id w.
Proof.
  intros w'.
  pose proof (generate_response_round_trips client system_prompt history user_id w)
    as Hupper. fold w' in Hupper. unfold AiAgent.max_iterations in Hupper.
  pose proof (generate_response_counts_requests client system_prompt history user_id w)
    as (_ & Hu & Hd). fold w' in Hu, Hd.
  split; [split; [|exact Hupper]|].
  - subst w'.
    unfold AiAgent.generate_response, AiAgent.generate_response_fuel.
    set (msgs := Plain "system" system_prompt :: _).
    assert (Hloop : (provider_calls w + 1
                     <= provider_calls
                          (snd (AiAgent.agentic_loop client (S AiAgent.max_iterations)
                                  user_id 0 msgs None w)))%nat).
    { rewrite agentic_loop_step.
      change (0 <? AiAgent.max_iterations)%nat with true. cbv iota.
      pose proof (create_calls client msgs w) as Hc.
      destruct (AiAgent.create client msgs w) as [[reply|e|] w1];
        cbv beta iota delta [snd] in Hc; [|cbv beta iota delta [snd]; lia..].
      destruct (Reply.tool_calls reply) as [|tool_call rest];
        [cbv beta iota delta [snd]; lia|]. cbv zeta.
      pose proof (execute_tool_calls_keeps_environment user_id (tool_call :: rest)
                    (msgs ++ [AssistantToolCalls (Reply.content reply) (tool_call :: rest)])
                    w1) as (Hk & _).
      destruct (AiAgent.execute_tool_calls user_id (tool_call :: rest) _ w1)
        as [[msgs'|e|] w2]; cbv beta iota delta [snd] in Hk;
        [|cbv beta iota delta [snd]; lia..].
      destruct (agentic_loop_counts_requests client AiAgent.max_iterations user_id 1%nat
                  msgs' (Reply.content reply) w2) as (Hmono & _).
      lia. }
    unfold bind, ret, unmodelled.
    destruct (AiAgent.agentic_loop _ _ _ _ _ _ w) as [[[exit|]|e|] w1]; exact Hloop.
  - split; [exact Hu|]. split; [exact Hd|].
    intros extra. apply generate_response_fuel_more.
Qed.

(** X19 — The first reply.  The first request carries the system prompt
    followed by the history.  If the provider raises on it,
    [generate_response] raises that same exception; if it answers without
    tool calls,
    the content of that answer is returned as it is (also when it is
    absent).  Either way exactly one request has been counted and nothing
    else has changed. *)
Theorem generate_response_first_reply client system_prompt history user_id w :
  let request :=
    Plain "system" system_prompt :: List.map (fun m => Plain (fst m) (snd m)) history in
  let counted :=
    mkWorld (tasks w) (task_seq w) (clock w) (uuid_seq w) (S (provider_calls w))
            (db_error w) in
  (forall e, client (provider_calls w) request = inl e ->
             AiAgent.generate_response client system_prompt history user_id w
             = (Exc e, counted))
  /\ (forall reply,
        client (provider_calls w) request = inr reply -> Reply.tool_calls reply = [] ->
        AiAgent.generate_response client system_prompt history user_id w
        = (Ok (Reply.content reply), counted)).
Proof.
  intros request counted. subst request counted.
  unfold AiAgent.generate_response, AiAgent.generate_response_fuel, bind.
  rewrite agentic_loop_step.
  change (0 <? AiAgent.max_iterations)%nat with true. cbv iota. unfold AiAgent.create.
  split.
  - intros e ->. reflexivity.
  - intros reply -> ->. reflexivity.
Qed.

(** X20 — The ceiling.  If the provider asks for tool calls in every
    reply and those calls all return, [generate_response] stops after
    exactly five requests and returns a text that is not empty. *)
Theorem generate_response_stops_at_ceiling client system_prompt history user_id w :
  always_requests_tools client -> tool_calls_return user_id client ->
  exists text w',
    AiAgent.generate_response client system_prompt history user_id w = (Ok (Some text), w')
    /\ text <> ""
    /\ provider_calls w' = (provider_calls w + 5)%nat.
Proof.
  intros Hrequests Hreturn.
  destruct (generate_response_at_ceiling client system_prompt user_id Hrequests Hreturn
              history w) as (text & _ & _ & w' & Hrun & Htext & Hcalls & _).
  exists text, w'. auto.
Qed.

(* ===================================================================== *)
(** * The transactional chat endpoint                                     *)
(* ===================================================================== *)

(** What the session holds when the agent is called: the committed tables
    with the user's message appended, in a conversation of the caller that
    was found or has just been created. *)
Lemma open_round_result user_id conversation_id message_content s w conversation s' history w' :
  Chat.open_round user_id conversation_id message_content s w
    = (Ok (conversation, s', history), w') ->
  Conversation.user_id conversation = user_id
  /\ In conversation (conversations s')
  /\ (conversations s' = conversations s
      \/ conversations s' = conversations s ++ [conversation])
  /\ exists user_message,
       messages s' = messages s ++ [user_message]
       /\ Message.conversation_id user_message = Conversation.id conversation
       /\ Message.role user_message = "user"
       /\ Message.content user_message = message_content.
Proof.
  unfold Chat.open_round, Chat.new_conversation, Chat.new_message, sql_string.
  unfold bind, lift, ret, raise, session, uuid4, utcnow.
  destruct (db_error w); [discriminate|].
  destruct (has_nul message_content).
  { destruct conversation_id as [cid|]; simpl;
      [destruct (List.find _ (conversations s)); simpl|]; discriminate. }
  assert (Hfound :
    forall conversation0 convs w0 (m : Message.t) rows,
      Conversation.user_id conversation0 = user_id ->
      In conversation0 convs ->
      (convs = conversations s \/ convs = conversations s ++ [conversation0]) ->
      Message.conversation_id m = Conversation.id conversation0 ->
      Message.role m = "user" -> Message.content m = message_content ->
      match Chat.history_of rows m with
      | Ok a =>
          (Ok (conversation0, mkChatDb convs (messages s ++ [m]),
               a ++ [("user", message_content)]), w0)
      | Exc e => (Exc e, w0)
      | Unmodelled => (Unmodelled, w0)
      end = (Ok (conversation, s', history), w') ->
      Conversation.user_id conversation = user_id
      /\ In conversation (conversations s')
      /\ (conversations s' = conversations s
          \/ conversations s' = conversations s ++ [conversation])
      /\ exists user_message,
           messages s' = messages s ++ [user_message]
           /\ Message.conversation_id user_message = Conversation.id conversation
           /\ Message.role user_message = "user"
           /\ Message.content user_message = message_content).
  { intros conversation0 convs w0 m rows Hu Hin Hc Hcid Hrole Hcontent.
    destruct (Chat.history_of rows m); try discriminate.
    intros [= <- <- <- <-]. simpl. eauto 10. }
  destruct conversation_id as [cid|]; simpl.
  - destruct (List.find _ (conversations s)) as [found|] eqn:Hfind; simpl.
    + apply List.find_some in Hfind. destruct Hfind as [Hin Hmatch].
      apply andb_true_iff in Hmatch. destruct Hmatch as [_ Hu].
      apply String.eqb_eq in Hu.
      apply Hfound; auto.
    + apply Hfound; simpl; auto. apply in_or_app. right. left. reflexivity.
  - apply Hfound; simpl; auto. apply in_or_app. right. left. reflexivity.
Qed.

Lemma open_round_raises user_id conversation_id message_content s w e w' :
  Chat.open_round user_id conversation_id message_content s w = (Exc e, w') ->
  (exists text, e = OperationalError text) \/ (exists text, e = AttributeError text)
  \/ e = nul_refused.
Proof.
  assert (Hhistory : forall rows m e0, Chat.history_of rows m = Exc e0 ->
            exists text, e0 = AttributeError text).
  { induction rows as [|row rows IH]; intros m e0; simpl; [discriminate|].
    destruct (Message.id row =? Message.id m)%nat; [apply IH|].
    intros [= <-]. eauto. }
  unfold Chat.open_round, Chat.new_conversation, Chat.new_message, sql_string.
  unfold bind, lift, ret, raise, session, uuid4, utcnow.
  destruct (db_error w); [intros [= <- _]; left; eauto|].
  destruct (has_nul message_content).
  { destruct conversation_id as [cid|]; simpl;
      [destruct (List.find _ (conversations s)); simpl|];
      intros [= <- _]; right; right; reflexivity. }
  destruct conversation_id as [cid|]; simpl;
    [destruct (List.find _ (conversations s)); simpl|];
    match goal with
    | |- context [Chat.history_of ?rows ?m] =>
        destruct (Chat.history_of rows m) eqn:Hh; try discriminate;
        intros [= <- _]; right; left; eapply Hhistory; exact Hh
    end.
Qed.

(** X21 — All or nothing.  A message that is empty after trimming is
    rejected with status 422 and nothing happens.  In general a request
    that does not end with a response leaves the conversation and message
    tables exactly as they were, and when it ends with an exception that is
    an HTTP error with status 422, 500 or 503. *)
Theorem send_chat_message_all_or_nothing client system_prompt user_id chat_data s :
  let r := Chat.send_chat_message client system_prompt user_id chat_data s in
  (strip (ChatRequest.message chat_data) = "" -> r = (Exc (HTTPException 422), s))
  /\ ((exists response, fst r = Ok response)
      \/ (chat (snd r) = chat s
          /\ (fst r = Unmodelled
              \/ exists code, fst r = Exc (HTTPException code)
                              /\ (code = 422 \/ code = 500 \/ code = 503)%nat))).
Proof.
  intros r. subst r. unfold Chat.send_chat_message.
  destruct (String.eqb_spec (strip (ChatRequest.message chat_data)) "") as [Hblank|Hmsg].
  { split; [reflexivity|]. right. split; [reflexivity|]. right. exists 422%nat. auto. }
  split; [contradiction|].
  unfold try_except, bind, get_chat, in_world, raise. simpl.
  destruct (Chat.open_round user_id _ _ (chat s) (world s))
    as [[[[conversation s1] history]|e|] w1] eqn:Hopen; simpl;
    [|apply open_round_raises in Hopen; destruct Hopen as [[text ->]|[[text ->]| ->]];
      right; (split; [reflexivity|right; exists 500%nat; auto])
     |right; split; [reflexivity|left; reflexivity]].
  destruct (AiAgent.generate_response client system_prompt history user_id w1)
    as [[[text|]|e|] w2]; simpl.
  - unfold Chat.new_message, sql_string, bind, uuid4, utcnow, session, put_chat, ret, raise.
    simpl.
    destruct (has_nul text); simpl;
      [right; split; [reflexivity|]; right; exists 500%nat; auto|].
    destruct (db_error w2); simpl; [|left; eauto].
    right. split; [reflexivity|]. right. exists 500%nat. auto.
  - right. split; [reflexivity|]. right. exists 500%nat. auto.
  - right. split; [reflexivity|]. right. exists 503%nat. auto.
  - right. split; [reflexivity|]. left. reflexivity.
Qed.

(** X22 — What a response means.  When [send_chat_message] returns a
    response, the message table has grown by exactly two rows, the user's
    trimmed message (which is not empty) followed by the assistant's
    message, whose content is the returned text; both belong to the
    conversation named in the response, which is owned by the caller and is
    either an existing one or the single conversation added by this
    request. *)
Theorem send_chat_message_success client system_prompt user_id chat_data s response s' :
  Chat.send_chat_message client system_prompt user_id chat_data s = (Ok response, s') ->
  exists conversation user_message assistant_message,
    messages (chat s') = messages (chat s) ++ [user_message; assistant_message]
    /\ (conversations (chat s') = conversations (chat s)
        \/ conversations (chat s') = conversations (chat s) ++ [conversation])
    /\ In conversation (conversations (chat s'))
    /\ Conversation.user_id conversation = user_id
    /\ Conversation.id conversation = Chat.ChatResponse.conversation_id response
    /\ Message.conversation_id user_message = Conversation.id conversation
    /\ Message.role user_message = "user"
    /\ Message.content user_message = strip (ChatRequest.message chat_data)
    /\ Message.content user_message <> ""
    /\ Message.conversation_id assistant_message = Conversation.id conversation
    /\ Message.role assistant_message = "assistant"
    /\ Message.content assistant_message = Chat.ChatResponse.response response.
Proof.
  unfold Chat.send_chat_message.
  destruct (String.eqb_spec (strip (ChatRequest.message chat_data)) "") as [Hblank|Hmsg];
    [discriminate|].
  unfold try_except, bind, get_chat, in_world, raise. simpl.
  destruct (Chat.open_round user_id _ _ (chat s) (world s))
    as [[[[conversation s1] history]|e|] w1] eqn:Hopen; simpl;
    [|destruct e; discriminate|discriminate].
  apply open_round_result in Hopen.
  destruct Hopen as (Hu & Hin & Hconvs & user_message & Hmsgs & Hcid & Hrole & Hcontent).
  destruct (AiAgent.generate_response client system_prompt history user_id w1)
    as [[[text|]|e|] w2]; simpl; try discriminate.
  unfold Chat.new_message, sql_string, bind, uuid4, utcnow, session, put_chat, ret, raise.
  simpl. destruct (has_nul text); simpl; [discriminate|].
  destruct (db_error w2); simpl; [discriminate|].
  intros [= <- <-]. simpl.
  exists conversation, user_message. eexists. rewrite Hmsgs, <- List.app_assoc. simpl.
  split; [reflexivity|]. split; [exact Hconvs|]. split; [exact Hin|].
  split; [exact Hu|]. split; [reflexivity|]. split; [exact Hcid|].
  split; [exact Hrole|]. split; [exact Hcontent|].
  split; [rewrite Hcontent; exact Hmsg|]. simpl. auto.
Qed.

(** X23 — A reply without content.  When the provider's first reply has
    neither tool calls nor content, the request ends with status 500 (not
    503, and without a default text), after exactly one request to the
    provider; the agent has changed no task and nothing is written to the
    conversation and message tables. *)
Theorem send_chat_message_null_reply
        (client : Provider) system_prompt user_id chat_data s
        conversation pending history w1 reply :
  strip (ChatRequest.message chat_data) <> "" ->
  Chat.open_round user_id (ChatRequest.conversation_id chat_data)
                  (strip (ChatRequest.message chat_data)) (chat s) (world s)
    = (Ok (conversation, pending, history), w1) ->
  client (provider_calls w1)
         (Plain "system" system_prompt :: List.map (fun m => Plain (fst m) (snd m)) history)
    = inr reply ->
  Reply.tool_calls reply = [] -> Reply.content reply = None ->
  exists w2,
    Chat.send_chat_message client system_prompt user_id chat_data s
      = (Exc (HTTPException 500), mkServer w2 (chat s))
    /\ provider_calls w2 = S (provider_calls w1)
    /\ tasks w2 = tasks w1.
Proof.
  intros Hmsg Hopen Hclient Hcalls Hcontent.
  assert (Hagent : AiAgent.generate_response client system_prompt history user_id w1
                   = (Ok None,
                      mkWorld (tasks w1) (task_seq w1) (clock w1) (uuid_seq w1)
                              (S (provider_calls w1)) (db_error w1))).
  { unfold AiAgent.generate_response, AiAgent.generate_response_fuel, bind.
    rewrite agentic_loop_step.
    change (0 <? AiAgent.max_iterations)%nat with true. cbv iota. unfold AiAgent.create.
    rewrite Hclient, Hcalls, Hcontent. reflexivity. }
  exists (mkWorld (tasks w1) (task_seq w1) (clock w1) (uuid_seq w1)
                  (S (provider_calls w1)) (db_error w1)).
  split; [|split; reflexivity].
  unfold Chat.send_chat_message.
  destruct (String.eqb_spec (strip (ChatRequest.message chat_data)) "");
    [contradiction|].
  unfold try_except, bind, get_chat, in_world, raise. simpl.
  rewrite Hopen. simpl. rewrite Hagent. reflexivity.
Qed.

(* ===================================================================== *)
(** * Conversations and stored messages of phase-03                       *)
(* ===================================================================== *)

Lemma get_or_create_conversation_cases user_id conversation_id s :
  match Phase03.get_or_create_conversation user_id conversation_id s with
  | (Ok conversation, s') =>
      Conversation.user_id conversation = user_id
      /\ In conversation (conversations (chat s'))
      /\ messages (chat s') = messages (chat s)
      /\ tasks (world s') = tasks (world s)
      /\ (s' = s
          \/ (conversations (chat s') = conversations (chat s) ++ [conversation]
              /\ forall c, In c (conversations (chat s)) ->
                           Conversation.user_id c <> user_id))
      /\ Phase03.get_or_create_conversation user_id conversation_id s'
         = (Ok conversation, s')
  | (Exc e, s') =>
      s' = s
      /\ ((exists text, e = OperationalError text /\ db_error (world s) = Some text)
          \/ (e = ValueError "Conversation not found or access denied"
              /\ exists cid c,
                   conversation_id = Some cid /\ In c (conversations (chat s))
                   /\ Conversation.id c = cid /\ Conversation.user_id c <> user_id))
  | (Unmodelled, _) => False
  end.
Proof.
  unfold Phase03.get_or_create_conversation, bind, in_world, session, get_chat, put_chat,
    uuid4, utcnow, ret, raise.
  destruct s as [w db]. simpl.
  destruct (db_error w) as [text|] eqn:Hdb; simpl.
  { split; [reflexivity|]. left. eauto. }
  destruct (match conversation_id with
            | Some cid => List.find (fun c => (Conversation.id c =? cid)%nat) (conversations db)
            | None => None
            end) as [c|] eqn:Hby_id; simpl.
  - destruct conversation_id as [cid|]; [|discriminate].
    pose proof (List.find_some _ _ Hby_id) as [Hin Hid]. apply Nat.eqb_eq in Hid.
    destruct (String.eqb_spec (Conversation.user_id c) user_id) as [Hu|Hu]; simpl.
    + split; [exact Hu|]. split; [exact Hin|]. split; [reflexivity|].
      split; [reflexivity|]. split; [left; reflexivity|].
      rewrite Hdb. simpl. rewrite Hby_id. simpl.
      destruct (String.eqb_spec (Conversation.user_id c) user_id); [reflexivity|contradiction].
    + split; [reflexivity|]. right. split; [reflexivity|]. exists cid, c. auto.
  - destruct (List.find (fun c => String.eqb (Conversation.user_id c) user_id)
                        (conversations db)) as [c|] eqn:Hby_user; simpl.
    + pose proof (List.find_some _ _ Hby_user) as [Hin Hu]. apply String.eqb_eq in Hu.
      split; [exact Hu|]. split; [exact Hin|]. split; [reflexivity|].
      split; [reflexivity|]. split; [left; reflexivity|].
      rewrite Hdb. simpl. rewrite Hby_id. simpl. rewrite Hby_user. reflexivity.
    + split; [reflexivity|]. split; [apply in_or_app; right; left; reflexivity|].
      split; [reflexivity|]. split; [reflexivity|].
      split.
      { right. split; [reflexivity|]. intros c Hc Hu.
        pose proof (List.find_none _ _ Hby_user c Hc) as Hnone. simpl in Hnone.
        rewrite Hu, String.eqb_refl in Hnone. discriminate. }
      rewrite Hdb. simpl.
      set (new := Conversation.mk (uuid_seq w) user_id (clock w) (S (clock w))).
      assert (Hfind_user :
                List.find (fun c => String.eqb (Conversation.user_id c) user_id)
                          (conversations db ++ [new]) = Some new).
      { clear Hby_id. induction (conversations db) as [|c cs IH]; simpl.
        - rewrite String.eqb_refl. reflexivity.
        - simpl in Hby_user.
          destruct (String.eqb (Conversation.user_id c) user_id); [discriminate|].
          apply IH. exact Hby_user. }
      destruct conversation_id as [cid|]; simpl.
      * assert (Hfind_id :
                  List.find (fun c => (Conversation.id c =? cid)%nat)
                            (conversations db ++ [new])
                  = if (uuid_seq w =? cid)%nat then Some new else None).
        { clear Hby_user Hfind_user.
          induction (conversations db) as [|c cs IH]; simpl; [reflexivity|].
          simpl in Hby_id. destruct (Conversation.id c =? cid)%nat; [discriminate|].
          apply IH. exact Hby_id. }
        rewrite Hfind_id. destruct (uuid_seq w =? cid)%nat; simpl.
        -- rewrite String.eqb_refl. reflexivity.
        -- rewrite Hfind_user. reflexivity.
      * rewrite Hfind_user. reflexivity.
Qed.

(** X24 — [get_or_create_conversation].  When it returns, the
    conversation belongs to the caller, messages and tasks are unchanged,
    and either nothing was written or exactly one conversation was appended
    and the caller had none before; calling it again returns the same
    conversation and writes nothing.  When it raises, nothing was written,
    and either the storage layer failed or the given id names a
    conversation of somebody else.  A given id that names no conversation
    is not an error. *)
Theorem get_or_create_conversation_outcomes user_id conversation_id s :
  match Phase03.get_or_create_conversation user_id conversation_id s with
  | (Ok conversation, s') =>
      Conversation.user_id conversation = user_id
      /\ In conversation (conversations (chat s'))
      /\ messages (chat s') = messages (chat s)
      /\ tasks (world s') = tasks (world s)
      /\ (s' = s
          \/ (conversations (chat s') = conversations (chat s) ++ [conversation]
              /\ forall c, In c (conversations (chat s)) ->
                           Conversation.user_id c <> user_id))
      /\ Phase03.get_or_create_conversation user_id conversation_id s'
         = (Ok conversation, s')
  | (Exc e, s') =>
      s' = s
      /\ ((exists text, e = OperationalError text /\ db_error (world s) = Some text)
          \/ (e = ValueError "Conversation not found or access denied"
              /\ exists cid c,
                   conversation_id = Some cid /\ In c (conversations (chat s))
                   /\ Conversation.id c = cid /\ Conversation.user_id c <> user_id))
  | (Unmodelled, _) => False
  end.
Proof. apply get_or_create_conversation_cases. Qed.


Lemma total_tokens_firstn_mono tokens msgs i j :
  (i <= j)%nat ->
  (total_tokens tokens (firstn i msgs) <= total_tokens tokens (firstn j msgs))%Z.
Proof.
  revert i j. induction msgs as [|m msgs IH]; intros i j Hij.
  - rewrite !List.firstn_nil. lia.
  - destruct i as [|i]; simpl.
    + apply total_tokens_nonneg.
    + destruct j as [|j]; [lia|]. simpl. specialize (IH i j ltac:(lia)). lia.
Qed.

(** X25 — Storing and loading.  When the conversation exists, role and
    content hold no NUL character, all stored messages were created in
    the past and the new content fits the budget, a message stored with
    [store_message] is the last entry of the history loaded next for its
    conversation; the message table has grown by exactly that row; the
    histories of all other conversations are what they were; and the stored
    messages still all lie in the past. *)
Theorem store_then_load tokens conversation_id role content max_tokens s :
  available (world s) ->
  (exists c, In c (conversations (chat s)) /\ Conversation.id c = conversation_id) ->
  storable role -> storable content ->
  Forall (fun m => (Message.created_at m < clock (world s))%nat) (messages (chat s)) ->
  (Z.of_nat (tokens content) <= max_tokens)%Z ->
  exists message s1 older,
    Phase03.store_message conversation_id role content s = (Ok message, s1)
    /\ messages (chat s1) = messages (chat s) ++ [message]
    /\ conversations (chat s1) = conversations (chat s)
    /\ Phase03.load_conversation_history tokens conversation_id max_tokens s1
       = (Ok (older ++ [(role, content)]), s1)
    /\ (forall other, other <> conversation_id ->
          Phase03.load_conversation_history tokens other max_tokens s1
          = (fst (Phase03.load_conversation_history tokens other max_tokens s), s1))
    /\ Forall (fun m => (Message.created_at m < clock (world s1))%nat) (messages (chat s1)).
Proof.
  intros Hdb Hconv Hrole Hcontent Hpast Hfits. unfold available, storable in *.
  destruct s as [w db]. simpl in *.
  assert (Hexists : existsb (fun c => (Conversation.id c =? conversation_id)%nat)
                            (conversations db) = true).
  { destruct Hconv as (c & Hin & Hid). apply existsb_exists. exists c.
    split; [exact Hin|]. apply Nat.eqb_eq. exact Hid. }
  set (message := Message.mk (uuid_seq w) conversation_id role content (clock w)).
  set (w1 := mkWorld (tasks w) (task_seq w) (S (clock w)) (S (uuid_seq w))
                     (provider_calls w) (db_error w)).
  set (s1 := mkServer w1 (mkChatDb (conversations db) (messages db ++ [message]))).
  assert (Hstore : Phase03.store_message conversation_id role content (mkServer w db)
                   = (Ok message, s1)).
  { unfold Phase03.store_message, sql_string, bind, in_world, session, get_chat,
      put_chat, uuid4, utcnow, ret. simpl. rewrite Hdb. simpl.
    rewrite Hrole, Hcontent. simpl. rewrite Hexists. simpl. subst s1 w1 message.
    rewrite Hdb. reflexivity. }
  assert (Hnewest : Phase03.newest_first conversation_id (chat s1)
                    = message :: Phase03.newest_first conversation_id db).
  { unfold Phase03.newest_first. simpl. rewrite List.filter_app. simpl.
    rewrite Nat.eqb_refl. apply order_by_desc_newest.
    apply List.Forall_forall. intros m Hm. apply filter_In in Hm.
    rewrite List.Forall_forall in Hpast. apply Hpast. tauto. }
  assert (Hload : forall cid,
            Phase03.load_conversation_history tokens cid max_tokens s1
            = (Ok (Phase03.history_loop tokens (Phase03.newest_first cid (chat s1))
                     max_tokens [] 0%Z), s1)).
  { intros cid. unfold Phase03.load_conversation_history, bind, in_world, session,
      get_chat, ret. simpl. rewrite Hdb. reflexivity. }
  destruct (history_loop_prefix tokens (Phase03.newest_first conversation_id db)
              max_tokens [(role, content)] (0 + Z.of_nat (tokens content))%Z
              ltac:(lia)) as (k & _ & Hloop & _).
  exists message, s1, (List.map as_dict (List.rev (firstn k (Phase03.newest_first
                                                            conversation_id db)))).
  split; [exact Hstore|]. split; [reflexivity|]. split; [reflexivity|].
  split; [|split].
  - rewrite Hload, Hnewest. simpl.
    destruct (Z.ltb_spec max_tokens (0 + Z.of_nat (tokens content))); [lia|].
    rewrite Hloop. reflexivity.
  - intros other Hother. rewrite Hload.
    unfold Phase03.load_conversation_history, bind, in_world, session, get_chat, ret.
    simpl. rewrite Hdb. simpl. do 3 f_equal.
    unfold Phase03.newest_first. simpl. rewrite List.filter_app. simpl.
    destruct (Nat.eqb_spec conversation_id other); [congruence|].
    rewrite List.app_nil_r. reflexivity.
  - simpl. apply List.Forall_app. split.
    + eapply List.Forall_impl; [|exact Hpast]. simpl. intros; lia.
    + constructor; [simpl; lia|constructor].
Qed.

(** X26 — A larger budget never hides a message.  For two budgets that
    are not negative, the history loaded with the smaller one is the end of
    the history loaded with the larger one; and when the whole conversation
    fits the smaller budget, both are the whole conversation, oldest
    first. *)
Theorem load_conversation_history_grows_with_budget
        tokens conversation_id (small large : Z) s :
  available (world s) -> (0 <= small <= large)%Z ->
  let newest := Phase03.newest_first conversation_id (chat s) in
  exists shown older,
    Phase03.load_conversation_history tokens conversation_id small s = (Ok shown, s)
    /\ Phase03.load_conversation_history tokens conversation_id large s
       = (Ok (older ++ shown), s)
    /\ ((total_tokens tokens newest <= small)%Z ->
        shown = List.map as_dict (List.rev newest) /\ older = []).
Proof.
  intros Hdb Hbudget newest. unfold available in Hdb.
  assert (Hload : forall budget,
            Phase03.load_conversation_history tokens conversation_id budget s
            = (Ok (Phase03.history_loop tokens newest budget [] 0%Z), s)).
  { intros budget. unfold Phase03.load_conversation_history, bind, in_world, session,
      get_chat, ret. rewrite Hdb. destruct s; reflexivity. }
  destruct (history_loop_prefix tokens newest small [] 0%Z ltac:(lia))
    as (k & Hk & Hloop & Hsum & Hmax).
  destruct (history_loop_prefix tokens newest large [] 0%Z ltac:(lia))
    as (k' & Hk' & Hloop' & Hsum' & Hmax').
  assert (Hle : (k <= k')%nat).
  { destruct (Nat.le_gt_cases k k') as [H|H]; [exact H|]. exfalso.
    specialize (Hmax' ltac:(lia)).
    pose proof (total_tokens_firstn_mono tokens newest (S k') k ltac:(lia)). lia. }
  exists (List.map as_dict (List.rev (firstn k newest))),
    (List.map as_dict (List.rev (skipn k (firstn k' newest)))).
  rewrite !Hload, Hloop, Hloop', !List.app_nil_r.
  split; [reflexivity|]. split.
  - rewrite <- List.map_app, <- List.rev_app_distr. do 3 f_equal.
    rewrite <- (List.firstn_skipn k (firstn k' newest)) at 1.
    rewrite List.firstn_firstn, Nat.min_l by exact Hle. reflexivity.
  - intros Hall.
    assert (k = length newest) as Hfull.
    { destruct (Nat.eq_dec k (length newest)) as [H|H]; [exact H|]. exfalso.
      specialize (Hmax ltac:(lia)).
      pose proof (total_tokens_firstn_mono tokens newest (S k) (length newest) ltac:(lia))
        as Hmono.
      rewrite List.firstn_all in Hmono. lia. }
    assert (k' = length newest) by lia. subst k k'.
    rewrite !List.firstn_all, List.skipn_all. split; reflexivity.
Qed.

(* ===================================================================== *)
(** * The tools of phase-03                                               *)
(* ===================================================================== *)

Ltac run_tool03 :=
  unfold Tools03.add_task, Tools03.list_tasks, Tools03.complete_task,
    Tools03.delete_task, Tools03.update_task, Tools03.checked_title, Tools03.not_found,
    Mcp.py_strip, Mcp.no_strip, unmodelled;
  run_tool.

Ltac case_scrutinee :=
  match goal with
  | |- context [match ?x with _ => _ end] =>
      lazymatch type of x with
      | prod _ _ => fail
      | _ => destruct x eqn:?
      end
  | |- context [if ?x then _ else _] => destruct x eqn:?
  end.

Lemma tools03_act_as_owner isoformat w user_id task_id title description completed :
  consistent w ->
  let u := PStr user_id in
  acts_as user_id w (snd (Tools03.add_task isoformat u title description w))
  /\ acts_as user_id w (snd (Tools03.list_tasks isoformat u completed w))
  /\ acts_as user_id w (snd (Tools03.complete_task isoformat u task_id w))
  /\ acts_as user_id w (snd (Tools03.delete_task u task_id w))
  /\ acts_as user_id w (snd (Tools03.update_task isoformat u task_id title description w)).
Proof.
  intros Hw u. subst u. run_tool03.
  split; [|split; [|split; [|split]]];
    repeat (simpl; case_scrutinee); simpl; acts_as_world Hw.
Qed.

(** X27 — phase-03: a task of somebody else.  In a consistent table,
    [complete_task], [delete_task] and [update_task] called for an owner on
    the id of another owner's task raise [ValueError] with the text
    ["Task <id> not found or access denied"] and change nothing; for
    [update_task] this holds whatever the new title and description are, as
    long as one is given, since the title is only checked after the lookup;
    with neither given the error is ["Must provide at least one field to
    update"]. *)
Theorem tools03_report_foreign_task isoformat w user_id task title description :
  consistent w -> available w ->
  In task (tasks w) -> Task.user_id task <> user_id ->
  let missing :=
    (Exc (ValueError ("Task " +:+ Tools03.str_of_int (Task.id task)
                        +:+ " not found or access denied")), w) in
  Tools03.complete_task isoformat (PStr user_id) (PInt (Task.id task)) w = missing
  /\ Tools03.delete_task (PStr user_id) (PInt (Task.id task)) w = missing
  /\ ((title <> PNone \/ description <> PNone) ->
      Tools03.update_task isoformat (PStr user_id) (PInt (Task.id task))
                          title description w = missing)
  /\ Tools03.update_task isoformat (PStr user_id) (PInt (Task.id task)) PNone PNone w
     = (Exc (ValueError "Must provide at least one field to update"), w).
Proof.
  intros Hw Hdb Hin Hother missing. subst missing. unfold available in Hdb.
  pose proof (select_task_other_owner w task user_id Hw Hin Hother) as Hsel.
  run_tool03. rewrite Hdb. simpl. rewrite Hsel.
  split; [reflexivity|]. split; [reflexivity|]. split; [|reflexivity].
  intros [Ht|Hd]; destruct title, description; try contradiction;
    simpl; rewrite ?Hdb; simpl; rewrite ?Hsel; reflexivity.
Qed.

(** X28 — phase-03: nothing is written when a tool raises.  A call of
    [add_task], [complete_task], [delete_task] or [update_task] of phase-03
    that does not return a result leaves the task table and the primary-key
    sequence as they were, whatever the arguments, and [list_tasks] never
    changes anything. *)
Theorem tools03_write_only_on_success
        isoformat w user_id task_id title description completed :
  let unchanged := fun (r : outcome pyval * World) =>
    (exists result, fst r = Ok result)
    \/ (tasks (snd r) = tasks w /\ task_seq (snd r) = task_seq w) in
  unchanged (Tools03.add_task isoformat user_id title description w)
  /\ snd (Tools03.list_tasks isoformat user_id completed w) = w
  /\ unchanged (Tools03.complete_task isoformat user_id task_id w)
  /\ unchanged (Tools03.delete_task user_id task_id w)
  /\ unchanged (Tools03.update_task isoformat user_id task_id title description w).
Proof.
  run_tool03.
  split; [|split; [|split; [|split]]];
    repeat (simpl; case_scrutinee); simpl;
    first [ reflexivity | right; split; reflexivity | left; eexists; reflexivity ].
Qed.

(* ===================================================================== *)
(** * From the tools to the agent of phase-03                             *)
(* ===================================================================== *)

Section Lifting03.

Variable R : World -> World -> Prop.
Variable P : World -> Prop.
Variable user_id : string.
Variable tool_func : string -> gmap string pyval -> M pyval.

Hypothesis R_refl : forall w, P w -> R w w.
Hypothesis R_trans : forall w1 w2 w3, R w1 w2 -> R w2 w3 -> R w1 w3.
Hypothesis R_keeps : forall w w', P w -> R w w' -> P w'.
Hypothesis R_provider :
  forall w, P w ->
    R w (mkWorld (tasks w) (task_seq w) (clock w) (uuid_seq w)
                 (S (provider_calls w)) (db_error w)).
Hypothesis R_tool :
  forall tool_name args w, P w ->
    R w (snd (tool_func tool_name (<["user_id" := PStr user_id]> args) w)).

Lemma lift_execute_tool tool_name arguments w :
  P w -> R w (snd (Agent03.execute_tool tool_func tool_name arguments user_id w)).
Proof.
  intros Hw. unfold Agent03.execute_tool.
  destruct (negb (existsb (String.eqb tool_name) Agent03.tool_map));
    [apply R_refl; exact Hw|].
  unfold bind, lift, ret.
  destruct arguments as [| | | |items|items]; simpl; try (apply R_refl; exact Hw).
  pose proof (R_tool tool_name items w Hw) as H.
  destruct (tool_func tool_name _ w) as [[r|e|] w1]; exact H.
Qed.

Lemma lift_run_tool_calls tool_calls msgs calls w :
  P w -> R w (snd (Agent03.run_tool_calls tool_func user_id tool_calls msgs calls w)).
Proof.
  revert msgs calls w.
  induction tool_calls as [|tool_call rest IH]; intros msgs calls w Hw; simpl;
    [apply R_refl; exact Hw|].
  unfold bind at 1. unfold lift.
  destruct (AiAgent.json_loads (ToolCall.arguments tool_call)) as [args|e|]; simpl;
    try (apply R_refl; exact Hw).
  unfold bind at 1. unfold try_except. unfold bind at 1. unfold ret.
  pose proof (lift_execute_tool (ToolCall.name tool_call) args w Hw) as Hexec.
  destruct (Agent03.execute_tool tool_func (ToolCall.name tool_call) args user_id w)
    as [[[result arguments]|e|] w1]; simpl in *; try exact Hexec.
  - eapply R_trans; [exact Hexec|]. apply IH. eapply R_keeps; eassumption.
  - eapply R_trans; [exact Hexec|]. apply IH. eapply R_keeps; eassumption.
Qed.

Variable api_key : option string.
Variable gemini_client : option Agent03.Client.
Variable new_client : string -> Agent03.Client.
Variable system_prompt : string.

Lemma lift_create03 client msgs w : P w -> R w (snd (Agent03.create client msgs w)).
Proof.
  intros Hw. unfold Agent03.create.
  destruct (client (provider_calls w) msgs); simpl; apply R_provider; exact Hw.
Qed.

Lemma lift_invoke_agent history user_message tools w :
  P w ->
  R w (snd (Agent03.invoke_agent api_key gemini_client new_client system_prompt tool_func
                                 user_id history user_message tools w)).
Proof.
  intros Hw. unfold Agent03.invoke_agent.
  unfold bind at 1. unfold lift.
  destruct (Agent03.get_client api_key gemini_client new_client) as [client|e|];
    [|apply R_refl; exact Hw..].
  set (msgs := Agent03.Text "system" system_prompt :: _).
  unfold try_except. unfold bind at 1.
  pose proof (lift_create03 client msgs w Hw) as Hc.
  destruct (Agent03.create client msgs w) as [[reply|e|] w1]; simpl in Hc;
    [|exact Hc..].
  destruct (Reply.tool_calls reply) as [|tool_call rest]; [exact Hc|]. cbv zeta.
  assert (Hw1 : P w1) by (eapply R_keeps; eassumption).
  unfold bind at 1.
  pose proof (lift_run_tool_calls (tool_call :: rest) msgs [] w1 Hw1) as Hrun.
  destruct (Agent03.run_tool_calls tool_func user_id (tool_call :: rest) msgs [] w1)
    as [[ran|e|] w2]; simpl in Hrun;
    [|exact (R_trans _ _ _ Hc Hrun)..].
  assert (Hw2 : P w2) by (eapply R_keeps; eassumption).
  unfold bind at 1.
  pose proof (lift_create03 client (fst ran) w2 Hw2) as Hc2.
  destruct (Agent03.create client (fst ran) w2) as [[final|e|] w3]; simpl in Hc2;
    exact (R_trans _ _ _ Hc (R_trans _ _ _ Hrun Hc2)).
Qed.

End Lifting03.

Lemma tool_func03_acts_as_owner isoformat user_id tool_name args w :
  consistent w ->
  acts_as user_id w
    (snd (Tools03.tool_func isoformat tool_name (<["user_id" := PStr user_id]> args) w)).
Proof.
  intros Hw.
  pose proof (fun i t d c => tools03_act_as_owner isoformat w user_id i t d c Hw) as Htools.
  cbv zeta in Htools.
  pose proof (acts_as_refl user_id w Hw) as Hrefl.
  unfold Tools03.tool_func, Tools03.call_add_task, Tools03.call_list_tasks,
    Tools03.call_complete_task, Tools03.call_delete_task, Tools03.call_update_task,
    raise, unmodelled.
  rewrite lookup_insert_eq.
  repeat match goal with
         | |- context [if ?b then _ else _] => destruct b; simpl; try exact Hrefl
         | |- context [match ?x !! ?k with _ => _ end] =>
             destruct (x !! k); simpl; try exact Hrefl
         end.
  all: first
         [ apply (proj1 (Htools PNone _ _ PNone))
         | apply (proj1 (proj2 (Htools PNone PNone PNone _)))
         | apply (proj1 (proj2 (proj2 (Htools _ PNone PNone PNone))))
         | apply (proj1 (proj2 (proj2 (proj2 (Htools _ PNone PNone PNone)))))
         | apply (proj2 (proj2 (proj2 (proj2 (Htools _ _ _ PNone))))) ].
Qed.

Lemma tools03_keep_environment isoformat user_id task_id title description completed :
  keeps_environment (Tools03.add_task isoformat user_id title description)
  /\ keeps_environment (Tools03.list_tasks isoformat user_id completed)
  /\ keeps_environment (Tools03.complete_task isoformat user_id task_id)
  /\ keeps_environment (Tools03.delete_task user_id task_id)
  /\ keeps_environment (Tools03.update_task isoformat user_id task_id title description).
Proof.
  unfold Tools03.add_task, Tools03.list_tasks, Tools03.complete_task,
    Tools03.delete_task, Tools03.update_task, Tools03.checked_title,
    sql_int, sql_text, sql_opt_text, sql_opt_string, sql_string.
  split; [|split; [|split; [|split]]]; keeps.
Qed.

Lemma tool_func03_keeps_environment isoformat tool_name args :
  keeps_environment (Tools03.tool_func isoformat tool_name args).
Proof.
  unfold Tools03.tool_func, Tools03.call_add_task, Tools03.call_list_tasks,
    Tools03.call_complete_task, Tools03.call_delete_task, Tools03.call_update_task.
  pose proof (tools03_keep_environment isoformat) as Htools.
  repeat match goal with
         | |- keeps_environment (match ?x with _ => _ end) => destruct x
         end;
    first [ apply keeps_raise | apply keeps_unmodelled
          | apply (proj1 (Htools _ PNone _ _ PNone))
          | apply (proj1 (proj2 (Htools _ PNone PNone PNone _)))
          | apply (proj1 (proj2 (proj2 (Htools _ _ PNone PNone PNone))))
          | apply (proj1 (proj2 (proj2 (proj2 (Htools _ _ PNone PNone PNone)))))
          | apply (proj2 (proj2 (proj2 (proj2 (Htools _ _ _ _ PNone))))) ].
Qed.

Lemma create03_calls client msgs w :
  provider_calls (snd (Agent03.create client msgs w)) = S (provider_calls w).
Proof. unfold Agent03.create. destruct (client _ _); reflexivity. Qed.

(** With a client, [invoke_agent] sends one or two requests; without one
    it returns at once. *)
Lemma invoke_agent_requests api_key gemini_client new_client system_prompt tool_func
      user_id history user_message tools w :
  (forall tool_name args, keeps_environment (tool_func tool_name args)) ->
  let r := Agent03.invoke_agent api_key gemini_client new_client system_prompt tool_func
                                user_id history user_message tools w in
  match Agent03.get_client api_key gemini_client new_client with
  | Ok _ =>
      provider_calls (snd r) = S (provider_calls w)
      \/ provider_calls (snd r) = S (S (provider_calls w))
  | Exc e => r = (Exc e, w)
  | Unmodelled => r = (Unmodelled, w)
  end.
Proof.
  intros Hkeeps r. subst r.
  assert (Hrun : forall tool_calls msgs calls w0,
            provider_calls
              (snd (Agent03.run_tool_calls tool_func user_id tool_calls msgs calls w0))
            = provider_calls w0).
  { intros tool_calls msgs calls w0.
    apply (lift_run_tool_calls (fun a b => provider_calls b = provider_calls a)
             (fun _ => True) user_id tool_func); auto.
    - intros w1 w2 w3 H1 H2. congruence.
    - intros tool_name args w1 _. apply (Hkeeps tool_name _ w1). }
  unfold Agent03.invoke_agent.
  unfold bind at 1. unfold lift.
  destruct (Agent03.get_client api_key gemini_client new_client) as [client|e|];
    [|reflexivity..].
  set (msgs := Agent03.Text "system" system_prompt :: _).
  unfold try_except, bind.
  pose proof (create03_calls client msgs w) as Hc.
  destruct (Agent03.create client msgs w) as [[reply|e|] w1]; simpl in Hc;
    [|left; exact Hc..].
  destruct (Reply.tool_calls reply) as [|tool_call rest]; [left; exact Hc|]. cbv zeta.
  pose proof (Hrun (tool_call :: rest) msgs [] w1) as Hr.
  destruct (Agent03.run_tool_calls tool_func user_id (tool_call :: rest) msgs [] w1)
    as [[ran|e|] w2]; simpl in Hr;
    [|left; simpl; congruence..].
  pose proof (create03_calls client (fst ran) w2) as Hc2.
  destruct (Agent03.create client (fst ran) w2) as [[final|e|] w3]; simpl in Hc2;
    right; simpl; congruence.
Qed.

(** X29 — phase-03: the agent acts for its user only.  With the tools of
    phase-03, a run of [invoke_agent] on a consistent table leaves the
    table consistent and the rows of every other owner unchanged.  When
    [get_client] returns a client, the run sends one or two requests to the
    provider and can only raise [GeminiAPIError]; when the API key is not
    set, [get_client] raises before the [try], the run ends with that
    [ValueError], and nothing was sent or changed. *)
Theorem phase03_agent_acts_for_its_user
        isoformat api_key gemini_client new_client system_prompt
        user_id history user_message tools w :
  consistent w ->
  let r := Agent03.invoke_agent api_key gemini_client new_client system_prompt
                                (Tools03.tool_func isoformat)
                                user_id history user_message tools w in
  consistent (snd r)
  /\ (forall other, other <> user_id ->
        owned_by other (tasks (snd r)) = owned_by other (tasks w))
  /\ (forall client,
        Agent03.get_client api_key gemini_client new_client = Ok client ->
        (provider_calls w + 1 <= provider_calls (snd r) <= provider_calls w + 2)%nat
        /\ forall e, fst r = Exc e -> exists text, e = GeminiAPIError text)
  /\ (forall e,
        Agent03.get_client api_key gemini_client new_client = Exc e ->
        e = Agent03.api_key_missing /\ r = (Exc e, w))
  /\ (forall e, fst r = Exc e ->
        (exists text, e = GeminiAPIError text) \/ e = Agent03.api_key_missing).
Proof.
  intros Hw r.
  assert (Hacts : acts_as user_id w (snd r)).
  { apply (lift_invoke_agent (acts_as user_id) consistent user_id
             (Tools03.tool_func isoformat)).
    - apply (acts_as_refl user_id).
    - apply (acts_as_trans user_id).
    - intros w0 w' _ H. exact (stays_consistent _ _ _ H).
    - intros w0 Hw0. apply acts_as_later; [exact Hw0|lia].
    - intros tool_name args w0 Hw0. apply tool_func03_acts_as_owner. exact Hw0.
    - exact Hw. }
  pose proof (invoke_agent_requests api_key gemini_client new_client system_prompt
                (Tools03.tool_func isoformat) user_id history user_message tools w
                (tool_func03_keeps_environment isoformat)) as Hcalls.
  cbv zeta in Hcalls. fold r in Hcalls.
  assert (Hraises : forall e, fst r = Exc e ->
            ((exists client, Agent03.get_client api_key gemini_client new_client = Ok client)
             /\ exists text, e = GeminiAPIError text)
            \/ (Agent03.get_client api_key gemini_client new_client
                = Exc Agent03.api_key_missing
                /\ e = Agent03.api_key_missing /\ snd r = w)).
  { intros e He. subst r.
    destruct (Agent03.invoke_agent api_key gemini_client new_client system_prompt
                (Tools03.tool_func isoformat) user_id history user_message tools w)
      as [o w'] eqn:Hr.
    simpl in He. subst o.
    exact (invoke_agent_raises_service_error _ _ _ _ _ _ _ _ _ _ _ _ Hr). }
  split; [exact (stays_consistent _ _ _ Hacts)|].
  split; [exact (others_untouched _ _ _ Hacts)|].
  split; [|split].
  - intros client Hclient. rewrite Hclient in Hcalls. split; [lia|].
    intros e He. destruct (Hraises e He) as [[_ Htext]|[Hc _]]; [exact Htext|congruence].
  - intros e He. rewrite He in Hcalls. split; [|exact Hcalls].
    destruct (get_client_cases api_key gemini_client new_client) as [[client Hc]|[Hc _]];
      congruence.
  - intros e He. destruct (Hraises e He) as [[_ Htext]|(_ & -> & _)]; auto.
Qed.

(* ===================================================================== *)
(** * The chat endpoint of phase-03                                       *)
(* ===================================================================== *)

(** What [chat_endpoint] has done once the user's message is stored, or
    why it stopped before.  A message with a NUL character is refused when
    it is stored, after the conversation was found or created. *)
Lemma receive_cases tokens user_id request s :
  match Phase03.receive tokens user_id request s with
  | (Ok (conversation, history), s1) =>
      Conversation.user_id conversation = user_id
      /\ exists user_message,
           messages (chat s1) = messages (chat s) ++ [user_message]
           /\ Message.conversation_id user_message = Conversation.id conversation
           /\ Message.role user_message = "user"
           /\ Message.content user_message = ChatRequest.message request
  | (Exc e, s1) =>
      (chat s1 = chat s
       /\ ((e = ValidationError "Message must be less than 10,000 characters"
            /\ (10000 < len (ChatRequest.message request))%Z)
           \/ e = HTTPException 403
           \/ exists text, e = OperationalError text))
      \/ (messages (chat s1) = messages (chat s)
          /\ e = nul_refused /\ has_nul (ChatRequest.message request) = true)
  | (Unmodelled, _) => False
  end.
Proof.
  unfold Phase03.receive.
  destruct (Z.ltb_spec 10000 (len (ChatRequest.message request))) as [Hlong|_].
  { simpl. left. split; [reflexivity|]. left. split; [reflexivity|exact Hlong]. }
  unfold bind at 1. unfold try_except at 1.
  pose proof (get_or_create_conversation_cases user_id
                (ChatRequest.conversation_id request) s) as Hconv.
  destruct (Phase03.get_or_create_conversation user_id _ s) as [[conv|e|] s0];
    [|destruct Hconv as (-> & [(text & -> & _)|(-> & _)]); simpl;
      left; (split; [reflexivity|]); eauto|contradiction].
  destruct Hconv as (Hu & Hin & Hmsgs & _ & _ & Hagain).
  assert (Hdb : db_error (world s0) = None).
  { revert Hagain. unfold Phase03.get_or_create_conversation, bind, in_world, session.
    destruct (db_error (world s0)); [discriminate|reflexivity]. }
  unfold bind at 1.
  assert (Hload : Phase03.load_conversation_history tokens (Conversation.id conv) 2000 s0
                  = (Ok (Phase03.history_loop tokens
                           (Phase03.newest_first (Conversation.id conv) (chat s0))
                           2000 [] 0%Z), s0)).
  { unfold Phase03.load_conversation_history, bind, in_world, session, get_chat, ret.
    rewrite Hdb. destruct s0; reflexivity. }
  rewrite Hload. unfold bind at 1.
  pose proof (store_message_cases (Conversation.id conv) "user"
                (ChatRequest.message request) s0) as Hstore.
  destruct (Phase03.store_message (Conversation.id conv) "user"
              (ChatRequest.message request) s0) as [[message|e|] s2].
  - destruct Hstore as (-> & Hchat & _). unfold ret.
    split; [exact Hu|]. eexists. rewrite Hchat. simpl. rewrite Hmsgs.
    split; [reflexivity|]. auto.
  - destruct Hstore as (Hchat & _ & Hwhy). right. rewrite Hchat. split; [exact Hmsgs|].
    destruct Hwhy as [(text & _ & Hfails)|[(-> & [Hrole|Hcontent])|(_ & Hfk)]].
    + congruence.
    + discriminate.
    + auto.
    + exfalso. apply not_true_iff_false in Hfk. apply Hfk. apply existsb_exists.
      exists conv. split; [exact Hin|]. apply Nat.eqb_refl.
  - contradiction.
Qed.

(** X30 — phase-03: how [chat_endpoint] can end.  A response means that
    exactly the user's message and then the assistant's message, whose
    content is the returned text, were appended, both in the conversation
    named in the response.  Statuses 422 and 403 mean that nothing was
    written; status 503 means that the user's message, and only it, was
    stored; status 500 means one or the other, or that the message holds a
    NUL character and was refused when it was stored, in which case no
    message was written (a conversation may have been created).  No other
    status and no other exception leaves the endpoint. *)
Theorem chat_endpoint_outcomes
        tokens api_key gemini_client new_client system_prompt tool_func user_id request s :
  let r := Phase03.chat_endpoint tokens
             (Agent03.invoke_agent api_key gemini_client new_client system_prompt tool_func)
             user_id request s in
  let stored_user_message := fun s' =>
    exists user_message,
      messages (chat s') = messages (chat s) ++ [user_message]
      /\ Message.role user_message = "user"
      /\ Message.content user_message = ChatRequest.message request in
  match fst r with
  | Ok response =>
      exists user_message assistant_message,
        messages (chat (snd r)) = messages (chat s) ++ [user_message; assistant_message]
        /\ Message.role user_message = "user"
        /\ Message.content user_message = ChatRequest.message request
        /\ Message.role assistant_message = "assistant"
        /\ Message.content assistant_message = Phase03.ChatResponse.response response
        /\ Message.conversation_id user_message
           = Phase03.ChatResponse.conversation_id response
        /\ Message.conversation_id assistant_message
           = Phase03.ChatResponse.conversation_id response
  | Exc e =>
      ((e = HTTPException 422 \/ e = HTTPException 403) /\ chat (snd r) = chat s)
      \/ (e = HTTPException 500
          /\ (chat (snd r) = chat s \/ stored_user_message (snd r)
              \/ (has_nul (ChatRequest.message request) = true
                  /\ messages (chat (snd r)) = messages (chat s))))
      \/ (e = HTTPException 503 /\ stored_user_message (snd r))
  | Unmodelled => stored_user_message (snd r)
  end.
Proof.
  intros r stored_user_message. subst r.
  destruct (Phase03.chat_endpoint tokens _ user_id request s) as [o s'] eqn:Hrun.
  revert Hrun. unfold Phase03.chat_endpoint.
  unfold try_except at 1. unfold bind at 1.
  pose proof (receive_cases tokens user_id request s) as Hreceive.
  destruct (Phase03.receive tokens user_id request s) as [[[conversation history]|e|] s1];
    [|destruct Hreceive
        as [(Hchat & [(-> & _)|[->|(text & ->)]])|(Hmsgs & -> & Hnul)];
      simpl; intros [= <- <-]; simpl; auto 8|contradiction].
  destruct Hreceive as (Hu & user_message & Hmsgs & Hcid & Hrole & Hcontent).
  assert (Hstored : forall w db, messages db = messages (chat s1) ->
                                 stored_user_message (mkServer w db)).
  { intros w db Hdb. exists user_message. simpl. rewrite Hdb. auto. }
  unfold bind at 1. unfold try_except at 1. unfold in_world at 1.
  destruct (Agent03.invoke_agent api_key gemini_client new_client system_prompt tool_func
              user_id history (ChatRequest.message request) Phase03.get_tool_definitions
              (world s1))
    as [[agent_response|e|] w2] eqn:Hagent.
  - destruct (Phase03.AgentResponse.content agent_response) as [content|].
    + unfold bind at 1.
      pose proof (store_message_cases (Conversation.id conversation) "assistant" content
                    (mkServer w2 (chat s1))) as Hstore.
      destruct (Phase03.store_message (Conversation.id conversation) "assistant" content
                  (mkServer w2 (chat s1))) as [[message|e|] s2].
      * destruct Hstore as (-> & Hchat & _). unfold ret. intros [= <- <-]. simpl.
        exists user_message. eexists. rewrite Hchat. simpl.
        rewrite Hmsgs, <- List.app_assoc. simpl.
        split; [reflexivity|]. simpl. auto 10.
      * destruct Hstore as (Hchat & _ & Hwhy). destruct s2 as [w3 db3]. simpl in Hchat.
        assert (Hthere : stored_user_message (mkServer w3 db3))
          by (apply Hstored; rewrite Hchat; reflexivity).
        destruct Hwhy as [(text & -> & _)|[(-> & _)|(-> & _)]]; simpl;
          intros [= <- <-]; simpl; auto 6.
      * contradiction.
    + simpl. intros [= <- <-]. simpl. right. left. split; [reflexivity|].
      right. left. apply Hstored. reflexivity.
  - apply invoke_agent_raises_service_error in Hagent.
    destruct Hagent as [(_ & text & ->)|(_ & -> & ->)].
    + simpl. intros [= <- <-]. simpl. right. right. split; [reflexivity|].
      apply Hstored. reflexivity.
    + unfold Agent03.api_key_missing, Phase03.on_agent_error.
      destruct (_ || _); simpl; intros [= <- <-]; simpl; right; left;
        (split; [reflexivity|]); right; left; apply Hstored; reflexivity.
  - simpl. intros [= <- <-]. simpl. apply Hstored. reflexivity.
Qed.

(** The case of a message with a NUL character: the conversation is
    created, the message is refused, and the request ends with status 500;
    the conversation table has grown and the message table has not. *)
Example chat_endpoint_refuses_nul_message :
  let request := ChatRequest.mk nul_title None in
  exists s',
    Phase03.chat_endpoint String.length
      (Agent03.invoke_agent (Some "key") None (fun _ => unreachable03) "prompt" no_tools)
      "alice" request fresh_server
    = (Exc (HTTPException 500), s')
    /\ conversations (chat s') = [Conversation.mk 0 "alice" 2 3]
    /\ chat s' <> chat fresh_server
    /\ messages (chat s') = messages (chat fresh_server).
Proof.
  eexists. split; [vm_compute; reflexivity|].
  split; [reflexivity|]. split; [discriminate|reflexivity].
Qed.

(* ===================================================================== *)
(** * Instances                                                           *)
(* ===================================================================== *)

Lemma storage_failure_changes_no_task_witness :
  db_error (failing "connection refused" alice_world) = Some "connection refused"
  /\ reports_failure (failing "connection refused" alice_world)
       (Mcp.add_task (PStr "alice") (PStr "eggs") PNone
                     (failing "connection refused" alice_world)).
Proof.
  split; [reflexivity|].
  exact (proj1 (storage_failure_changes_no_task
                  (failing "connection refused" alice_world) "connection refused"
                  (PStr "alice") (PInt 1) (PStr "eggs") PNone PNone PNone eq_refl)).
Defined.

Lemma update_task_by_owner_witness :
  available alice_world /\ valid_owner "alice"
  /\ Mcp.select_task 1 "alice" (tasks alice_world) = Some milk
  /\ update_args_valid (Some " oat milk ") None
  /\ storable_opt (Some " oat milk ") /\ storable_opt None
  /\ exists w',
       Mcp.update_task (PStr "alice") (PInt 1) (PStr " oat milk ") PNone alice_world
         = (Ok (Success 1 "updated" "oat milk"), w')
       /\ Mcp.select_task 1 "alice" (tasks w')
          = Some (Task.mk 1 "alice" "oat milk" None false 0 2).
Proof.
  assert (Hargs : update_args_valid (Some " oat milk ") None).
  { split; [left; discriminate|]. intros t [= <-]. reflexivity. }
  split; [reflexivity|]. split; [reflexivity|]. split; [reflexivity|].
  split; [exact Hargs|]. split; [reflexivity|]. split; [exact I|].
  destruct (update_task_by_owner alice_world "alice" 1 milk (Some " oat milk ") None
              eq_refl eq_refl eq_refl Hargs eq_refl I) as (w' & Hrun & _ & Hsel & _).
  exists w'. split; [exact Hrun|exact Hsel].
Defined.


Lemma tools_never_touch_other_owners_witness :
  consistent alice_world /\ "alice" <> "bob"
  /\ owned_by "alice" (tasks (snd (Mcp.delete_task (PStr "bob") (PInt 1) alice_world)))
     = owned_by "alice" (tasks alice_world).
Proof.
  split; [exact alice_world_consistent|]. split; [discriminate|].
  exact (proj2 (proj2 (proj2 (proj2
           (tools_never_touch_other_owners alice_world "bob" "alice" (PInt 1) PNone PNone
              PNone PNone alice_world_consistent ltac:(discriminate)))))).
Defined.

Lemma agent_never_touches_other_owners_witness :
  consistent alice_world /\ "alice" <> "bob"
  /\ owned_by "alice"
       (tasks (snd (AiAgent.generate_response adds_then_fails "prompt"
                      [("user", "add eggs")] "bob" alice_world)))
     = owned_by "alice" (tasks alice_world).
Proof.
  split; [exact alice_world_consistent|]. split; [discriminate|].
  exact (proj2 (agent_never_touches_other_owners adds_then_fails "prompt"
                  [("user", "add eggs")] "bob" "alice" alice_world "add_task" PNone
                  alice_world_consistent ltac:(discriminate))).
Defined.

Lemma table_stays_consistent_witness :
  consistent alice_world
  /\ consistent (snd (AiAgent.generate_response adds_then_fails "prompt"
                        [("user", "add eggs")] "alice" alice_world)).
Proof.
  split; [exact alice_world_consistent|].
  exact (proj2 (proj2 (proj2 (proj2 (proj2
           (table_stays_consistent adds_then_fails "prompt" [("user", "add eggs")] "alice"
              alice_world PNone PNone PNone PNone PNone PNone alice_world_consistent)))))).
Defined.

Lemma task_ids_never_reused_witness :
  consistent alice_world /\ In milk (tasks alice_world)
  /\ (exists w1 w2,
        w1 = snd (AiAgent.generate_response adds_then_fails "prompt"
                    [("user", "add eggs")] "alice" alice_world)
        /\ Mcp.add_task (PStr "alice") (PStr "bread") PNone w1
           = (Ok (Success 3 "created" "bread"), w2))
  /\ (Task.id milk < 3)%Z.
Proof.
  split; [exact alice_world_consistent|]. split; [left; reflexivity|].
  split; [eexists _, _; split; [reflexivity|vm_compute; reflexivity]|].
  refine (proj1 (task_ids_never_reused adds_then_fails "prompt" [("user", "add eggs")]
                   "alice" alice_world milk (PStr "alice") (PStr "bread") PNone 3
                   "created" "bread" _ alice_world_consistent (or_introl eq_refl) _)).
  vm_compute. reflexivity.
Defined.

Lemma stored_titles_stay_wellformed_witness :
  titles_ok alice_world
  /\ titles_ok (snd (Mcp.add_task (PStr "alice") (PStr "  eggs ") PNone alice_world)).
Proof.
  assert (Hw : titles_ok alice_world).
  { constructor; [|constructor]. split; [reflexivity|]. split; [discriminate|simpl; lia]. }
  split; [exact Hw|].
  exact (proj1 (stored_titles_stay_wellformed unreachable "prompt" [] "alice" alice_world
                  (PStr "alice") PNone (PStr "  eggs ") PNone Hw)).
Defined.

Lemma list_tasks_sorted_and_bounded_witness :
  Mcp.list_tasks (PStr "alice") (PStr "all") (PInt 10) alice_world
    = (Ok (TaskList [Mcp.row_of_task milk]), alice_world)
  /\ (length [Mcp.row_of_task milk] <= 1000)%nat.
Proof.
  split; [reflexivity|].
  exact (proj1 (proj2 (proj2
           (list_tasks_sorted_and_bounded alice_world (PStr "alice") (PStr "all") (PInt 10)
              [Mcp.row_of_task milk] alice_world eq_refl)))).
Defined.

Lemma list_tasks_status_filter_witness :
  available alice_world /\ valid_owner "alice" /\ (1 <= 10)%Z
  /\ (length (owned_by "alice" (tasks alice_world)) <= Z.to_nat (Z.min 10 1000))%nat
  /\ exists (all pending completed : list Row.t),
       Mcp.list_tasks (PStr "alice") (PStr "pending") (PInt 10) alice_world
         = (Ok (TaskList pending), alice_world)
       /\ Mcp.list_tasks (PStr "alice") (PStr "completed") (PInt 10) alice_world
          = (Ok (TaskList completed), alice_world)
       /\ (length pending + length completed)%nat = length all.
Proof.
  assert (Hlen : (length (owned_by "alice" (tasks alice_world))
                  <= Z.to_nat (Z.min 10 1000))%nat) by (vm_compute; lia).
  split; [reflexivity|]. split; [reflexivity|]. split; [lia|]. split; [exact Hlen|].
  destruct (list_tasks_status_filter alice_world "alice" 10 eq_refl eq_refl
              ltac:(lia) Hlen)
    as (all & pending & completed & _ & _ & Hp & Hc & _ & _ & _ & Hsum & _).
  exists all, pending, completed. split; [exact Hp|]. split; [exact Hc|exact Hsum].
Defined.

(** A batch of two calls: a listing and a call to a tool that does not
    exist. *)
Definition list_call : ToolCall.t := ToolCall.mk "call_1" "list_tasks" (Json (PDict ∅)).

Definition archive_call : ToolCall.t :=
  ToolCall.mk "call_2" "archive_task" (Json (PDict {["task_id" := PInt 1]})).

Lemma execute_tool_calls_answers_each_call_witness :
  AiAgent.execute_tool_calls "alice" [list_call; archive_call] [] alice_world
    = (Ok [ToolResult "call_1" (TaskList [Mcp.row_of_task milk]);
           ToolResult "call_2" (Error "Unknown tool: archive_task")], alice_world)
  /\ exists results,
       length results = 2%nat
       /\ [ToolResult "call_1" (TaskList [Mcp.row_of_task milk]);
           ToolResult "call_2" (Error "Unknown tool: archive_task")]
          = [] ++ tool_results [list_call; archive_call] results.
Proof.
  assert (Hrun : AiAgent.execute_tool_calls "alice" [list_call; archive_call] [] alice_world
                 = (Ok [ToolResult "call_1" (TaskList [Mcp.row_of_task milk]);
                        ToolResult "call_2" (Error "Unknown tool: archive_task")],
                    alice_world)) by (vm_compute; reflexivity).
  split; [exact Hrun|].
  destruct (execute_tool_calls_answers_each_call "alice" [list_call; archive_call] []
              alice_world _ alice_world Hrun) as (results & Hlen & Hmsgs & _).
  exists results. split; [exact Hlen|exact Hmsgs].
Defined.

Lemma unknown_tool_does_not_stop_the_batch_witness :
  ~ In (ToolCall.name archive_call) (List.map ToolSchema.name AiAgent.tools)
  /\ ToolCall.arguments archive_call = Json (PDict {["task_id" := PInt 1]})
  /\ AiAgent.execute_tool_calls "alice" [archive_call; list_call] [] alice_world
     = AiAgent.execute_tool_calls "alice" [list_call]
         ([] ++ [ToolResult "call_2" (Error "Unknown tool: archive_task")]) alice_world.
Proof.
  assert (Hname : ~ In (ToolCall.name archive_call)
                       (List.map ToolSchema.name AiAgent.tools)).
  { simpl. intros [H|[H|[H|[H|[H|[]]]]]]; discriminate H. }
  split; [exact Hname|]. split; [reflexivity|].
  exact (proj2 (unknown_tool_does_not_stop_the_batch "alice" archive_call [list_call] []
                  alice_world {["task_id" := PInt 1]} Hname eq_refl)).
Defined.

Lemma list_call_follows_schema : follows_schema list_call.
Proof.
  exists (ToolSchema.mk "list_tasks"
            "Retrieve the user's tasks, optionally filtered by completion status"
            [ Property.mk "status" "string" (Some ["all"; "pending"; "completed"]);
              Property.mk "limit" "integer" None ]
            None), ∅.
  split; [right; left; reflexivity|]. split; [reflexivity|]. split; [reflexivity|].
  split.
  - intros k v H. rewrite lookup_empty in H. discriminate.
  - intros k [].
Qed.

Lemma conforming_calls_are_all_answered_witness :
  Forall follows_schema [list_call]
  /\ exists results w',
       AiAgent.execute_tool_calls "alice" [list_call] [] alice_world
         = (Ok ([] ++ tool_results [list_call] results), w')
       /\ length results = 1%nat.
Proof.
  assert (H : Forall follows_schema [list_call])
    by (constructor; [exact list_call_follows_schema|constructor]).
  split; [exact H|].
  exact (conforming_calls_are_all_answered "alice" [list_call] [] alice_world H).
Defined.

Lemma listing_model_follows_schema n msgs reply :
  listing_model n msgs = inr reply -> Forall follows_schema (Reply.tool_calls reply).
Proof.
  intros [= <-]. constructor; [exact list_call_follows_schema|constructor].
Qed.

Lemma schema_following_model_never_crashes_witness :
  (forall n msgs reply,
      listing_model n msgs = inr reply -> Forall follows_schema (Reply.tool_calls reply))
  /\ only_provider_errors listing_model
       (AiAgent.generate_response listing_model "prompt" [("user", "what are my tasks?")]
                                  "alice" alice_world).
Proof.
  split; [exact listing_model_follows_schema|].
  exact (schema_following_model_never_crashes listing_model "prompt"
           [("user", "what are my tasks?")] "alice" alice_world
           listing_model_follows_schema).
Defined.

(** A provider that answers at once, and one that answers with nothing. *)
Definition plain_model : Provider := fun _ _ => inr (Reply.mk (Some "Done.") []).

Definition silent_model : Provider := fun _ _ => inr (Reply.mk None []).

Lemma generate_response_first_reply_witness :
  plain_model (provider_calls alice_world)
              (Plain "system" "prompt"
                 :: List.map (fun m => Plain (fst m) (snd m)) [("user", "hello")])
    = inr (Reply.mk (Some "Done.") [])
  /\ fst (AiAgent.generate_response plain_model "prompt" [("user", "hello")] "alice"
            alice_world)
     = Ok (Some "Done.").
Proof.
  split; [reflexivity|].
  exact (f_equal fst
           (proj2 (generate_response_first_reply plain_model "prompt" [("user", "hello")]
                     "alice" alice_world)
                  (Reply.mk (Some "Done.") []) eq_refl eq_refl)).
Defined.

Lemma generate_response_stops_at_ceiling_witness :
  always_requests_tools listing_model /\ tool_calls_return "alice" listing_model
  /\ exists text w',
       AiAgent.generate_response listing_model "prompt" [("user", "what are my tasks?")]
                                 "alice" alice_world
       = (Ok (Some text), w')
       /\ text <> ""
       /\ provider_calls w' = (provider_calls alice_world + 5)%nat.
Proof.
  split; [exact (proj1 (listing_model_returns "alice"))|].
  split; [exact (proj2 (listing_model_returns "alice"))|].
  exact (generate_response_stops_at_ceiling listing_model "prompt"
           [("user", "what are my tasks?")] "alice" alice_world
           (proj1 (listing_model_returns "alice")) (proj2 (listing_model_returns "alice"))).
Defined.

Lemma send_chat_message_all_or_nothing_witness :
  strip (ChatRequest.message (ChatRequest.mk "   " None)) = ""
  /\ Chat.send_chat_message plain_model "prompt" "alice" (ChatRequest.mk "   " None)
                            fresh_server
     = (Exc (HTTPException 422), fresh_server).
Proof.
  split; [reflexivity|].
  exact (proj1 (send_chat_message_all_or_nothing plain_model "prompt" "alice"
                  (ChatRequest.mk "   " None) fresh_server) eq_refl).
Defined.

Lemma send_chat_message_success_witness :
  (exists response s',
     Chat.send_chat_message plain_model "prompt" "alice" add_eggs fresh_server
     = (Ok response, s'))
  /\ exists s' user_message assistant_message,
       messages (chat s') = messages (chat fresh_server) ++ [user_message; assistant_message]
       /\ Message.content user_message = "please add eggs"
       /\ Message.role assistant_message = "assistant".
Proof.
  assert (Hran : exists response s',
             Chat.send_chat_message plain_model "prompt" "alice" add_eggs fresh_server
             = (Ok response, s'))
    by (eexists _, _; vm_compute; reflexivity).
  split; [exact Hran|].
  destruct Hran as (response & s' & Hrun).
  destruct (send_chat_message_success plain_model "prompt" "alice" add_eggs fresh_server
              response s' Hrun)
    as (conversation & user_message & assistant_message & Hmsgs & _ & _ & _ & _ & _ & _
        & Hcontent & _ & _ & Hrole & _).
  exists s', user_message, assistant_message.
  split; [exact Hmsgs|]. split; [exact Hcontent|exact Hrole].
Defined.

Lemma send_chat_message_null_reply_witness :
  strip (ChatRequest.message add_eggs) <> ""
  /\ (exists opened,
        Chat.open_round "alice" (ChatRequest.conversation_id add_eggs)
                        (strip (ChatRequest.message add_eggs)) (chat fresh_server)
                        (world fresh_server)
        = (Ok opened, mkWorld [milk] 2 5 2 0 None))
  /\ exists w2,
       Chat.send_chat_message silent_model "prompt" "alice" add_eggs fresh_server
       = (Exc (HTTPException 500), mkServer w2 (chat fresh_server)).
Proof.
  assert (Hmsg : strip (ChatRequest.message add_eggs) <> "") by (vm_compute; discriminate).
  split; [exact Hmsg|].
  split; [eexists; vm_compute; reflexivity|].
  destruct (send_chat_message_null_reply silent_model "prompt" "alice" add_eggs fresh_server
              (Conversation.mk 0 "alice" 2 3)
              (mkChatDb [Conversation.mk 0 "alice" 2 3]
                        [Message.mk 1 0 "user" "please add eggs" 4])
              [("user", "please add eggs")] (mkWorld [milk] 2 5 2 0 None)
              (Reply.mk None []) Hmsg ltac:(vm_compute; reflexivity) eq_refl eq_refl eq_refl)
    as (w2 & Hrun & _).
  exists w2. exact Hrun.
Defined.

Lemma store_then_load_witness :
  available (world one_message)
  /\ (exists c, In c (conversations (chat one_message)) /\ Conversation.id c = 7%nat)
  /\ storable "user" /\ storable "and eggs"
  /\ Forall (fun m => (Message.created_at m < clock (world one_message))%nat)
            (messages (chat one_message))
  /\ (Z.of_nat (String.length "and eggs") <= 2000)%Z
  /\ exists message s1 older,
       Phase03.store_message 7 "user" "and eggs" one_message = (Ok message, s1)
       /\ Phase03.load_conversation_history String.length 7 2000 s1
          = (Ok (older ++ [("user", "and eggs")]), s1).
Proof.
  assert (Hpast : Forall (fun m => (Message.created_at m < clock (world one_message))%nat)
                         (messages (chat one_message)))
    by (constructor; [simpl; lia|constructor]).
  assert (Hconv : exists c, In c (conversations (chat one_message))
                            /\ Conversation.id c = 7%nat)
    by (eexists; split; [left; reflexivity|reflexivity]).
  split; [reflexivity|]. split; [exact Hconv|].
  split; [reflexivity|]. split; [reflexivity|].
  split; [exact Hpast|]. split; [simpl; lia|].
  destruct (store_then_load String.length 7 "user" "and eggs" 2000 one_message
              eq_refl Hconv eq_refl eq_refl Hpast ltac:(simpl; lia))
    as (message & s1 & older & Hstore & _ & _ & Hload & _).
  exists message, s1, older. split; [exact Hstore|exact Hload].
Defined.

Lemma load_conversation_history_grows_with_budget_witness :
  available (world one_message) /\ (0 <= 1 <= 5)%Z
  /\ exists shown older,
       Phase03.load_conversation_history String.length 7 1 one_message
         = (Ok shown, one_message)
       /\ Phase03.load_conversation_history String.length 7 5 one_message
          = (Ok (older ++ shown), one_message).
Proof.
  split; [reflexivity|]. split; [lia|].
  destruct (load_conversation_history_grows_with_budget String.length 7 1 5 one_message
              eq_refl ltac:(lia)) as (shown & older & Hsmall & Hlarge & _).
  exists shown, older. split; [exact Hsmall|exact Hlarge].
Defined.

Lemma tools03_report_foreign_task_witness :
  consistent alice_world /\ available alice_world
  /\ In milk (tasks alice_world) /\ Task.user_id milk <> "bob"
  /\ Tools03.delete_task (PStr "bob") (PInt 1) alice_world
     = (Exc (ValueError "Task 1 not found or access denied"), alice_world).
Proof.
  split; [exact alice_world_consistent|]. split; [reflexivity|].
  split; [left; reflexivity|]. split; [discriminate|].
  exact (proj1 (proj2
           (tools03_report_foreign_task str_of_nat alice_world "bob" milk PNone PNone
              alice_world_consistent eq_refl (or_introl eq_refl) ltac:(discriminate)))).
Defined.

(** A client that asks for one deletion and then answers. *)
Definition deleting_client : Agent03.Client :=
  fun n _ =>
    match n with
    | O => inr (Reply.mk None
                  [ToolCall.mk "call_1" "delete_task" (Json (PDict {["task_id" := PInt 1]}))])
    | S _ => inr (Reply.mk (Some "I could not find that task.") [])
    end.

Lemma phase03_agent_acts_for_its_user_witness :
  consistent alice_world
  /\ owned_by "alice"
       (tasks (snd (Agent03.invoke_agent (Some "key") None (fun _ => deleting_client)
                      "prompt" (Tools03.tool_func str_of_nat) "bob" [] "delete task 1"
                      Phase03.get_tool_definitions alice_world)))
     = owned_by "alice" (tasks alice_world)
  /\ Agent03.invoke_agent None None (fun _ => deleting_client)
                          "prompt" (Tools03.tool_func str_of_nat) "bob" [] "delete task 1"
                          Phase03.get_tool_definitions alice_world
     = (Exc Agent03.api_key_missing, alice_world).
Proof.
  split; [exact alice_world_consistent|]. split.
  - exact (proj1 (proj2
             (phase03_agent_acts_for_its_user str_of_nat (Some "key") None
                (fun _ => deleting_client) "prompt" "bob" []
                "delete task 1" Phase03.get_tool_definitions alice_world
                alice_world_consistent))
             "alice" ltac:(discriminate)).
  - exact (proj2 (proj1 (proj2 (proj2 (proj2
             (phase03_agent_acts_for_its_user str_of_nat None None
                (fun _ => deleting_client) "prompt" "bob" []
                "delete task 1" Phase03.get_tool_definitions alice_world
                alice_world_consistent))))
             Agent03.api_key_missing eq_refl)).
Defined.
